(** * Quiz submission lifecycle, scoring and visibility

    A shallow embedding of the quiz subsystem of the tutoring backend
    ([quizzes/models.py], [quizzes/views.py], [quizzes/serializers.py],
    [quizzes/permissions.py]) together with the properties its specification
    states about it.

    Conventions of the embedding:
    - a [datetime] is its number of microseconds since 0001-01-01T00:00:00 UTC;
      Python raises [OverflowError] when an addition leaves the representable
      range, which [dt_add] makes explicit;
    - a raised Python exception is a value of [exn] carried by [py];
    - database tables keyed by a primary key or by a [unique_together] pair are
      finite maps on that key;
    - the [FloatField]s stored in the tables are read as exact rationals
      ([Q]); the values [calculate_score] computes are given a second time in
      IEEE 754 binary64, roundings included ([Binary64],
      [calculate_score_binary64]). *)

From Stdlib Require Import ZArith QArith Qminmax Lia Lqa.
From Stdlib Require Import Floats.SpecFloat.
From stdpp Require Import gmap strings list sorting.

Local Open Scope Z_scope.

(** ** Python exceptions *)

Inductive exn : Type :=
| OverflowError
| DoesNotExist
| RelatedObjectDoesNotExist
| IntegrityError
| KeyError
| TypeError.

Inductive py (A : Type) : Type :=
| Ok (a : A)
| Raise (e : exn).

Arguments Ok {A} a.
Arguments Raise {A} e.

#[global] Instance py_ret : MRet py := fun A a => Ok a.

#[global] Instance py_bind : MBind py := fun A B k m =>
  match m with
  | Ok a => k a
  | Raise e => Raise e
  end.

(** ** [datetime] and [timedelta] *)

Module PyTime.

Definition datetime : Type := Z.

Definition US_PER_SECOND : Z := 1000000.
Definition US_PER_MINUTE : Z := 60 * US_PER_SECOND.
Definition US_PER_DAY : Z := 86400 * US_PER_SECOND.

(** [date.max.toordinal()], the ordinal of 9999-12-31. *)
Definition MAXORDINAL : Z := 3652059.

(** 9999-12-31T23:59:59.999999 *)
Definition datetime_max : datetime := MAXORDINAL * US_PER_DAY - 1.

Definition valid_datetime (d : datetime) : Prop := 0 <= d <= datetime_max.

(** [timedelta(minutes=m, seconds=s)]: the constructor normalises to days and
    refuses a magnitude of more than 999999999 days. *)
Definition timedelta (minutes seconds : Z) : py Z :=
  let us := minutes * US_PER_MINUTE + seconds * US_PER_SECOND in
  if 999999999 <? Z.abs (us / US_PER_DAY) then Raise OverflowError else Ok us.

(** [d + td] on a [datetime]: "result out of range" outside year 1..9999. *)
Definition dt_add (d : datetime) (td : Z) : py datetime :=
  let r := d + td in
  if (0 <=? r) && (r <=? datetime_max) then Ok r else Raise OverflowError.

End PyTime.

Import PyTime.

(** ** Models ([quizzes/models.py]) *)

Record QuizSettings : Type := {
  timer_minutes : N;            (* PositiveIntegerField, 0 = no time limit *)
  score_visibility : string;
  answers_visibility : string;
  question_order : string
}.

Record QuizCenter : Type := {
  open_date : datetime;
  close_date : datetime
}.

Record QuizSubmission : Type := {
  id : Z;
  start_time : option datetime;
  end_time : option datetime;
  score : Q;
  is_submitted : bool;
  is_score_released : bool;
  are_answers_released : bool
}.

(** [self.quiz.settings]: the reverse one-to-one accessor raises when the quiz
    has no settings row. *)
Definition get_settings (st : option QuizSettings) : py QuizSettings :=
  match st with
  | Some s => Ok s
  | None => Raise RelatedObjectDoesNotExist
  end.

(** [QuizSubmission.is_timed_out], evaluated at wall-clock time [now]. *)
Definition is_timed_out (st : option QuizSettings) (now : datetime)
    (self : QuizSubmission) : py bool :=
  if is_submitted self then Ok false
  else if bool_decide (is_Some (end_time self)) then Ok true
  else
    match start_time self with
    | None => Ok false
    | Some start =>
        settings ← get_settings st;
        if (timer_minutes settings =? 0)%N then Ok false
        else
          match (td ← timedelta (Z.of_N (timer_minutes settings)) 60;
                 dt_add start td) with
          | Ok deadline => Ok (deadline <? now)
          | Raise OverflowError => Ok false
          | Raise e => Raise e
          end
    end.

(** The timed-out predicate as the specification words it. *)
Definition spec_timed_out (settings : QuizSettings) (now : datetime)
    (self : QuizSubmission) : Prop :=
  is_submitted self = false /\
  (is_Some (end_time self) \/
   exists start, start_time self = Some start /\
     (0 < timer_minutes settings)%N /\
     now > start + Z.of_N (timer_minutes settings) * US_PER_MINUTE
                 + 60 * US_PER_SECOND).

Record Quiz : Type := {
  quiz_teacher : Z;
  quiz_grade : Z
}.

Record Question : Type := {
  question_quiz : Z;
  selection_type : string;
  points : N;                   (* PositiveIntegerField *)
  question_order_index : N;     (* the [order] column *)
  created_at : datetime
}.

Record Choice : Type := {
  choice_question : Z;
  choice_is_correct : bool
}.

Record Answer : Type := {
  answer_submission : Z;
  answer_question : Z;
  is_correct : bool;
  points_earned : Q;
  order : N
}.

Record StudentProfile : Type := {
  student_pk : Z;
  full_name : string;
  student_grade : Z;
  center_id : Z
}.

(** ** The database

    [db_submissions] is keyed by (quiz, student), the [unique_together] pair
    of [QuizSubmission]; [db_quizcenters] by (quiz, center); [db_settings] by
    the quiz of the one-to-one relation. [db_selected] is the through table of
    [Answer.selected_choices], rows (answer, choice). [db_next_pk] is the
    sequence new primary keys are drawn from. *)

Record DB : Type := {
  db_quizzes : gmap Z Quiz;
  db_settings : gmap Z QuizSettings;
  db_quizcenters : gmap (Z * Z) QuizCenter;
  db_questions : gmap Z Question;
  db_choices : gmap Z Choice;
  db_submissions : gmap (Z * Z) QuizSubmission;
  db_answers : gmap Z Answer;
  db_selected : list (Z * Z);
  db_next_pk : Z
}.

Definition set_submissions (f : gmap (Z * Z) QuizSubmission -> gmap (Z * Z) QuizSubmission)
    (db : DB) : DB :=
  {| db_quizzes := db_quizzes db; db_settings := db_settings db;
     db_quizcenters := db_quizcenters db; db_questions := db_questions db;
     db_choices := db_choices db; db_submissions := f (db_submissions db);
     db_answers := db_answers db; db_selected := db_selected db;
     db_next_pk := db_next_pk db |}.

Definition set_answers (f : gmap Z Answer -> gmap Z Answer) (db : DB) : DB :=
  {| db_quizzes := db_quizzes db; db_settings := db_settings db;
     db_quizcenters := db_quizcenters db; db_questions := db_questions db;
     db_choices := db_choices db; db_submissions := db_submissions db;
     db_answers := f (db_answers db); db_selected := db_selected db;
     db_next_pk := db_next_pk db |}.

Definition set_selected (f : list (Z * Z) -> list (Z * Z)) (db : DB) : DB :=
  {| db_quizzes := db_quizzes db; db_settings := db_settings db;
     db_quizcenters := db_quizcenters db; db_questions := db_questions db;
     db_choices := db_choices db; db_submissions := db_submissions db;
     db_answers := db_answers db; db_selected := f (db_selected db);
     db_next_pk := db_next_pk db |}.

Definition set_next_pk (n : Z) (db : DB) : DB :=
  {| db_quizzes := db_quizzes db; db_settings := db_settings db;
     db_quizcenters := db_quizcenters db; db_questions := db_questions db;
     db_choices := db_choices db; db_submissions := db_submissions db;
     db_answers := db_answers db; db_selected := db_selected db;
     db_next_pk := n |}.

(** *** Field updates of a submission row *)

Definition with_start_time (t : option datetime) (s : QuizSubmission) : QuizSubmission :=
  {| id := id s; start_time := t; end_time := end_time s; score := score s;
     is_submitted := is_submitted s; is_score_released := is_score_released s;
     are_answers_released := are_answers_released s |}.

Definition with_end_time (t : option datetime) (s : QuizSubmission) : QuizSubmission :=
  {| id := id s; start_time := start_time s; end_time := t; score := score s;
     is_submitted := is_submitted s; is_score_released := is_score_released s;
     are_answers_released := are_answers_released s |}.

Definition with_score (q : Q) (s : QuizSubmission) : QuizSubmission :=
  {| id := id s; start_time := start_time s; end_time := end_time s; score := q;
     is_submitted := is_submitted s; is_score_released := is_score_released s;
     are_answers_released := are_answers_released s |}.

Definition with_is_submitted (b : bool) (s : QuizSubmission) : QuizSubmission :=
  {| id := id s; start_time := start_time s; end_time := end_time s; score := score s;
     is_submitted := b; is_score_released := is_score_released s;
     are_answers_released := are_answers_released s |}.

Definition with_is_score_released (b : bool) (s : QuizSubmission) : QuizSubmission :=
  {| id := id s; start_time := start_time s; end_time := end_time s; score := score s;
     is_submitted := is_submitted s; is_score_released := b;
     are_answers_released := are_answers_released s |}.

Definition with_are_answers_released (b : bool) (s : QuizSubmission) : QuizSubmission :=
  {| id := id s; start_time := start_time s; end_time := end_time s; score := score s;
     is_submitted := is_submitted s; is_score_released := is_score_released s;
     are_answers_released := b |}.

(** *** Querysets *)

(** [Question.Meta.ordering = ['order', 'created_at']] *)
Definition question_le (x y : Z * Question) : Prop :=
  (question_order_index x.2 < question_order_index y.2)%N \/
  (question_order_index x.2 = question_order_index y.2 /\
   created_at x.2 <= created_at y.2).

#[global] Instance question_le_dec x y : Decision (question_le x y).
Proof. unfold question_le. apply _. Defined.

(** [quiz.questions.all()] *)
Definition quiz_questions (db : DB) (quiz : Z) : list (Z * Question) :=
  merge_sort question_le
    (filter (fun r => question_quiz r.2 = quiz) (map_to_list (db_questions db))).

(** [Answer.Meta.ordering = ['order']] *)
Definition answer_le (x y : Z * Answer) : Prop := (order x.2 <= order y.2)%N.

#[global] Instance answer_le_dec x y : Decision (answer_le x y).
Proof. unfold answer_le. apply _. Defined.

(** [submission.answers.all()] *)
Definition submission_answers (db : DB) (sub : QuizSubmission) : list (Z * Answer) :=
  merge_sort answer_le
    (filter (fun r => answer_submission r.2 = id sub) (map_to_list (db_answers db))).

(** [question.choices.filter(is_correct=True).count()] *)
Definition count_correct_choices (db : DB) (question : Z) : nat :=
  length (filter (fun r => choice_question r.2 = question /\ choice_is_correct r.2 = true)
                 (map_to_list (db_choices db))).

(** rows of the through table for one answer: [answer.selected_choices] *)
Definition selected_choices (db : DB) (answer : Z) : list Z :=
  snd <$> filter (fun r => r.1 = answer) (db_selected db).

Definition choice_correct (db : DB) (choice : Z) : bool :=
  match db_choices db !! choice with
  | Some c => choice_is_correct c
  | None => false
  end.

(** [answer.selected_choices.filter(is_correct=True).count()] *)
Definition count_selected_correct (db : DB) (answer : Z) : nat :=
  length (filter (fun c => choice_correct db c = true) (selected_choices db answer)).

(** [answer.selected_choices.count()] *)
Definition count_selected (db : DB) (answer : Z) : nat :=
  length (selected_choices db answer).

(** *** Scoring: [QuizSubmission.calculate_score]

    This first embedding reads the arithmetic of the method exactly, over the
    rationals; the database keeps [score] and [points_earned] in that
    reading. The values the method computes in binary64, roundings included,
    are given further down by [calculate_score_binary64]. *)

Definition Qnat (n : nat) : Q := inject_Z (Z.of_nat n).
Definition QofN (n : N) : Q := inject_Z (Z.of_N n).

(** [answer.question]: following the foreign key. *)
Definition get_question (db : DB) (question : Z) : py Question :=
  match db_questions db !! question with
  | Some q => Ok q
  | None => Raise DoesNotExist
  end.

Definition with_result (correct : bool) (earned : Q) (a : Answer) : Answer :=
  {| answer_submission := answer_submission a; answer_question := answer_question a;
     is_correct := correct; points_earned := earned; order := order a |}.

(** One iteration of the loop of [calculate_score]: the rescored answer, or
    [None] when the question has no correct choice and the answer is skipped. *)
Definition score_answer (db : DB) (pk : Z) (answer : Answer) : py (option Answer) :=
  question ← get_question db (answer_question answer);
  let total_correct_choices := count_correct_choices db (answer_question answer) in
  let selected_correct := count_selected_correct db pk in
  let selected_total := count_selected db pk in
  if (0 <? total_correct_choices)%nat then
    let partial_score :=
      (Qnat selected_correct / Qnat total_correct_choices * QofN (points question))%Q in
    let incorrectly_selected := Z.of_nat selected_total - Z.of_nat selected_correct in
    let partial_score :=
      if 0 <? incorrectly_selected then
        let penalty :=
          (inject_Z incorrectly_selected / Qnat total_correct_choices
           * QofN (points question))%Q in
        Qmax 0 (partial_score - penalty)
      else partial_score in
    Ok (Some (with_result
                ((selected_correct =? total_correct_choices)%nat
                 && (selected_total =? total_correct_choices)%nat)
                partial_score answer))
  else Ok None.

Fixpoint score_loop (db : DB) (answers : list (Z * Answer)) (total_score : Q)
    (answers_to_update : list (Z * Answer)) : py (Q * list (Z * Answer)) :=
  match answers with
  | [] => Ok (total_score, answers_to_update)
  | (pk, answer) :: rest =>
      r ← score_answer db pk answer;
      match r with
      | Some answer' =>
          score_loop db rest (total_score + points_earned answer')%Q
                     (answers_to_update ++ [(pk, answer')])
      | None => score_loop db rest total_score answers_to_update
      end
  end.

(** [Answer.objects.bulk_update(rows, ['points_earned', 'is_correct'])] *)
Definition bulk_update_answers (rows : list (Z * Answer)) (db : DB) : DB :=
  set_answers (fun m => foldl (fun m r => <[r.1 := r.2]> m) m rows) db.

Definition calculate_score (db : DB) (self : QuizSubmission) : py (DB * Q) :=
  r ← score_loop db (submission_answers db self) 0%Q [];
  let '(total_score, answers_to_update) := r in
  Ok (match answers_to_update with
      | [] => db
      | _ => bulk_update_answers answers_to_update db
      end, total_score).

(** The points awarded to an answer as the specification words them, from the
    number [C] of correct choices of the question, the number [Sc] of selected
    correct choices and the number [St] of selected choices. *)
Definition spec_awarded (C Sc St : nat) (pts : N) : Q :=
  if (C =? 0)%nat then 0%Q
  else Qmax 0 (Qnat Sc / Qnat C * QofN pts
               - (Qnat St - Qnat Sc) / Qnat C * QofN pts)%Q.

(** [spec_awarded] read off the database for the answer row [r]. *)
Definition awarded (db : DB) (r : Z * Answer) : Q :=
  spec_awarded (count_correct_choices db (answer_question r.2))
    (count_selected_correct db r.1) (count_selected db r.1)
    (match db_questions db !! answer_question r.2 with
     | Some question => points question
     | None => 0%N
     end).

Definition Qsum (l : list Q) : Q := foldr Qplus 0%Q l.

(** ** Requests and responses *)

#[local] Unset Elimination Schemes.

Inductive json : Type :=
| JNull
| JBool (b : bool)
| JInt (n : Z)
| JString (s : string)
| JArray (items : list json)
| JObject (members : list (string * json)).

#[local] Set Elimination Schemes.

(** Python's [bool(v)] on a decoded JSON value. *)
Definition py_bool (v : option json) : bool :=
  match v with
  | None | Some JNull => false
  | Some (JBool b) => b
  | Some (JInt n) => negb (n =? 0)
  | Some (JString s) => negb (String.eqb s "")
  | Some (JArray items) => negb (bool_decide (items = []))
  | Some (JObject members) => negb (bool_decide (members = []))
  end.

Arguments py_bool : simpl never.

Inductive Body : Type :=
| Detail (detail : string)
| Started (submission_id : Z) (start : option datetime)
| Confirmation (submission_id : Z) (finished : option datetime) (submitted : bool)
               (submission_status : string)
| Errors (messages : list string)
| Released (updated_count : nat) (action_descs : list string)
           (released_scores released_answers : option bool).

Record Response : Type := {
  body : Body;
  status : Z
}.

Definition HTTP_200_OK : Z := 200.
Definition HTTP_400_BAD_REQUEST : Z := 400.
Definition HTTP_403_FORBIDDEN : Z := 403.
Definition HTTP_404_NOT_FOUND : Z := 404.
Definition HTTP_409_CONFLICT : Z := 409.

Definition respond (detail : string) (code : Z) : Response :=
  {| body := Detail detail; status := code |}.

(** The result of a view: the database as the request leaves it, and the
    response or the exception that escaped the view. Writes made inside a
    [transaction.atomic()] block that raises are rolled back. *)
Definition outcome : Type := (DB * py Response)%type.

(** [try: ... except OverflowError: handler] *)
Definition except_OverflowError {A : Type} (body : py A) (handler : py A) : py A :=
  match body with
  | Raise OverflowError => handler
  | _ => body
  end.

(** ** Validation and update of submitted answers ([quizzes/serializers.py]) *)

Record AnswerData : Type := {
  ad_question : Z;
  ad_selected_choices : list Z
}.

Inductive validation (A : Type) : Type :=
| Valid (a : A)
| ValidationError (detail : string).

Arguments Valid {A} a.
Arguments ValidationError {A} detail.

(** [AnswerCreateSerializer]: both primary-key fields must resolve, then
    [validate]. *)
Definition validate_answer (db : DB) (attrs : AnswerData) : validation AnswerData :=
  match db_questions db !! ad_question attrs with
  | None => ValidationError "Invalid pk - object does not exist."
  | Some question =>
      let selected_choices := ad_selected_choices attrs in
      if negb (forallb (fun c => bool_decide (is_Some (db_choices db !! c))) selected_choices)
      then ValidationError "Invalid pk - object does not exist."
      else if String.eqb (selection_type question) "single"
              && (1 <? length selected_choices)%nat
      then ValidationError "Only one choice can be selected for this question"
      else
        let valid_choice_ids : gset Z :=
          list_to_set (fst <$> filter (fun r => choice_question r.2 = ad_question attrs)
                                      (map_to_list (db_choices db))) in
        let selected_ids : gset Z := list_to_set selected_choices in
        if bool_decide (selected_ids ⊆ valid_choice_ids) then Valid attrs
        else ValidationError "One or more selected choices do not belong to this question"
  end.

(** [QuizSubmissionUpdateSerializer.validate_answers] *)
Definition validate_answers (db : DB) (submission : QuizSubmission)
    (value : list AnswerData) : validation (list AnswerData) :=
  let expected_question_ids : gset Z :=
    list_to_set ((fun r => answer_question r.2) <$> submission_answers db submission) in
  let submitted_question_ids : gset Z := list_to_set (ad_question <$> value) in
  if bool_decide (submitted_question_ids ⊆ expected_question_ids) then Valid value
  else ValidationError "One or more submitted answers do not belong to this quiz.".

(** [serializer.is_valid()]: every item first, then the field validator. *)
Definition is_valid (db : DB) (submission : QuizSubmission) (data : list AnswerData)
    : validation (list AnswerData) :=
  if forallb (fun attrs => match validate_answer db attrs with
                           | Valid _ => true
                           | ValidationError _ => false
                           end) data
  then validate_answers db submission data
  else ValidationError "answers".

Definition answer_of_submission (db : DB) (instance : QuizSubmission) (answer : Z) : bool :=
  match db_answers db !! answer with
  | Some a => answer_submission a =? id instance
  | None => false
  end.

Fixpoint through_rows (answer_map : gmap Z Z) (answers_data : list AnswerData)
    : py (list (Z * Z)) :=
  match answers_data with
  | [] => Ok []
  | adata :: rest =>
      match answer_map !! ad_question adata with
      | None => Raise KeyError
      | Some answer_id =>
          rows ← through_rows answer_map rest;
          Ok ((pair answer_id <$> ad_selected_choices adata) ++ rows)
      end
  end.

(** [QuizSubmissionUpdateSerializer.update]: the selections of the submission
    are replaced; the through table has a unique (answer, choice) constraint. *)
Definition serializer_update (db : DB) (instance : QuizSubmission)
    (answers_data : list AnswerData) : py DB :=
  let db1 := set_selected (filter (fun r => answer_of_submission db instance r.1 = false)) db in
  let answer_map : gmap Z Z :=
    foldl (fun m r => <[answer_question r.2 := r.1]> m) ∅ (submission_answers db instance) in
  through_instances ← through_rows answer_map answers_data;
  let table := db_selected db1 ++ through_instances in
  if bool_decide (NoDup table) then Ok (set_selected (fun _ => table) db1)
  else Raise IntegrityError.

(** [QuizSubmissionConfirmationSerializer.get_submission_status] *)
Definition confirmation_status (st : option QuizSettings) (obj : QuizSubmission) : py string :=
  match start_time obj, end_time obj with
  | Some started, Some finished =>
      settings ← get_settings st;
      if (timer_minutes settings =? 0)%N then Ok "on_time"
      else
        let allowed_seconds := Z.of_N (timer_minutes settings) * 60 + 60 in
        Ok (if allowed_seconds * US_PER_SECOND <? finished - started
            then "late" else "on_time")
  | _, _ => Ok "pending"
  end.

(** ** Views ([quizzes/views.py])

    The clock of a request is read as one instant [now]; the two readings
    of an accepted submission are kept apart in [create_submission_clocks]. *)

(** [permissions.CanTakeQuiz] for an authenticated student *)
Definition CanTakeQuiz (db : DB) (quiz_id : Z) (student : StudentProfile)
    (now : datetime) : bool :=
  match db_quizzes db !! quiz_id, db_quizcenters db !! (quiz_id, center_id student) with
  | Some quiz, Some quiz_center =>
      if (now <? open_date quiz_center) || (close_date quiz_center <? now) then false
      else if negb (student_grade student =? quiz_grade quiz) then false
      else true
  | _, _ => false
  end.

(** the row [get_or_create(..., defaults={'is_submitted': False})] inserts *)
Definition new_submission (pk : Z) : QuizSubmission :=
  {| id := pk; start_time := None; end_time := None; score := 0%Q;
     is_submitted := false; is_score_released := false;
     are_answers_released := false |}.

(** [Answer(submission=submission, question=question, order=index)
     for index, question in enumerate(questions)] *)
Definition answer_stubs (submission : Z) (questions : list (Z * Question)) : list Answer :=
  imap (fun index question =>
          {| answer_submission := submission; answer_question := question.1;
             is_correct := false; points_earned := 0%Q;
             order := N.of_nat index |}) questions.

Fixpoint bulk_create_answers (rows : list Answer) (db : DB) : DB :=
  match rows with
  | [] => db
  | a :: rest =>
      bulk_create_answers rest
        (set_next_pk (db_next_pk db + 1) (set_answers (insert (db_next_pk db) a) db))
  end.

(** [start_quiz]; [shuffle] is the permutation [random.shuffle] draws. *)
Definition start_quiz (shuffle : list (Z * Question) -> list (Z * Question))
    (db : DB) (quiz_id : Z) (student : StudentProfile) (now : datetime) : outcome :=
  match db_quizzes db !! quiz_id with
  | None => (db, Ok (respond "Not found." HTTP_404_NOT_FOUND))
  | Some quiz =>
      if negb (CanTakeQuiz db quiz_id student now) then
        (db, Ok (respond "You cannot take this quiz at this time." HTTP_403_FORBIDDEN))
      else
        match db_settings db !! quiz_id with
        | None =>
            (db, Ok (respond "Configuration error: The quiz is missing its settings."
                             HTTP_409_CONFLICT))
        | Some settings =>
            let key := (quiz_id, student_pk student) in
            match db_submissions db !! key with
            | Some submission =>
                (db, Ok {| body := Started (id submission) (start_time submission);
                           status := HTTP_200_OK |})
            | None =>
                let pk := db_next_pk db in
                let db1 := set_next_pk (pk + 1)
                             (set_submissions (insert key (new_submission pk)) db) in
                let questions := quiz_questions db1 quiz_id in
                let questions :=
                  if String.eqb (question_order settings) "random"
                  then shuffle questions else questions in
                let db2 := bulk_create_answers (answer_stubs pk questions) db1 in
                let db3 := set_submissions (alter (with_start_time (Some now)) key) db2 in
                (db3, Ok {| body := Started pk (Some now); status := HTTP_200_OK |})
            end
        end
  end.

Definition already_submitted : Response :=
  respond "You are already submitted" HTTP_409_CONFLICT.

(** The locked block of [create_submission] that finalizes a timed-out
    attempt: the row after the block. *)
Definition finalize_timed_out (st : option QuizSettings) (now : datetime)
    (sub_to_finalize : QuizSubmission) : py QuizSubmission :=
  if bool_decide (is_Some (end_time sub_to_finalize)) then Ok sub_to_finalize
  else
    finished ← except_OverflowError
      (settings ← get_settings st;
       td ← timedelta (Z.of_N (timer_minutes settings)) 0;
       match start_time sub_to_finalize with
       | None => Raise TypeError
       | Some started => dt_add started td
       end)
      (Ok now);
    Ok (with_score 0%Q (with_end_time (Some finished) sub_to_finalize)).

Definition create_submission (db : DB) (quiz_id : Z) (student : StudentProfile)
    (now : datetime) (data : list AnswerData) : outcome :=
  let key := (quiz_id, student_pk student) in
  match db_submissions db !! key with
  | None =>
      (db, Ok (respond "You have not started this quiz. Please use the start endpoint first."
                       HTTP_404_NOT_FOUND))
  | Some submission =>
      if is_submitted submission then (db, Ok already_submitted)
      else
        let st := db_settings db !! quiz_id in
        match is_timed_out st now submission with
        | Raise e => (db, Raise e)
        | Ok true =>
            match finalize_timed_out st now submission with
            | Raise e => (db, Raise e)
            | Ok finalized =>
                (set_submissions (insert key finalized) db, Ok already_submitted)
            end
        | Ok false =>
            match is_valid db submission data with
            | ValidationError detail =>
                (db, Ok {| body := Errors [detail]; status := HTTP_400_BAD_REQUEST |})
            | Valid validated_data =>
                match (db1 ← serializer_update db submission validated_data;
                       let submission :=
                         with_is_submitted true (with_end_time (Some now) submission) in
                       r ← calculate_score db1 submission;
                       Ok (r.1, with_score r.2 submission)) with
                | Raise e => (db, Raise e)
                | Ok (db2, submission) =>
                    (set_submissions (insert key submission) db2,
                     status_text ← confirmation_status st submission;
                     Ok {| body := Confirmation (id submission) (end_time submission)
                                     (is_submitted submission) status_text;
                           status := HTTP_200_OK |})
                end
            end
        end
  end.

(** [QuizSubmission.objects.filter(quiz=quiz, is_submitted=True)] *)
Definition submitted_of (quiz_id : Z) (key : Z * Z) (s : QuizSubmission) : bool :=
  (key.1 =? quiz_id) && is_submitted s.

Definition apply_payload (update_payload : option bool * option bool)
    (s : QuizSubmission) : QuizSubmission :=
  let s := match update_payload.1 with
           | Some v => with_is_score_released v s
           | None => s
           end in
  match update_payload.2 with
  | Some v => with_are_answers_released v s
  | None => s
  end.

Definition action_desc (what : string) (release_value : bool) : string :=
  what +:+ (if release_value then " released" else " retracted").

Definition no_manual_mode : Response :=
  respond "No action taken. Both score and answer visibility for this quiz are not set to 'manual'."
          HTTP_409_CONFLICT.

(** [release_all_quiz_results]; [has_object_permission] is the verdict of
    [IsQuizOwnerOrAssistant] on the caller. *)
Definition release_all_quiz_results (db : DB) (quiz_id : Z)
    (has_object_permission : bool) (data : gmap string json) : outcome :=
  match db_quizzes db !! quiz_id with
  | None => (db, Ok (respond "Not found." HTTP_404_NOT_FOUND))
  | Some quiz =>
      if negb has_object_permission then
        (db, Ok (respond "You do not have permission for this quiz" HTTP_403_FORBIDDEN))
      else
        let release_score_requested := bool_decide (is_Some (data !! "release_score")) in
        let release_answers_requested := bool_decide (is_Some (data !! "release_answers")) in
        if negb release_score_requested && negb release_answers_requested then
          (db, Ok (respond "You must specify to release either scores or answers."
                           HTTP_400_BAD_REQUEST))
        else
          let st := db_settings db !! quiz_id in
          match (score_part ←
                   (if release_score_requested then
                      settings ← get_settings st;
                      Ok (if String.eqb (score_visibility settings) "manual"
                          then Some (py_bool (data !! "release_score")) else None)
                    else Ok None);
                 answers_part ←
                   (if release_answers_requested then
                      settings ← get_settings st;
                      Ok (if String.eqb (answers_visibility settings) "manual"
                          then Some (py_bool (data !! "release_answers")) else None)
                    else Ok None);
                 Ok (score_part, answers_part)) with
          | Raise e => (db, Raise e)
          | Ok (None, None) => (db, Ok no_manual_mode)
          | Ok update_payload =>
              let updated_count :=
                size (filter (fun r => submitted_of quiz_id r.1 r.2 = true)
                             (db_submissions db)) in
              let action_descs :=
                match update_payload.1 with
                | Some v => [action_desc "scores" v]
                | None => []
                end ++
                match update_payload.2 with
                | Some v => [action_desc "answers" v]
                | None => []
                end in
              (set_submissions
                 (map_imap (fun key s =>
                    Some (if submitted_of quiz_id key s
                          then apply_payload update_payload s else s))) db,
               Ok {| body := Released updated_count action_descs
                               update_payload.1 update_payload.2;
                     status := HTTP_200_OK |})
          end
  end.

(** ** Read paths ([quizzes/serializers.py]) *)

(** The keys of the serialized submission the visibility logic touches. *)
Record SubmissionData : Type := {
  data_is_score_released : bool;
  data_are_answers_released : bool;
  data_has_score : bool;
  data_has_answers : bool
}.

(** What [to_representation] returns: the dictionary, or the value [False]. *)
Inductive Representation : Type :=
| RepData (data : SubmissionData)
| RepFalse.

(** The branching on a visibility mode once the submission is finished. *)
Definition visible_when_finished (mode : string) (is_quiz_closed released : bool) : bool :=
  if String.eqb mode "immediate" then true
  else if String.eqb mode "after_close" then is_quiz_closed
  else if String.eqb mode "manual" then released
  else false.

(** [SubmissionVisibilityMixin.to_representation], shared by
    [QuizSubmissionSerializer] (student list) and
    [QuizSubmissionDetailSerializer] (detail, [has_answers_field = true]).
    [role] is [request.user.role] when the context carries a request. *)
Definition to_representation (db : DB) (quiz_id : Z) (student : StudentProfile)
    (role : option string) (has_answers_field : bool) (now : datetime)
    (instance : QuizSubmission) : py Representation :=
  let st := db_settings db !! quiz_id in
  settings ← get_settings st;
  let closed : py (option bool) :=
    match db_quizcenters db !! (quiz_id, center_id student) with
    | Some quiz_center =>
        if (0 <? timer_minutes settings)%N then
          except_OverflowError
            (td ← timedelta (Z.of_N (timer_minutes settings)) 0;
             effective_release_time ← dt_add (close_date quiz_center) td;
             Ok (Some (effective_release_time <? now)))
            (Ok None)
        else Ok (Some (close_date quiz_center <? now))
    | None => Ok (Some false)
    end in
  closed ← closed;
  match closed with
  | None => Ok RepFalse
  | Some is_quiz_closed =>
      timed_out ← is_timed_out st now instance;
      let submission_is_finished := is_submitted instance || timed_out in
      let score_is_visible :=
        if submission_is_finished
        then visible_when_finished (score_visibility settings) is_quiz_closed
               (is_score_released instance)
        else false in
      let answers_are_visible :=
        if submission_is_finished
        then visible_when_finished (answers_visibility settings) is_quiz_closed
               (are_answers_released instance)
        else false in
      let is_student :=
        match role with
        | Some r => String.eqb r "student"
        | None => false
        end in
      Ok (RepData
            {| data_is_score_released := score_is_visible;
               data_are_answers_released := answers_are_visible;
               data_has_score := if is_student && negb score_is_visible then false else true;
               data_has_answers :=
                 if is_student && negb answers_are_visible then false
                 else has_answers_field |})
  end.

(** The context [list_submissions] hands to
    [StudentSubmissionStatusSerializer] for the teacher roster. *)
Record RosterContext : Type := {
  submission_map : gmap Z QuizSubmission;   (* student id -> submission *)
  quiz_settings : option QuizSettings;
  quiz_center_map : gmap Z QuizCenter       (* center id -> window *)
}.

(** [StudentSubmissionStatusSerializer._is_quiz_closed] *)
Definition _is_quiz_closed (context : RosterContext) (student_profile : StudentProfile)
    (now : datetime) : bool :=
  match quiz_settings context with
  | None => false
  | Some settings =>
      if bool_decide (quiz_center_map context = ∅) then false
      else
        match quiz_center_map context !! center_id student_profile with
        | None => false
        | Some quiz_center =>
            if (0 <? timer_minutes settings)%N then
              match (td ← timedelta (Z.of_N (timer_minutes settings)) 0;
                     dt_add (close_date quiz_center) td) with
              | Ok effective_release_time => effective_release_time <? now
              | Raise _ => false
              end
            else close_date quiz_center <? now
        end
  end.

Definition _get_submission (context : RosterContext) (obj : StudentProfile)
    : option QuizSubmission :=
  submission_map context !! student_pk obj.

(** [StudentSubmissionStatusSerializer.get_is_score_released] *)
Definition get_is_score_released (context : RosterContext) (obj : StudentProfile)
    (now : datetime) : bool :=
  let submission := _get_submission context obj in
  match quiz_settings context with
  | None => false
  | Some settings =>
      let is_closed := _is_quiz_closed context obj now in
      if String.eqb (score_visibility settings) "immediate" then true
      else if String.eqb (score_visibility settings) "after_close" then is_closed
      else if String.eqb (score_visibility settings) "manual" then
        match submission with
        | Some s => is_score_released s
        | None => false
        end
      else false
  end.

(** [StudentSubmissionStatusSerializer.get_are_answers_released] *)
Definition get_are_answers_released (context : RosterContext) (obj : StudentProfile)
    (now : datetime) : bool :=
  let submission := _get_submission context obj in
  match quiz_settings context with
  | None => false
  | Some settings =>
      let is_closed := _is_quiz_closed context obj now in
      if String.eqb (answers_visibility settings) "immediate" then true
      else if String.eqb (answers_visibility settings) "after_close" then is_closed
      else if String.eqb (answers_visibility settings) "manual" then
        match submission with
        | Some s => are_answers_released s
        | None => false
        end
      else false
  end.

(** The serializer context built by [list_submissions] for a teacher. *)
Definition roster_context (db : DB) (quiz_id : Z) : RosterContext :=
  {| submission_map :=
       list_to_map ((fun r => (r.1.2, r.2)) <$>
                    filter (fun r => r.1.1 = quiz_id) (map_to_list (db_submissions db)));
     quiz_settings := db_settings db !! quiz_id;
     quiz_center_map :=
       list_to_map ((fun r => (r.1.2, r.2)) <$>
                    filter (fun r => r.1.1 = quiz_id) (map_to_list (db_quizcenters db))) |}.

(** The [end_time] the specification gives an attempt finalized by timeout:
    [start_time + timer_minutes], or [now] when that addition overflows. *)
Definition spec_timeout_end_time (settings : QuizSettings) (now start t : datetime)
    : Prop :=
  let sum := td ← timedelta (Z.of_N (timer_minutes settings)) 0; dt_add start td in
  sum = Ok t \/ (sum = Raise OverflowError /\ t = now).

(** [question] is the question of one of the answer stubs of [submission]. *)
Definition own_question (db : DB) (submission : QuizSubmission) (question : Z) : Prop :=
  exists pk answer,
    db_answers db !! pk = Some answer /\
    answer_submission answer = id submission /\
    answer_question answer = question.

(** ** The operations of the submission state machine *)

Inductive operation : Type :=
| Start (shuffle : list (Z * Question) -> list (Z * Question))
        (quiz_id : Z) (student : StudentProfile) (now : datetime)
| Submit (quiz_id : Z) (student : StudentProfile) (now : datetime)
         (data : list AnswerData)
| Release (quiz_id : Z) (has_object_permission : bool) (data : gmap string json).

Definition run (db : DB) (op : operation) : outcome :=
  match op with
  | Start shuffle quiz_id student now => start_quiz shuffle db quiz_id student now
  | Submit quiz_id student now data => create_submission db quiz_id student now data
  | Release quiz_id perm data => release_all_quiz_results db quiz_id perm data
  end.

Definition run_all (db : DB) (ops : list operation) : DB :=
  foldl (fun db op => (run db op).1) db ops.

(** ** A sample quiz

    One quiz with a ten-minute timer, open on 2024-01-01 from 08:00 to 20:00
    for center 5; a single-choice and a multiple-choice question worth ten
    points each; student 42 of that center and grade. *)

Module Sample.

Definition at_time (ordinal hours minutes seconds : Z) : datetime :=
  ((ordinal - 1) * 86400 + hours * 3600 + minutes * 60 + seconds) * US_PER_SECOND.

(** [date(2024, 1, 1).toordinal() = 738886] *)
Definition day : Z := 738886.

Definition settings : QuizSettings :=
  {| timer_minutes := 10; score_visibility := "immediate";
     answers_visibility := "manual"; question_order := "created" |}.

Definition window : QuizCenter :=
  {| open_date := at_time day 8 0 0; close_date := at_time day 20 0 0 |}.

Definition student : StudentProfile :=
  {| student_pk := 42; full_name := "Mona"; student_grade := 7; center_id := 5 |}.

Definition question (kind : string) (index : N) : Question :=
  {| question_quiz := 1; selection_type := kind; points := 10;
     question_order_index := index; created_at := at_time (day - 1) 12 0 0 |}.

Definition choice (q : Z) (correct : bool) : Choice :=
  {| choice_question := q; choice_is_correct := correct |}.

Definition db0 : DB :=
  {| db_quizzes := {[ 1 := {| quiz_teacher := 1; quiz_grade := 7 |} ]};
     db_settings := {[ 1 := settings ]};
     db_quizcenters := {[ (1, 5) := window ]};
     db_questions := {[ 11 := question "single" 0; 12 := question "multiple" 1 ]};
     db_choices := {[ 101 := choice 11 true; 102 := choice 11 false;
                      103 := choice 11 false;
                      104 := choice 12 true; 105 := choice 12 true;
                      106 := choice 12 false; 107 := choice 12 false ]};
     db_submissions := ∅;
     db_answers := ∅;
     db_selected := [];
     db_next_pk := 1000 |}.

Definition started_at : datetime := at_time day 9 0 0.

(** the attempt of student 42, started at 09:00 and still open *)
Definition in_progress : QuizSubmission :=
  with_start_time (Some started_at) (new_submission 1000).

(** the database after student 42 started the quiz at 09:00 *)
Definition db1 : DB := (start_quiz reverse db0 1 student started_at).1.

(** the correct choice of the first question; both correct choices and one
    wrong choice of the second *)
Definition payload : list AnswerData :=
  [ {| ad_question := 11; ad_selected_choices := [101] |};
    {| ad_question := 12; ad_selected_choices := [104; 105; 106] |} ].

(** the database after student 42 submitted [payload] at 09:05 *)
Definition db2 : DB :=
  (create_submission db1 1 student (at_time day 9 5 0) payload).1.

Definition submitted : QuizSubmission :=
  with_score (60 # 4)
    (with_is_submitted true (with_end_time (Some (at_time day 9 5 0)) in_progress)).

(** the database after student 42 instead tried to submit at 09:11:05, past
    the deadline and its grace: the attempt is finalized by timeout *)
Definition db_late : DB :=
  (create_submission db1 1 student (at_time day 9 11 5) payload).1.

Definition timed_out : QuizSubmission :=
  with_score 0 (with_end_time (Some (at_time day 9 10 0)) in_progress).

(** a release request for both scores and answers *)
Definition release_both : gmap string json :=
  {[ "release_score" := JBool true; "release_answers" := JBool true ]}.

(** the same quiz with results shown after close, a one-day timer and a
    window closing at noon of 9999-12-31: the effective release time
    [close_date + timer] is past the last representable instant *)
Definition far_settings : QuizSettings :=
  {| timer_minutes := 1440; score_visibility := "after_close";
     answers_visibility := "after_close"; question_order := "created" |}.

Definition far_window : QuizCenter :=
  {| open_date := at_time day 8 0 0; close_date := at_time MAXORDINAL 12 0 0 |}.

Definition db_far : DB :=
  {| db_quizzes := db_quizzes db2; db_settings := {[ 1 := far_settings ]};
     db_quizcenters := {[ (1, 5) := far_window ]};
     db_questions := db_questions db2; db_choices := db_choices db2;
     db_submissions := db_submissions db2; db_answers := db_answers db2;
     db_selected := db_selected db2; db_next_pk := db_next_pk db2 |}.

(** the quiz with [question_order = 'random'], before anyone started *)
Definition db0_random : DB :=
  {| db_quizzes := db_quizzes db0;
     db_settings :=
       {[ 1 := {| timer_minutes := 10; score_visibility := "immediate";
                  answers_visibility := "manual"; question_order := "random" |} ]};
     db_quizcenters := db_quizcenters db0;
     db_questions := db_questions db0; db_choices := db_choices db0;
     db_submissions := db_submissions db0; db_answers := db_answers db0;
     db_selected := db_selected db0; db_next_pk := db_next_pk db0 |}.

End Sample.

(** * More of the quiz subsystem *)

(** ** Windows and the clock of an operation *)

(** [QuizCenterSerializer.get_status] and [QuizListSerializer.get_status] *)
Definition get_status (obj : QuizCenter) (now : datetime) : string :=
  if now <? open_date obj then "upcoming"
  else if close_date obj <? now then "closed"
  else "open".

(** The instant at which an operation reads the clock; a release reads none. *)
Definition op_time (op : operation) : option datetime :=
  match op with
  | Start _ _ _ now => Some now
  | Submit _ _ now _ => Some now
  | Release _ _ _ => None
  end.

(** ** The shape of a submission row

    A row is started; a submitted row has an end time; a row that ended
    without being submitted carries the score zero. *)
Definition row_well_formed (s : QuizSubmission) : Prop :=
  is_Some (start_time s) /\
  (is_submitted s = true -> is_Some (end_time s)) /\
  (is_submitted s = false -> is_Some (end_time s) -> score s = 0%Q).

Definition table_well_formed (db : DB) : Prop :=
  forall key s, db_submissions db !! key = Some s -> row_well_formed s.

(** ** Display fields of the submission serializers

    [timezone.localtime] changes the time zone a datetime is shown in, not the
    instant; instants are what the model carries. *)

(** A local variable at the point where it is read: reading an unassigned
    variable raises [UnboundLocalError]. *)
Inductive local (A : Type) : Type :=
| Assigned (a : A)
| Unassigned.

Arguments Assigned {A} a.
Arguments Unassigned {A}.

(** [get_is_submitted] of [QuizSubmissionSerializer] and
    [QuizSubmissionDetailSerializer] *)
Definition get_is_submitted (st : option QuizSettings) (now : datetime)
    (obj : QuizSubmission) : py bool :=
  if is_submitted obj then Ok true else is_timed_out st now obj.

(** [get_end_time] of the same two serializers: the local [end_time_utc] as
    the final [if end_time_utc:] reads it. *)
Definition get_end_time (st : option QuizSettings) (now : datetime)
    (obj : QuizSubmission) : py (local (option datetime)) :=
  match end_time obj with
  | Some finished => Ok (Assigned (Some finished))
  | None =>
      timed_out ← is_timed_out st now obj;
      if (timed_out : bool) then
        settings ← get_settings st;
        match start_time obj with
        | Some started =>
            if (0 <? timer_minutes settings)%N then
              match (td ← timedelta (Z.of_N (timer_minutes settings)) 0;
                     dt_add started td) with
              | Ok t => Ok (Assigned (Some t))
              | Raise OverflowError => Ok (Assigned None)
              | Raise e => Raise e
              end
            else Ok Unassigned
        | None => Ok Unassigned
        end
      else Ok (Assigned None)
  end.

(** [QuizSubmissionSerializer.get_submission_status] *)
Definition list_submission_status (st : option QuizSettings) (now : datetime)
    (obj : QuizSubmission) : py string :=
  finished ← get_is_submitted st now obj;
  if (finished : bool) then Ok "Finished"
  else if bool_decide (is_Some (start_time obj)) then Ok "In Progress"
  else Ok "Not Started".

(** [QuizSubmissionDetailSerializer.get_submission_status] *)
Definition detail_submission_status (st : option QuizSettings) (now : datetime)
    (obj : QuizSubmission) : py string :=
  timed_out ← is_timed_out st now obj;
  if (timed_out : bool) then Ok "late"
  else if negb (is_submitted obj) then Ok "in_progress"
  else
    match start_time obj, end_time obj with
    | Some started, Some finished =>
        settings ← get_settings st;
        if (timer_minutes settings =? 0)%N then Ok "on_time"
        else
          let allowed_seconds := Z.of_N (timer_minutes settings) * 60 + 60 in
          Ok (if allowed_seconds * US_PER_SECOND <? finished - started
              then "late" else "on_time")
    | _, _ => Ok "pending"
    end.

(** [StudentSubmissionStatusSerializer.get_submission_status]; [st] is the
    settings row [submission.quiz.settings] reaches. *)
Definition roster_submission_status (context : RosterContext) (st : option QuizSettings)
    (obj : StudentProfile) (now : datetime) : py string :=
  match _get_submission context obj with
  | None => Ok "Not Started"
  | Some submission =>
      if is_submitted submission then Ok "Finished"
      else
        timed_out ← is_timed_out st now submission;
        Ok (if (timed_out : bool) then "Finished" else "In Progress")
  end.

(** [StudentSubmissionStatusSerializer.get_is_submitted] *)
Definition roster_is_submitted (context : RosterContext) (st : option QuizSettings)
    (obj : StudentProfile) (now : datetime) : py bool :=
  match _get_submission context obj with
  | None => Ok false
  | Some submission => get_is_submitted st now submission
  end.

(** [StudentSubmissionStatusSerializer.get_end_time] *)
Definition roster_end_time (context : RosterContext) (st : option QuizSettings)
    (obj : StudentProfile) (now : datetime) : py (local (option datetime)) :=
  match _get_submission context obj with
  | None => Ok (Assigned None)
  | Some submission =>
      match start_time submission with
      | None => Ok (Assigned None)
      | Some started =>
          match end_time submission with
          | Some finished => Ok (Assigned (Some finished))
          | None =>
              timed_out ← is_timed_out st now submission;
              if (timed_out : bool) then
                match quiz_settings context with
                | Some settings =>
                    if (0 <? timer_minutes settings)%N then
                      match (td ← timedelta (Z.of_N (timer_minutes settings)) 0;
                             dt_add started td) with
                      | Ok t => Ok (Assigned (Some t))
                      | Raise OverflowError => Ok (Assigned None)
                      | Raise e => Raise e
                      end
                    else Ok Unassigned
                | None => Ok Unassigned
                end
              else Ok (Assigned None)
          end
      end
  end.

(** [QuizListSerializer.get_student_quiz_status]; [student_submission] is the
    prefetched list of the student's submissions of the quiz, [role] the role
    of the requesting user when the context carries a request. *)
Definition get_student_quiz_status (role : option string)
    (student_submission : list QuizSubmission) (st : option QuizSettings)
    (now : datetime) : py (option string) :=
  match role with
  | Some r =>
      if String.eqb r "student" then
        match student_submission with
        | submission :: _ =>
            finished ← get_is_submitted st now submission;
            Ok (Some (if (finished : bool) then "submitted" else "in_progress"))
        | [] => Ok (Some "not_started")
        end
      else Ok None
  | None => Ok None
  end.

(** [QuizListSerializer.get_submission_id] *)
Definition get_submission_id (role : option string)
    (student_submission : list QuizSubmission) (st : option QuizSettings)
    (now : datetime) : py (option Z) :=
  match role with
  | Some r =>
      if String.eqb r "student" then
        match student_submission with
        | submission :: _ =>
            finished ← get_is_submitted st now submission;
            Ok (if (finished : bool) then Some (id submission) else None)
        | [] => Ok None
        end
      else Ok None
  | None => Ok None
  end.

(** ** Settings with one visibility mode replaced *)

Definition with_score_visibility (mode : string) (st : QuizSettings) : QuizSettings :=
  {| timer_minutes := timer_minutes st; score_visibility := mode;
     answers_visibility := answers_visibility st;
     question_order := question_order st |}.

Definition with_answers_visibility (mode : string) (st : QuizSettings) : QuizSettings :=
  {| timer_minutes := timer_minutes st; score_visibility := score_visibility st;
     answers_visibility := mode; question_order := question_order st |}.

Definition set_settings (f : gmap Z QuizSettings -> gmap Z QuizSettings) (db : DB) : DB :=
  {| db_quizzes := db_quizzes db; db_settings := f (db_settings db);
     db_quizcenters := db_quizcenters db; db_questions := db_questions db;
     db_choices := db_choices db; db_submissions := db_submissions db;
     db_answers := db_answers db; db_selected := db_selected db;
     db_next_pk := db_next_pk db |}.

(** Two representations that show the same score. *)
Definition same_score_shown (r r' : py Representation) : Prop :=
  match r, r' with
  | Ok (RepData d), Ok (RepData d') =>
      data_is_score_released d = data_is_score_released d' /\
      data_has_score d = data_has_score d'
  | Ok RepFalse, Ok RepFalse => True
  | Raise e, Raise e' => e = e'
  | _, _ => False
  end.

(** Two representations that show the same answers. *)
Definition same_answers_shown (r r' : py Representation) : Prop :=
  match r, r' with
  | Ok (RepData d), Ok (RepData d') =>
      data_are_answers_released d = data_are_answers_released d' /\
      data_has_answers d = data_has_answers d'
  | Ok RepFalse, Ok RepFalse => True
  | Raise e, Raise e' => e = e'
  | _, _ => False
  end.

(** ** Well-formed selections

    The selected choices of an answer are choices of its own question, each
    selected once: what [AnswerCreateSerializer.validate] and the unique
    constraint of the through table guarantee. *)
Definition selection_valid (db : DB) (r : Z * Answer) : Prop :=
  NoDup (selected_choices db r.1) /\
  forall c, c ∈ selected_choices db r.1 ->
    exists ch, db_choices db !! c = Some ch /\
               choice_question ch = answer_question r.2.

(** [answer.question.points], zero for a dangling reference *)
Definition question_points (db : DB) (r : Z * Answer) : N :=
  match db_questions db !! answer_question r.2 with
  | Some question => points question
  | None => 0%N
  end.

(** ** More sample data *)

Module Scenario.

(** the first answer of the submitted attempt of [Sample.db2], as scored *)
Definition first_answer : Answer :=
  {| answer_submission := 1000; answer_question := 11; is_correct := true;
     points_earned := 10 # 1; order := 0 |}.

(** the database after [update] stored [Sample.payload] for the attempt in
    progress of [Sample.db1] *)
Definition db_updated : DB :=
  match serializer_update Sample.db1 Sample.in_progress Sample.payload with
  | Ok db => db
  | Raise _ => Sample.db1
  end.

End Scenario.

(** ** Availability ([check_quiz_availability])

    The two reasons that quote a date carry the instant; its rendering by
    [strftime] in the local time zone is left out. *)

Inductive unavailable : Type :=
| NotForGrade              (* 'Not available for your grade' *)
| NotForCenter             (* 'Not available for your center' *)
| OpensAt (t : datetime)   (* 'Quiz opens at ...' *)
| ClosedAt (t : datetime)  (* 'Quiz closed at ...' *)
| AlreadySubmitted.        (* 'You already submitted this quiz' *)

Inductive availability : Type :=
| QuizNotFound                                   (* 404 *)
| Unavailable (reason : unavailable)             (* available: False *)
| Available (opens closes : datetime).           (* available: True *)

Definition check_quiz_availability (db : DB) (quiz_id : Z) (student : StudentProfile)
    (now : datetime) : availability :=
  match db_quizzes db !! quiz_id with
  | None => QuizNotFound
  | Some quiz =>
      if negb (quiz_grade quiz =? student_grade student) then Unavailable NotForGrade
      else
        match db_quizcenters db !! (quiz_id, center_id student) with
        | None => Unavailable NotForCenter
        | Some quiz_center =>
            if now <? open_date quiz_center
            then Unavailable (OpensAt (open_date quiz_center))
            else if close_date quiz_center <? now
            then Unavailable (ClosedAt (close_date quiz_center))
            else
              match db_submissions db !! (quiz_id, student_pk student) with
              | Some submission =>
                  if is_submitted submission then Unavailable AlreadySubmitted
                  else Available (open_date quiz_center) (close_date quiz_center)
              | None => Available (open_date quiz_center) (close_date quiz_center)
              end
        end
  end.

(** ** Users and ownership ([quizzes/permissions.py]) *)

Record User : Type := {
  role : string;
  student_profile : option Z;      (* pk of [user.student_profile] *)
  teacher_profile : option Z;      (* pk of [user.teacher_profile] *)
  assistant_teacher : option Z     (* pk of [user.assistant_profile.teacher] *)
}.

(** [IsQuizOwnerOrAssistant.has_object_permission] on a quiz; reading a
    missing [teacher_profile] raises. *)
Definition has_object_permission (user : User) (quiz : Quiz) : py bool :=
  if String.eqb (role user) "admin" then Ok true
  else
    let teacher := quiz_teacher quiz in
    owner ←
      (if String.eqb (role user) "teacher" then
         match teacher_profile user with
         | Some t => Ok (t =? teacher)
         | None => Raise RelatedObjectDoesNotExist
         end
       else Ok false);
    if (owner : bool) then Ok true
    else if String.eqb (role user) "assistant" then
      match assistant_teacher user with
      | Some t => Ok (t =? teacher)
      | None => Ok false
      end
    else Ok false.

(** ** Reading and deleting one submission ([submission_detail]) *)

(** [get_object_or_404(queryset, id=submission_id, quiz_id=quiz_id)]: primary
    keys are unique, at most one row matches. *)
Definition find_submission (db : DB) (quiz_id submission_id : Z)
    : option (Z * Z * QuizSubmission) :=
  head (filter (fun r : Z * Z * QuizSubmission => r.1.1 = quiz_id /\ id r.2 = submission_id)
               (map_to_list (db_submissions db))).

(** [submission.delete()] with the cascade to its answers and to their rows
    in the through table of the selected choices. *)
Definition delete_submission (key : Z * Z) (submission : QuizSubmission) (db : DB) : DB :=
  set_selected (filter (fun r => answer_of_submission db submission r.1 = false))
    (set_answers (filter (fun r : Z * Answer => answer_submission r.2 <> id submission))
       (set_submissions (delete key) db)).

Inductive detail_response : Type :=
| DetailRefused (detail : string) (code : Z)
| DetailShown (data : SubmissionData)
| DetailDeleted                                    (* 204 *)
| DetailNone.                                      (* the view returns [None] *)

(** [Response(serializer.data)] of a single object: [serializer.data] wraps
    the representation in a [ReturnDict], and [dict(False)] raises. *)
Definition serializer_data (representation : py Representation) : py detail_response :=
  match representation with
  | Ok (RepData data) => Ok (DetailShown data)
  | Ok RepFalse => Raise TypeError
  | Raise e => Raise e
  end.

(** [submission_detail]; [owner] is the profile row of [submission.student],
    which the serializer reads the center from, and [method] the HTTP method
    of the request: the body handles GET and DELETE and falls through, to
    return [None], on any other method that reaches it. *)
Definition submission_detail (db : DB) (user : User) (owner : StudentProfile)
    (method : string) (quiz_id submission_id : Z) (now : datetime)
    : DB * py detail_response :=
  match find_submission db quiz_id submission_id with
  | None => (db, Ok (DetailRefused "Not found." HTTP_404_NOT_FOUND))
  | Some (key, submission) =>
      match (foreign ←
               (if String.eqb (role user) "student" then
                  match student_profile user with
                  | Some p => Ok (negb (key.2 =? p))
                  | None => Raise RelatedObjectDoesNotExist
                  end
                else Ok false);
             if (foreign : bool) then Ok (Some "Not your submission")
             else if String.eqb (role user) "teacher" || String.eqb (role user) "assistant"
             then
               match db_quizzes db !! quiz_id with
               | None => Raise DoesNotExist
               | Some quiz =>
                   permitted ← has_object_permission user quiz;
                   Ok (if (permitted : bool) then None
                       else Some "You do not have permission for this quiz")
               end
             else Ok None) with
      | Raise e => (db, Raise e)
      | Ok (Some detail) => (db, Ok (DetailRefused detail HTTP_403_FORBIDDEN))
      | Ok None =>
          if String.eqb method "GET" then
            (db, serializer_data
                   (to_representation db quiz_id owner (Some (role user)) true
                      now submission))
          else if String.eqb method "DELETE" then
            if negb (String.eqb (role user) "teacher"
                     || String.eqb (role user) "assistant")
            then (db, Ok (DetailRefused "You do not have permission to perform this action."
                                         HTTP_403_FORBIDDEN))
            else (delete_submission key submission db, Ok DetailDeleted)
          else (db, Ok DetailNone)
      end
  end.

(** ** Listing the questions ([list_questions]) *)

Inductive questions_response : Type :=
| QuestionsRefused (detail : string) (code : Z)
| QuestionsListed (questions : list (Z * Question)).

(** [Answer.objects.filter(submission=submission).select_related('question')
     .order_by('order')], then [answer.question] for each answer *)
Definition answered_questions (db : DB) (submission : QuizSubmission)
    : list (Z * Question) :=
  omap (fun r : Z * Answer =>
          (fun question => (answer_question r.2, question))
          <$> db_questions db !! answer_question r.2)
       (submission_answers db submission).

Definition list_questions (db : DB) (user : User) (quiz_id : Z) (now : datetime)
    : py questions_response :=
  match db_quizzes db !! quiz_id with
  | None => Ok (QuestionsRefused "Not found." HTTP_404_NOT_FOUND)
  | Some quiz =>
      if String.eqb (role user) "student" then
        match student_profile user with
        | None => Raise RelatedObjectDoesNotExist
        | Some student =>
            match db_submissions db !! (quiz_id, student) with
            | None =>
                Ok (QuestionsRefused "You have not started this quiz." HTTP_403_FORBIDDEN)
            | Some submission =>
                if negb (bool_decide (is_Some (start_time submission))) then
                  Ok (QuestionsRefused
                        "You must start the quiz before viewing the questions."
                        HTTP_403_FORBIDDEN)
                else
                  finished ← get_is_submitted (db_settings db !! quiz_id) now submission;
                  if (finished : bool) then
                    Ok (QuestionsRefused "You cannot view questions after submission."
                                         HTTP_403_FORBIDDEN)
                  else Ok (QuestionsListed (answered_questions db submission))
            end
        end
      else if String.eqb (role user) "teacher" || String.eqb (role user) "assistant"
              || String.eqb (role user) "admin" then
        permitted ← has_object_permission user quiz;
        if (permitted : bool) then Ok (QuestionsListed (quiz_questions db quiz_id))
        else Ok (QuestionsRefused "You do not have permission for this quiz"
                                  HTTP_403_FORBIDDEN)
      else Ok (QuestionsRefused "Unauthorized" HTTP_403_FORBIDDEN)
  end.

(** ** Rescoring after a quiz update ([quiz_detail_or_update], PUT)

    The block that follows [serializer.save()]: every submitted attempt of
    the quiz is scored again and the scores are written back in one
    [bulk_update]. *)

(** [for submission in submitted_attempts:
       submission.score = submission.calculate_score()
       submissions_to_update.append(submission)] *)
Fixpoint rescore_loop (db : DB) (submitted_attempts : list (Z * Z * QuizSubmission))
    (submissions_to_update : list (Z * Z * QuizSubmission))
    : py (DB * list (Z * Z * QuizSubmission)) :=
  match submitted_attempts with
  | [] => Ok (db, submissions_to_update)
  | (key, submission) :: rest =>
      r ← calculate_score db submission;
      rescore_loop r.1 rest
        (submissions_to_update ++ [(key, with_score r.2 submission)])
  end.

(** [QuizSubmission.objects.bulk_update(rows, ['score'])] *)
Definition bulk_update_scores (rows : list (Z * Z * QuizSubmission)) (db : DB) : DB :=
  set_submissions
    (fun m => foldl (fun m r => alter (with_score (score r.2)) r.1 m) m rows) db.

(** [QuizSubmission.objects.filter(quiz=updated_quiz, is_submitted=True)] *)
Definition submitted_attempts (db : DB) (quiz_id : Z) : list (Z * Z * QuizSubmission) :=
  filter (fun r => r.1.1 = quiz_id /\ is_submitted r.2 = true)
         (map_to_list (db_submissions db)).

Definition recalculate_scores (db : DB) (quiz_id : Z) : py DB :=
  r ← rescore_loop db (submitted_attempts db quiz_id) [];
  Ok (match r.2 with
      | [] => r.1
      | _ => bulk_update_scores r.2 r.1
      end).

(** ** The two clock readings of an accepted submission

    [create_submission] reads the clock where [is_timed_out] compares it
    with the deadline (models.py 225) and again where it stores [end_time]
    (views.py 567, or the [except OverflowError] of the finalization):
    [checked] is the first reading and [now] the second. *)
Definition create_submission_clocks (db : DB) (quiz_id : Z) (student : StudentProfile)
    (checked now : datetime) (data : list AnswerData) : outcome :=
  let key := (quiz_id, student_pk student) in
  match db_submissions db !! key with
  | None =>
      (db, Ok (respond "You have not started this quiz. Please use the start endpoint first."
                       HTTP_404_NOT_FOUND))
  | Some submission =>
      if is_submitted submission then (db, Ok already_submitted)
      else
        let st := db_settings db !! quiz_id in
        match is_timed_out st checked submission with
        | Raise e => (db, Raise e)
        | Ok true =>
            match finalize_timed_out st now submission with
            | Raise e => (db, Raise e)
            | Ok finalized =>
                (set_submissions (insert key finalized) db, Ok already_submitted)
            end
        | Ok false =>
            match is_valid db submission data with
            | ValidationError detail =>
                (db, Ok {| body := Errors [detail]; status := HTTP_400_BAD_REQUEST |})
            | Valid validated_data =>
                match (db1 ← serializer_update db submission validated_data;
                       let submission :=
                         with_is_submitted true (with_end_time (Some now) submission) in
                       r ← calculate_score db1 submission;
                       Ok (r.1, with_score r.2 submission)) with
                | Raise e => (db, Raise e)
                | Ok (db2, submission) =>
                    (set_submissions (insert key submission) db2,
                     status_text ← confirmation_status st submission;
                     Ok {| body := Confirmation (id submission) (end_time submission)
                                     (is_submitted submission) status_text;
                           status := HTTP_200_OK |})
                end
            end
        end
  end.

(** ** Scoring in binary64

    A [FloatField] and a Python [float] are IEEE 754 binary64 numbers; the
    operations round to nearest, ties to even. *)

Module Binary64.

Definition float : Type := spec_float.
Definition prec : Z := 53.
Definition emax : Z := 1024.

(** [float(n)] of an [int]; exact below [2 ^ 53] *)
Definition of_Z (z : Z) : float := binary_normalize prec emax z 0 false.

Definition zero : float := S754_zero false.
Definition add : float -> float -> float := SFadd prec emax.
Definition sub : float -> float -> float := SFsub prec emax.
Definition mul : float -> float -> float := SFmul prec emax.

(** [/]; on two [int]s below [2 ^ 53] Python's true division is the
    correctly rounded quotient, which is the quotient of their floats *)
Definition div : float -> float -> float := SFdiv prec emax.

(** [max(0, x)]: Python keeps its first argument unless [x > 0]; the [int]
    zero it then returns reaches the [FloatField] and the running total as
    [0.0]. *)
Definition max0 (x : float) : float := if SFltb zero x then x else zero.

(** no NaN, sign bit clear *)
Definition nonneg (x : float) : Prop :=
  match x with
  | S754_zero false | S754_finite false _ _ | S754_infinity false => True
  | _ => False
  end.

(** zero or finite, sign bit clear *)
Definition small (x : float) : Prop :=
  match x with
  | S754_zero false | S754_finite false _ _ => True
  | _ => False
  end.

(** the float of an integer [n] with [0 <= n < 2 ^ 53] *)
Definition converted (x : float) : Prop :=
  match x with
  | S754_zero false => True
  | S754_finite false m e => Zpos m < 2 ^ 53 /\ -52 <= e <= 0
  | _ => False
  end.

End Binary64.

(** One iteration of the loop of [calculate_score]: the [is_correct] flag
    and the [points_earned] it assigns, or [None] when the answer is skipped. *)
Definition score_answer_binary64 (db : DB) (pk : Z) (answer : Answer)
    : py (option (bool * Binary64.float)) :=
  question ← get_question db (answer_question answer);
  let total_correct_choices := count_correct_choices db (answer_question answer) in
  let selected_correct := count_selected_correct db pk in
  let selected_total := count_selected db pk in
  if (0 <? total_correct_choices)%nat then
    let partial_score :=
      Binary64.mul
        (Binary64.div (Binary64.of_Z (Z.of_nat selected_correct))
                      (Binary64.of_Z (Z.of_nat total_correct_choices)))
        (Binary64.of_Z (Z.of_N (points question))) in
    let incorrectly_selected := Z.of_nat selected_total - Z.of_nat selected_correct in
    let partial_score :=
      if 0 <? incorrectly_selected then
        let penalty :=
          Binary64.mul
            (Binary64.div (Binary64.of_Z incorrectly_selected)
                          (Binary64.of_Z (Z.of_nat total_correct_choices)))
            (Binary64.of_Z (Z.of_N (points question))) in
        Binary64.max0 (Binary64.sub partial_score penalty)
      else partial_score in
    Ok (Some ((selected_correct =? total_correct_choices)%nat
              && (selected_total =? total_correct_choices)%nat,
              partial_score))
  else Ok None.

(** The loop: the running total and the rows (primary key, [is_correct],
    [points_earned]) collected for [bulk_update]. *)
Fixpoint score_loop_binary64 (db : DB) (answers : list (Z * Answer))
    (total_score : Binary64.float)
    (answers_to_update : list (Z * (bool * Binary64.float)))
    : py (Binary64.float * list (Z * (bool * Binary64.float))) :=
  match answers with
  | [] => Ok (total_score, answers_to_update)
  | (pk, answer) :: rest =>
      r ← score_answer_binary64 db pk answer;
      match r with
      | Some result =>
          score_loop_binary64 db rest (Binary64.add total_score result.2)
                              (answers_to_update ++ [(pk, result)])
      | None => score_loop_binary64 db rest total_score answers_to_update
      end
  end.

(** [calculate_score]: the rows it hands to [bulk_update] and the total it
    returns. *)
Definition calculate_score_binary64 (db : DB) (self : QuizSubmission)
    : py (list (Z * (bool * Binary64.float)) * Binary64.float) :=
  r ← score_loop_binary64 db (submission_answers db self) Binary64.zero [];
  Ok (r.2, r.1).

(** The points awarded to an answer as the specification words them,
    evaluated in binary64. *)
Definition spec_awarded_binary64 (C Sc St : nat) (pts : N) : Binary64.float :=
  if (C =? 0)%nat then Binary64.zero
  else
    Binary64.max0
      (Binary64.sub
         (Binary64.mul (Binary64.div (Binary64.of_Z (Z.of_nat Sc))
                                     (Binary64.of_Z (Z.of_nat C)))
                       (Binary64.of_Z (Z.of_N pts)))
         (Binary64.mul (Binary64.div (Binary64.of_Z (Z.of_nat St - Z.of_nat Sc))
                                     (Binary64.of_Z (Z.of_nat C)))
                       (Binary64.of_Z (Z.of_N pts)))).

Definition awarded_binary64 (db : DB) (r : Z * Answer) : Binary64.float :=
  spec_awarded_binary64 (count_correct_choices db (answer_question r.2))
    (count_selected_correct db r.1) (count_selected db r.1) (question_points db r).

(** the sum as the loop forms it: from zero, in the order of the answers *)
Definition float_sum (l : list Binary64.float) : Binary64.float :=
  foldl Binary64.add Binary64.zero l.

(** Row counts and points stay below [2 ^ 53]: a [PositiveIntegerField]
    holds at most 2147483647, and the counts are numbers of rows. *)
Definition in_float_range (db : DB) (r : Z * Answer) : Prop :=
  Z.of_nat (count_correct_choices db (answer_question r.2)) < 2 ^ 53 /\
  Z.of_nat (count_selected db r.1) < 2 ^ 53 /\
  Z.of_N (question_points db r) < 2 ^ 53.

(** * Properties *)

(** ** Arithmetic of the time model *)

Lemma US_PER_SECOND_eq : US_PER_SECOND = 1000000.
Proof. reflexivity. Qed.

Lemma US_PER_MINUTE_eq : US_PER_MINUTE = 60000000.
Proof. reflexivity. Qed.

Lemma US_PER_DAY_eq : US_PER_DAY = 86400000000.
Proof. reflexivity. Qed.

Lemma datetime_max_eq : datetime_max = 315537897599999999.
Proof. reflexivity. Qed.

Lemma timedelta_Ok minutes seconds td :
  timedelta minutes seconds = Ok td ->
  td = minutes * US_PER_MINUTE + seconds * US_PER_SECOND.
Proof.
  unfold timedelta. case_match; [discriminate | congruence].
Qed.

Lemma timedelta_Raise minutes seconds e :
  timedelta minutes seconds = Raise e ->
  e = OverflowError /\
  (0 <= minutes -> 0 <= seconds ->
   datetime_max < minutes * US_PER_MINUTE + seconds * US_PER_SECOND).
Proof.
  unfold timedelta. case_match eqn:Hd; [|discriminate].
  intros [= <-]. split; [done|]. intros Hm Hs.
  apply Z.ltb_lt in Hd.
  rewrite US_PER_MINUTE_eq, US_PER_SECOND_eq, US_PER_DAY_eq, datetime_max_eq in *.
  set (us := minutes * 60000000 + seconds * 1000000) in *.
  assert (0 <= us) by lia.
  rewrite Z.abs_eq in Hd by (apply Z.div_pos; lia).
  pose proof (Z.mul_div_le us 86400000000 ltac:(lia)). lia.
Qed.

Lemma dt_add_Ok d td r :
  dt_add d td = Ok r -> r = d + td /\ valid_datetime r.
Proof.
  unfold dt_add, valid_datetime. case_match eqn:Hr; [|discriminate].
  intros [= <-]. apply andb_prop in Hr as [?%Z.leb_le ?%Z.leb_le]. lia.
Qed.

Lemma dt_add_Raise d td e :
  dt_add d td = Raise e -> e = OverflowError /\ ~ valid_datetime (d + td).
Proof.
  unfold dt_add, valid_datetime. case_match eqn:Hr; [discriminate|].
  intros [= <-]. split; [done|].
  apply andb_false_iff in Hr as [?%Z.leb_gt | ?%Z.leb_gt]; lia.
Qed.

(** ** The timed-out predicate *)

(** C1. With a settings row, [is_timed_out] always answers, and it answers
    true exactly when the submission is not submitted and either has an
    [end_time] or has started under a positive timer whose deadline plus the
    60 seconds of grace lies before [now]. With a timer of zero minutes and no
    [end_time] it answers false at every instant. *)
Theorem is_timed_out_correct (st : QuizSettings) (now : datetime) (s : QuizSubmission) :
  valid_datetime now ->
  (forall t, start_time s = Some t -> valid_datetime t) ->
  (exists b, is_timed_out (Some st) now s = Ok b /\
             (b = true <-> spec_timed_out st now s)) /\
  (timer_minutes st = 0%N -> end_time s = None ->
   forall now', is_timed_out (Some st) now' s = Ok false).
Proof.
  intros Hnow Hstart. unfold is_timed_out, spec_timed_out. split.
  - destruct (is_submitted s) eqn:Hsub.
    { exists false. split; [done|]. split; [done | intros [? _]; done]. }
    case_bool_decide as Hend.
    { exists true. split; [done|]. split; [auto | done]. }
    destruct (start_time s) as [start|] eqn:Hst.
    2:{ exists false. split; [done|]. split; [done|].
        intros [_ [? | (? & ? & _)]]; done. }
    specialize (Hstart start eq_refl). simpl.
    destruct (N.eqb_spec (timer_minutes st) 0) as [Hz | Hnz].
    { exists false. split; [done|]. split; [done|].
      intros [_ [? | (? & _ & ? & _)]]; [done | lia]. }
    unfold valid_datetime in *.
    destruct (timedelta (Z.of_N (timer_minutes st)) 60) as [td | e] eqn:Htd; simpl.
    + apply timedelta_Ok in Htd. subst td.
      destruct (dt_add start _) as [deadline | e] eqn:Hadd.
      * apply dt_add_Ok in Hadd as [-> _].
        eexists. split; [done|]. rewrite Z.ltb_lt. split.
        -- intros Hlt. split; [done|]. right. exists start. split; [done|].
           split; [lia|]. rewrite US_PER_SECOND_eq in *. lia.
        -- intros [_ [? | (start' & [= <-] & _ & Hgt)]]; [done|].
           rewrite US_PER_SECOND_eq in *. lia.
      * apply dt_add_Raise in Hadd as [-> Hinv]. exists false.
        split; [done|]. split; [done|].
        intros [_ [? | (start' & [= <-] & _ & Hgt)]]; [done|].
        unfold valid_datetime in Hinv.
        rewrite US_PER_MINUTE_eq, US_PER_SECOND_eq in *. lia.
    + apply timedelta_Raise in Htd as [-> Hbig]. exists false.
      split; [done|]. split; [done|].
      intros [_ [? | (start' & [= <-] & _ & Hgt)]]; [done|].
      specialize (Hbig ltac:(lia) ltac:(lia)). lia.
  - intros Hz Hend now'. rewrite Hend.
    destruct (is_submitted s); [done|].
    rewrite bool_decide_eq_false_2 by (intros [? ?]; done).
    destruct (start_time s); [|done]. simpl. by rewrite Hz.
Qed.

Lemma is_timed_out_correct_witness :
  valid_datetime (Sample.at_time Sample.day 9 11 5) /\
  (exists b,
     is_timed_out (Some Sample.settings) (Sample.at_time Sample.day 9 11 5)
       Sample.in_progress = Ok b /\
     (b = true <->
      spec_timed_out Sample.settings (Sample.at_time Sample.day 9 11 5)
        Sample.in_progress)).
Proof.
  assert (H1 : valid_datetime (Sample.at_time Sample.day 9 11 5))
    by (vm_compute; split; discriminate).
  assert (H2 : forall t, start_time Sample.in_progress = Some t -> valid_datetime t)
    by (intros t [= <-]; vm_compute; split; discriminate).
  exact (conj H1 (proj1 (is_timed_out_correct Sample.settings _ Sample.in_progress H1 H2))).
Defined.

(** ** Rows and tables *)

Lemma set_submissions_ext f g db :
  f (db_submissions db) = g (db_submissions db) ->
  set_submissions f db = set_submissions g db.
Proof. unfold set_submissions. by intros ->. Qed.

Lemma set_submissions_same f db :
  f (db_submissions db) = db_submissions db -> set_submissions f db = db.
Proof. destruct db. unfold set_submissions. simpl. by intros ->. Qed.

Lemma set_submissions_twice f g db :
  set_submissions g (set_submissions f db) = set_submissions (g ∘ f) db.
Proof. done. Qed.

(** ** Finalization by timeout *)

Lemma is_timed_out_ended st now s :
  is_submitted s = false -> is_Some (end_time s) -> is_timed_out st now s = Ok true.
Proof.
  intros Hsub Hend. unfold is_timed_out. rewrite Hsub.
  by rewrite bool_decide_eq_true_2.
Qed.

Lemma is_timed_out_submitted st now s :
  is_submitted s = true -> is_timed_out st now s = Ok false.
Proof. intros Hsub. unfold is_timed_out. by rewrite Hsub. Qed.

Lemma is_timed_out_true_inv st now s :
  is_timed_out st now s = Ok true ->
  is_submitted s = false /\
  (is_Some (end_time s) \/
   end_time s = None /\ exists settings start,
     st = Some settings /\ start_time s = Some start).
Proof.
  unfold is_timed_out. destruct (is_submitted s); [discriminate|].
  intros H. split; [done|]. case_bool_decide as Hend; [by left|]. right.
  split. { destruct (end_time s); [|done]. destruct Hend. eauto. }
  destruct (start_time s) as [start|]; [|discriminate].
  destruct st as [settings|]; [|discriminate]. eauto.
Qed.

(** C2. A submit attempt against a timed-out, not submitted attempt is
    answered with the conflict of a double submission. If [end_time] was still
    unset the row gets [end_time = start_time + timer_minutes] (or [now] when
    that addition overflows) and [score = 0]; otherwise the row is left as it
    is. [is_submitted] stays false, and any further attempt changes nothing and
    meets the same conflict. *)
Theorem timeout_finalized_once (db : DB) (quiz_id : Z) (student : StudentProfile)
    (now : datetime) (data : list AnswerData) (s : QuizSubmission) :
  let key := (quiz_id, student_pk student) in
  db_submissions db !! key = Some s ->
  is_timed_out (db_settings db !! quiz_id) now s = Ok true ->
  exists s1,
    let db1 := set_submissions (insert key s1) db in
    create_submission db quiz_id student now data = (db1, Ok already_submitted) /\
    is_submitted s1 = false /\
    (is_Some (end_time s) -> s1 = s) /\
    (end_time s = None ->
     exists settings start t,
       db_settings db !! quiz_id = Some settings /\
       start_time s = Some start /\
       spec_timeout_end_time settings now start t /\
       s1 = with_score 0%Q (with_end_time (Some t) s)) /\
    (forall now2 data2,
       create_submission db1 quiz_id student now2 data2 = (db1, Ok already_submitted)) /\
    (forall db' now' data' s',
       db_submissions db' !! key = Some s' -> is_submitted s' = true ->
       create_submission db' quiz_id student now' data' = (db', Ok already_submitted)).
Proof.
  intros key Hrow Hout.
  pose proof (is_timed_out_true_inv _ _ _ Hout) as [Hsub Hcases].
  assert (Hsecond : forall s1,
    is_submitted s1 = false -> is_Some (end_time s1) ->
    forall now2 data2,
      create_submission (set_submissions (insert key s1) db) quiz_id student now2 data2
      = (set_submissions (insert key s1) db, Ok already_submitted)).
  { intros s1 Hsub1 Hend1 now2 data2. unfold create_submission. fold key. simpl.
    rewrite lookup_insert_eq, Hsub1.
    rewrite (is_timed_out_ended _ _ _ Hsub1 Hend1).
    unfold finalize_timed_out. rewrite bool_decide_eq_true_2 by done.
    rewrite set_submissions_twice. f_equal.
    apply set_submissions_ext. simpl. apply insert_insert_eq. }
  assert (Hdouble : forall db' now' data' s',
    db_submissions db' !! key = Some s' -> is_submitted s' = true ->
    create_submission db' quiz_id student now' data' = (db', Ok already_submitted)).
  { intros db' now' data' s' Hrow' Hsub'. unfold create_submission. fold key.
    by rewrite Hrow', Hsub'. }
  assert (Hfirst : forall s1,
    finalize_timed_out (db_settings db !! quiz_id) now s = Ok s1 ->
    create_submission db quiz_id student now data
    = (set_submissions (insert key s1) db, Ok already_submitted)).
  { intros s1 Hfin. unfold create_submission. fold key.
    by rewrite Hrow, Hsub, Hout, Hfin. }
  destruct Hcases as [Hend | (Hend & settings & start & Hst & Hstart)].
  - exists s. simpl.
    split. { apply Hfirst. unfold finalize_timed_out. by rewrite bool_decide_eq_true_2. }
    split; [done|]. split; [done|].
    split; [intros Hnone; rewrite Hnone in Hend; by destruct Hend|].
    split; [|done]. by apply Hsecond.
  - assert (Hfin : exists t,
      spec_timeout_end_time settings now start t /\
      finalize_timed_out (db_settings db !! quiz_id) now s
      = Ok (with_score 0%Q (with_end_time (Some t) s))).
    { unfold finalize_timed_out, spec_timeout_end_time.
      rewrite bool_decide_eq_false_2 by (rewrite Hend; intros [? ?]; done).
      rewrite Hst, Hstart. simpl.
      destruct (timedelta (Z.of_N (timer_minutes settings)) 0) as [td | e] eqn:Htd; simpl.
      - destruct (dt_add start td) as [t | e] eqn:Hadd; simpl.
        + exists t. auto.
        + apply dt_add_Raise in Hadd as [-> _]. exists now. auto.
      - apply timedelta_Raise in Htd as [-> _]. exists now. auto. }
    destruct Hfin as (t & Hspec & Hfin).
    exists (with_score 0%Q (with_end_time (Some t) s)). simpl.
    split; [by apply Hfirst|]. split; [done|].
    split; [intros Hsome; rewrite Hend in Hsome; by destruct Hsome|].
    split; [intros _; exists settings, start, t; auto|].
    split; [|done]. apply Hsecond; simpl; eauto.
Qed.

Lemma timeout_finalized_once_witness :
  db_submissions Sample.db1 !! (1, student_pk Sample.student) = Some Sample.in_progress /\
  is_timed_out (db_settings Sample.db1 !! 1) (Sample.at_time Sample.day 9 11 5)
    Sample.in_progress = Ok true /\
  exists s1,
    create_submission Sample.db1 1 Sample.student (Sample.at_time Sample.day 9 11 5) []
    = (set_submissions (insert (1, student_pk Sample.student) s1) Sample.db1,
       Ok already_submitted) /\
    is_submitted s1 = false.
Proof.
  assert (H1 : db_submissions Sample.db1 !! (1, student_pk Sample.student)
               = Some Sample.in_progress) by (vm_compute; reflexivity).
  assert (H2 : is_timed_out (db_settings Sample.db1 !! 1)
                 (Sample.at_time Sample.day 9 11 5) Sample.in_progress = Ok true)
    by (vm_compute; reflexivity).
  split; [exact H1|]. split; [exact H2|].
  destruct (timeout_finalized_once Sample.db1 1 Sample.student
              (Sample.at_time Sample.day 9 11 5) [] Sample.in_progress H1 H2)
    as (s1 & Hfirst & Hsub & _).
  exists s1. split; [exact Hfirst | exact Hsub].
Defined.

(** ** Scoring *)

Lemma count_selected_correct_le db answer :
  (count_selected_correct db answer <= count_selected db answer)%nat.
Proof. unfold count_selected_correct, count_selected. apply length_filter. Qed.

Lemma Qnat_nonneg n : (0 <= Qnat n)%Q.
Proof. unfold Qnat, Qle. simpl. lia. Qed.

Lemma QofN_nonneg n : (0 <= QofN n)%Q.
Proof. unfold QofN, Qle. simpl. lia. Qed.

Lemma Qnat_pos n : (0 < n)%nat -> (0 < Qnat n)%Q.
Proof. unfold Qnat, Qlt. simpl. lia. Qed.

Lemma Qmax_0_nonneg q : (0 <= q)%Q -> (Qmax 0 q == q)%Q.
Proof. intros H. by rewrite Q.max_r. Qed.

Lemma raw_score_nonneg Sc C pts :
  (0 < C)%nat -> (0 <= Qnat Sc / Qnat C * QofN pts)%Q.
Proof.
  intros HC. apply Qmult_le_0_compat; [|apply QofN_nonneg].
  apply Qle_shift_div_l; [by apply Qnat_pos|].
  rewrite Qmult_0_l. apply Qnat_nonneg.
Qed.

Lemma inject_Z_sub_nat St Sc :
  (inject_Z (Z.of_nat St - Z.of_nat Sc) == Qnat St - Qnat Sc)%Q.
Proof.
  unfold Qnat, Qminus. by rewrite <- inject_Z_opp, <- inject_Z_plus.
Qed.

(** The branch of [calculate_score] on [incorrectly_selected > 0] computes the
    unconditional formula of the specification. *)
Lemma partial_score_spec (C Sc St : nat) (pts : N) :
  (0 < C)%nat -> (Sc <= St)%nat ->
  let partial_score := (Qnat Sc / Qnat C * QofN pts)%Q in
  let incorrectly_selected := Z.of_nat St - Z.of_nat Sc in
  ((if 0 <? incorrectly_selected
    then Qmax 0 (partial_score
                 - inject_Z incorrectly_selected / Qnat C * QofN pts)
    else partial_score) == spec_awarded C Sc St pts)%Q.
Proof.
  intros HC Hle. simpl. unfold spec_awarded.
  destruct (Nat.eqb_spec C 0) as [-> | _]; [lia|].
  destruct (Z.ltb_spec 0 (Z.of_nat St - Z.of_nat Sc)) as [Hpos | Hzero].
  - by rewrite inject_Z_sub_nat.
  - assert (St = Sc) as -> by lia.
    assert (Heq : (Qnat Sc / Qnat C * QofN pts
                   - (Qnat Sc - Qnat Sc) / Qnat C * QofN pts
                   == Qnat Sc / Qnat C * QofN pts)%Q)
      by (unfold Qdiv; ring).
    rewrite Heq, Qmax_0_nonneg; [reflexivity | by apply raw_score_nonneg].
Qed.

Lemma score_answer_spec db pk answer question :
  db_questions db !! answer_question answer = Some question ->
  exists r, score_answer db pk answer = Ok r /\
    match r with
    | Some answer' =>
        (0 < count_correct_choices db (answer_question answer))%nat /\
        (points_earned answer' == awarded db (pk, answer))%Q
    | None => count_correct_choices db (answer_question answer) = 0%nat
    end.
Proof.
  intros Hq. unfold score_answer, get_question, awarded. simpl. rewrite Hq. simpl.
  destruct (Nat.ltb_spec 0 (count_correct_choices db (answer_question answer)))
    as [HC | HC].
  - eexists. split; [reflexivity|]. split; [done|]. simpl.
    apply partial_score_spec; [done | apply count_selected_correct_le].
  - eexists. split; [reflexivity|]. simpl. lia.
Qed.

Lemma awarded_unscorable db r :
  count_correct_choices db (answer_question r.2) = 0%nat -> awarded db r = 0%Q.
Proof. intros H. unfold awarded, spec_awarded. by rewrite H. Qed.

Lemma Qsum_cons q l : Qsum (q :: l) = (q + Qsum l)%Q.
Proof. reflexivity. Qed.

Lemma score_loop_spec db answers :
  (forall r, r ∈ answers -> is_Some (db_questions db !! answer_question r.2)) ->
  forall total_score answers_to_update,
  exists total new_rows,
    score_loop db answers total_score answers_to_update
    = Ok (total, answers_to_update ++ new_rows) /\
    (total == total_score + Qsum (awarded db <$> answers))%Q /\
    new_rows.*1 `sublist_of` answers.*1 /\
    (forall r, r ∈ answers ->
       (1 <= count_correct_choices db (answer_question r.2))%nat ->
       exists answer', (r.1, answer') ∈ new_rows /\
                       (points_earned answer' == awarded db r)%Q).
Proof.
  induction answers as [|[pk answer] rest IH]; intros Hfk total_score upd.
  - exists total_score, []. simpl. rewrite app_nil_r. split; [done|].
    split; [unfold Qsum; simpl; ring|]. split; [done|].
    intros r Hr. by apply elem_of_nil in Hr.
  - destruct (Hfk (pk, answer)) as [question Hq]; [left|].
    destruct (score_answer_spec db pk answer question Hq) as (r & Hr & Hspec).
    simpl in *. rewrite Hr. simpl.
    assert (Hfk' : forall r, r ∈ rest ->
              is_Some (db_questions db !! answer_question r.2))
      by (intros; apply Hfk; by right).
    destruct r as [answer'|].
    + destruct Hspec as [HC Hpts].
      destruct (IH Hfk' (total_score + points_earned answer')%Q
                  (upd ++ [(pk, answer')]))
        as (total & new_rows & Hloop & Htotal & Hsub & Hrows).
      exists total, ((pk, answer') :: new_rows).
      split. { rewrite Hloop. by rewrite <- app_assoc. }
      split.
      { change (total == total_score
                  + (awarded db (pk, answer) + Qsum (awarded db <$> rest)))%Q.
        rewrite Htotal, Hpts. ring. }
      split. { simpl. by apply sublist_skip. }
      intros r [-> | Hin]%elem_of_cons HC'.
      * exists answer'. split; [left | done].
      * destruct (Hrows r Hin HC') as (a' & Ha' & Heq).
        exists a'. split; [by right | done].
    + destruct (IH Hfk' total_score upd)
        as (total & new_rows & Hloop & Htotal & Hsub & Hrows).
      exists total, new_rows.
      split; [done|].
      split.
      { change (total == total_score
                  + (awarded db (pk, answer) + Qsum (awarded db <$> rest)))%Q.
        rewrite Htotal, (awarded_unscorable db (pk, answer)) by done. ring. }
      split. { simpl. by apply sublist_cons. }
      intros r [-> | Hin]%elem_of_cons HC'; [simpl in HC'; lia|].
      by apply Hrows.
Qed.

Lemma foldl_insert_notin {A} (rows : list (Z * A)) (m : gmap Z A) k :
  k ∉ rows.*1 -> foldl (fun m r => <[r.1 := r.2]> m) m rows !! k = m !! k.
Proof.
  revert m. induction rows as [|r rows IH]; intros m Hk; [done|].
  simpl in *. apply not_elem_of_cons in Hk as [Hne Hk].
  rewrite IH by done. by rewrite lookup_insert_ne.
Qed.

Lemma foldl_insert_lookup {A} (rows : list (Z * A)) (m : gmap Z A) k v :
  NoDup rows.*1 -> (k, v) ∈ rows ->
  foldl (fun m r => <[r.1 := r.2]> m) m rows !! k = Some v.
Proof.
  revert m. induction rows as [|r rows IH]; intros m Hnd Hin.
  { by apply elem_of_nil in Hin. }
  simpl in *. apply NoDup_cons in Hnd as [Hfresh Hnd].
  apply elem_of_cons in Hin as [<- | Hin].
  - simpl in *. rewrite foldl_insert_notin by done. apply lookup_insert_eq.
  - by apply IH.
Qed.

Lemma submission_answers_NoDup db self : NoDup (submission_answers db self).*1.
Proof.
  unfold submission_answers. rewrite merge_sort_Permutation.
  eapply sublist_NoDup; [apply (NoDup_fst_map_to_list (db_answers db))|].
  apply fmap_sublist, sublist_filter.
Qed.

Lemma calculate_score_total db self :
  (forall r, r ∈ submission_answers db self ->
             is_Some (db_questions db !! answer_question r.2)) ->
  exists db' total,
    calculate_score db self = Ok (db', total) /\
    (total == Qsum (awarded db <$> submission_answers db self))%Q.
Proof.
  intros Hfk.
  destruct (score_loop_spec db _ Hfk 0%Q [])
    as (total & new_rows & Hloop & Htotal & _).
  simpl in Hloop. unfold calculate_score. rewrite Hloop. simpl.
  eexists _, total. split; [reflexivity|]. rewrite Htotal. ring.
Qed.

(** The exact-rational reading of [calculate_score]: provided every answer
    of the submission points to an existing question, it returns, and the
    score it returns is the sum over the answers of
    [max(0, Sc/C * points - (St - Sc)/C * points)] computed without rounding
    (zero for a question without a correct choice), which is also what it
    records in [points_earned]. *)
Lemma calculate_score_exact (db : DB) (self : QuizSubmission) :
  (forall r, r ∈ submission_answers db self ->
             is_Some (db_questions db !! answer_question r.2)) ->
  exists db' total,
    calculate_score db self = Ok (db', total) /\
    (total == Qsum (awarded db <$> submission_answers db self))%Q /\
    (forall r, r ∈ submission_answers db self ->
       let C := count_correct_choices db (answer_question r.2) in
       let Sc := count_selected_correct db r.1 in
       let St := count_selected db r.1 in
       (C = 0%nat -> awarded db r = 0%Q) /\
       ((1 <= C)%nat ->
        exists question answer',
          db_questions db !! answer_question r.2 = Some question /\
          db_answers db' !! r.1 = Some answer' /\
          (points_earned answer'
           == Qmax 0 (Qnat Sc / Qnat C * QofN (points question)
                      - (Qnat St - Qnat Sc) / Qnat C * QofN (points question)))%Q /\
          (points_earned answer' == awarded db r)%Q)).
Proof.
  intros Hfk.
  destruct (score_loop_spec db _ Hfk 0%Q [])
    as (total & new_rows & Hloop & Htotal & Hsub & Hrows).
  simpl in Hloop.
  exists (bulk_update_answers new_rows db), total. split.
  { unfold calculate_score. rewrite Hloop. simpl.
    destruct new_rows; [|done]. by destruct db. }
  split. { rewrite Htotal. ring. }
  intros r Hr C Sc St. split; [apply awarded_unscorable|].
  intros HC. destruct (Hfk r Hr) as [question Hq].
  destruct (Hrows r Hr HC) as (answer' & Hin & Hpts).
  exists question, answer'. split; [done|]. split.
  { simpl. apply foldl_insert_lookup; [|done].
    eapply sublist_NoDup; [apply submission_answers_NoDup | done]. }
  split; [|done]. rewrite Hpts. unfold awarded, spec_awarded. rewrite Hq.
  fold C Sc St. destruct (Nat.eqb_spec C 0); [lia | reflexivity].
Qed.

(** ** Validation of the submitted question set *)

Lemma elem_of_submission_answers db submission pk answer :
  (pk, answer) ∈ submission_answers db submission <->
  db_answers db !! pk = Some answer /\ answer_submission answer = id submission.
Proof.
  unfold submission_answers. rewrite merge_sort_Permutation.
  rewrite list_elem_of_filter, elem_of_map_to_list. simpl. tauto.
Qed.

Lemma own_question_expected db submission question :
  question ∈ (fun r : Z * Answer => answer_question r.2) <$> submission_answers db submission
  <-> own_question db submission question.
Proof.
  rewrite list_elem_of_fmap. unfold own_question. split.
  - intros ([pk answer] & -> & Hin). apply elem_of_submission_answers in Hin.
    exists pk, answer. tauto.
  - intros (pk & answer & Hrow & Hsub & <-). exists (pk, answer).
    split; [done|]. by apply elem_of_submission_answers.
Qed.

(** C8. [validate_answers] accepts a payload exactly when every submitted
    question id is the question of one of the submission's own answer stubs
    (any subset of them is accepted), and otherwise rejects it with the
    validation error for foreign questions. *)
Theorem validate_answers_subset (db : DB) (submission : QuizSubmission)
    (value : list AnswerData) :
  (validate_answers db submission value = Valid value <->
   forall adata, adata ∈ value -> own_question db submission (ad_question adata)) /\
  (validate_answers db submission value
   = ValidationError "One or more submitted answers do not belong to this quiz." <->
   exists adata, adata ∈ value /\ ~ own_question db submission (ad_question adata)).
Proof.
  unfold validate_answers.
  set (expected := (fun r : Z * Answer => answer_question r.2)
                   <$> submission_answers db submission).
  assert (Hsubset :
    (list_to_set (ad_question <$> value) : gset Z) ⊆ list_to_set expected <->
    forall adata, adata ∈ value -> own_question db submission (ad_question adata)).
  { split.
    - intros Hsub adata Hin. apply own_question_expected. fold expected.
      apply (elem_of_list_to_set (C := gset Z)), Hsub, elem_of_list_to_set.
      by apply list_elem_of_fmap_2.
    - intros Hall q [adata [-> Hin]]%elem_of_list_to_set%list_elem_of_fmap.
      apply elem_of_list_to_set. by apply own_question_expected, Hall. }
  case_bool_decide as Hdec; split.
  - split; [intros _; by apply Hsubset | done].
  - split; [discriminate|]. intros (adata & Hin & Hforeign).
    destruct Hforeign. by apply Hsubset.
  - split; [discriminate|]. intros Hall. destruct Hdec. by apply Hsubset.
  - split; [intros _ | done].
    destruct (decide (Forall (fun adata => ad_question adata ∈ expected) value))
      as [Hall | Hex].
    + destruct Hdec. apply Hsubset. intros adata Hin.
      apply own_question_expected. by eapply (proj1 (Forall_forall _ _)) in Hall.
    + apply not_Forall_Exists in Hex; [|apply _].
      apply Exists_exists in Hex as (adata & Hin & Hforeign).
      exists adata. split; [done|]. intros Hown. apply Hforeign.
      by apply own_question_expected.
Qed.

(** ** Bulk release *)

(** The rows a release call leaves behind: untouched, or every submitted
    attempt of the quiz updated with a payload that is not empty. *)
Lemma release_rows db quiz_id perm data :
  let out := release_all_quiz_results db quiz_id perm data in
  out.1 = db \/
  exists update_payload,
    db_submissions out.1
    = map_imap (fun key s =>
        Some (if submitted_of quiz_id key s
              then apply_payload update_payload s else s)) (db_submissions db).
Proof.
  unfold release_all_quiz_results.
  repeat (case_match; simpl; try (by left)); right; eauto.
Qed.

(** C10. A release call leaves every submission with [is_submitted = false]
    (in progress, or finalized by timeout) exactly as it was; in particular
    both release flags are unchanged. *)
Theorem release_skips_unsubmitted (db : DB) (quiz_id : Z) (perm : bool)
    (data : gmap string json) (key : Z * Z) (s : QuizSubmission) :
  db_submissions db !! key = Some s ->
  is_submitted s = false ->
  db_submissions (release_all_quiz_results db quiz_id perm data).1 !! key = Some s.
Proof.
  intros Hrow Hsub.
  destruct (release_rows db quiz_id perm data) as [-> | [payload ->]]; [done|].
  rewrite map_lookup_imap, Hrow. simpl.
  unfold submitted_of. by rewrite Hsub, andb_false_r.
Qed.

Lemma release_skips_unsubmitted_witness :
  db_submissions Sample.db_late !! (1, 42) = Some Sample.timed_out /\
  is_submitted Sample.timed_out = false /\
  db_submissions
    (release_all_quiz_results Sample.db_late 1 true Sample.release_both).1 !! (1, 42)
  = Some Sample.timed_out.
Proof.
  assert (H1 : db_submissions Sample.db_late !! (1, 42) = Some Sample.timed_out)
    by (vm_compute; reflexivity).
  assert (H2 : is_submitted Sample.timed_out = false) by reflexivity.
  exact (conj H1 (conj H2
    (release_skips_unsubmitted Sample.db_late 1 true Sample.release_both
       (1, 42) Sample.timed_out H1 H2))).
Defined.

(** a row keeps a flag the payload does not carry *)
Ltac release_row_kept :=
  let key := fresh "key" in
  let s := fresh "s" in
  let Hrow := fresh "Hrow" in
  intros key s Hrow; simpl;
  try (rewrite map_lookup_imap, Hrow; simpl);
  eexists; (split; [first [reflexivity | eassumption] |]);
  unfold apply_payload; simpl;
  try (match goal with |- context [submitted_of ?q ?k ?r] =>
         destruct (submitted_of q k r) end);
  reflexivity.

(** a description of the other flag is not the one looked for *)
Ltac not_described :=
  let Hin := fresh "Hin" in
  intros Hin;
  repeat (apply elem_of_cons in Hin as [Hin | Hin]; [discriminate Hin|]);
  by apply elem_of_nil in Hin.

(** the response carries no value and no description for a skipped flag *)
Ltac release_reports_none :=
  let H := fresh "H" in
  let Heq := fresh "Heq" in
  intros ? ? ? ? ? Heq; simpl in Heq;
  first [ discriminate Heq
        | inversion Heq; subst; simpl; split_and!;
          [ done | not_described | not_described ] ].

(** a submitted row of the quiz receives the requested value *)
Ltac release_row_written :=
  let key := fresh "key" in
  let s := fresh "s" in
  let Hrow := fresh "Hrow" in
  let Hk := fresh "Hk" in
  let Hsub := fresh "Hsub" in
  intros _ _ key s Hrow Hk Hsub; simpl;
  rewrite map_lookup_imap, Hrow; simpl;
  unfold submitted_of; rewrite Hk, Hsub, Z.eqb_refl; simpl;
  eexists; split; [reflexivity | done].

(** C7. With the quiz, its settings and the permission in place: a release
    flag whose visibility mode is not ['manual'] is never written, and the
    response reports no value for it; a requested flag whose mode is
    ['manual'] is written, with the requested value, on the submitted attempts
    of the quiz; and when a flag is requested but no requested flag is in
    manual mode, the request is answered with the conflict and the database is
    left as it was. *)
Theorem release_only_manual (db : DB) (quiz_id : Z) (data : gmap string json)
    (quiz : Quiz) (settings : QuizSettings) :
  db_quizzes db !! quiz_id = Some quiz ->
  db_settings db !! quiz_id = Some settings ->
  let out := release_all_quiz_results db quiz_id true data in
  let score_requested := is_Some (data !! "release_score") in
  let answers_requested := is_Some (data !! "release_answers") in
  (score_visibility settings <> "manual" ->
   (forall key s, db_submissions db !! key = Some s ->
      exists s', db_submissions out.1 !! key = Some s' /\
                 is_score_released s' = is_score_released s) /\
   (forall n descs released_scores released_answers code,
      out.2 = Ok {| body := Released n descs released_scores released_answers;
                    status := code |} ->
      released_scores = None /\
      ("scores released" ∉ descs) /\ ("scores retracted" ∉ descs))) /\
  (answers_visibility settings <> "manual" ->
   (forall key s, db_submissions db !! key = Some s ->
      exists s', db_submissions out.1 !! key = Some s' /\
                 are_answers_released s' = are_answers_released s) /\
   (forall n descs released_scores released_answers code,
      out.2 = Ok {| body := Released n descs released_scores released_answers;
                    status := code |} ->
      released_answers = None /\
      ("answers released" ∉ descs) /\ ("answers retracted" ∉ descs))) /\
  (score_requested -> score_visibility settings = "manual" ->
   forall key s, db_submissions db !! key = Some s ->
     key.1 = quiz_id -> is_submitted s = true ->
     exists s', db_submissions out.1 !! key = Some s' /\
                is_score_released s' = py_bool (data !! "release_score")) /\
  (answers_requested -> answers_visibility settings = "manual" ->
   forall key s, db_submissions db !! key = Some s ->
     key.1 = quiz_id -> is_submitted s = true ->
     exists s', db_submissions out.1 !! key = Some s' /\
                are_answers_released s' = py_bool (data !! "release_answers")) /\
  (score_requested \/ answers_requested ->
   (score_requested -> score_visibility settings <> "manual") ->
   (answers_requested -> answers_visibility settings <> "manual") ->
   out = (db, Ok no_manual_mode)).
Proof.
  intros Hquiz Hsettings out score_requested answers_requested.
  subst out score_requested answers_requested.
  unfold release_all_quiz_results. rewrite Hquiz, Hsettings. simpl.
  destruct (String.eqb_spec (score_visibility settings) "manual") as [Hs | Hs];
  destruct (String.eqb_spec (answers_visibility settings) "manual") as [Ha | Ha];
  destruct (data !! "release_score") as [vs|] eqn:Hvs;
  destruct (data !! "release_answers") as [va|] eqn:Hva;
  repeat (rewrite bool_decide_eq_true_2 by eauto);
  repeat (rewrite bool_decide_eq_false_2 by (intros [? ?]; done));
  simpl.
  all: split_and!.
  all: try (intros; exfalso;
            first [ congruence
                  | match goal with Hnone : is_Some None |- _ => by inversion Hnone end ]).
  all: try (intros _; split; [release_row_kept | release_reports_none]).
  all: try release_row_written.
  all: try (intros [[? ?]|[? ?]]; done).
  all: try (intros; reflexivity).
  all: try (intros ? H1 H2; exfalso;
            first [ by (apply H1; eauto) | by (apply H2; eauto) ]).
Qed.

Lemma release_only_manual_witness :
  db_quizzes Sample.db2 !! 1 = Some {| quiz_teacher := 1; quiz_grade := 7 |} /\
  db_settings Sample.db2 !! 1 = Some Sample.settings /\
  exists s',
    db_submissions
      (release_all_quiz_results Sample.db2 1 true Sample.release_both).1 !! (1, 42)
    = Some s' /\
    are_answers_released s' = true.
Proof.
  assert (H1 : db_quizzes Sample.db2 !! 1
               = Some {| quiz_teacher := 1; quiz_grade := 7 |})
    by (vm_compute; reflexivity).
  assert (H2 : db_settings Sample.db2 !! 1 = Some Sample.settings)
    by (vm_compute; reflexivity).
  split; [exact H1|]. split; [exact H2|].
  destruct (release_only_manual Sample.db2 1 Sample.release_both _ _ H1 H2)
    as (_ & _ & _ & Hanswers & _).
  destruct (Hanswers (ex_intro _ (JBool true) eq_refl) eq_refl
              (1, 42) Sample.submitted) as (s' & Hrow & Hflag).
  - vm_compute. reflexivity.
  - reflexivity.
  - reflexivity.
  - exists s'. split; [exact Hrow | exact Hflag].
Defined.

(** ** The submission table under the operations *)

Lemma bulk_create_answers_submissions rows db :
  db_submissions (bulk_create_answers rows db) = db_submissions db.
Proof.
  revert db. induction rows as [|a rows IH]; intros db; [done|].
  simpl. by rewrite IH.
Qed.

Lemma serializer_update_submissions db instance answers_data db1 :
  serializer_update db instance answers_data = Ok db1 ->
  db_submissions db1 = db_submissions db.
Proof.
  unfold serializer_update.
  destruct (through_rows _ answers_data) as [rows|]; simpl; [|discriminate].
  case_bool_decide; [|discriminate]. by intros [= <-].
Qed.

Lemma calculate_score_submissions db self db' total :
  calculate_score db self = Ok (db', total) ->
  db_submissions db' = db_submissions db.
Proof.
  unfold calculate_score.
  destruct (score_loop db _ _ _) as [[total' rows]|]; simpl; [|discriminate].
  intros [= <- _]. by destruct rows.
Qed.

(** What a submit request does to the submission table: nothing, or it
    rewrites the row of the caller, which was not yet submitted, either by
    finalizing a timed-out attempt or by recording an on-time submission. *)
Lemma create_submission_rows db quiz_id student now data :
  let key := (quiz_id, student_pk student) in
  let st := db_settings db !! quiz_id in
  let db' := (create_submission db quiz_id student now data).1 in
  db_submissions db' = db_submissions db \/
  exists s s',
    db_submissions db !! key = Some s /\
    is_submitted s = false /\
    db_submissions db' = <[key := s']> (db_submissions db) /\
    ((is_timed_out st now s = Ok true /\ finalize_timed_out st now s = Ok s') \/
     (is_timed_out st now s = Ok false /\
      exists total,
        s' = with_score total
               (with_is_submitted true (with_end_time (Some now) s)))).
Proof.
  intros key st db'. subst db'. unfold create_submission. fold key st.
  destruct (db_submissions db !! key) as [s|] eqn:Hrow; [|by left].
  destruct (is_submitted s) eqn:Hsub; [by left|].
  destruct (is_timed_out st now s) as [[|]|] eqn:Hout; [| |by left].
  - destruct (finalize_timed_out st now s) as [s'|] eqn:Hfin; [|by left].
    right. exists s, s'. simpl. eauto 10.
  - destruct (is_valid db s data) as [validated|]; [|by left].
    destruct (serializer_update db s validated) as [db1|] eqn:Hupd; [|by left].
    simpl.
    destruct (calculate_score db1 _) as [[db2 total]|] eqn:Hcalc; [|by left].
    simpl. right. exists s. eexists. split; [done|]. split; [done|].
    split; [|right; split; [done | by exists total]].
    by rewrite (calculate_score_submissions _ _ _ _ Hcalc),
               (serializer_update_submissions _ _ _ _ Hupd).
Qed.

(** What a start request does to the submission table: nothing, or it adds
    the row of a caller who had none. *)
Lemma start_quiz_rows shuffle db quiz_id student now :
  let key := (quiz_id, student_pk student) in
  let db' := (start_quiz shuffle db quiz_id student now).1 in
  db_submissions db' = db_submissions db \/
  (db_submissions db !! key = None /\
   db_submissions db'
   = <[key := with_start_time (Some now) (new_submission (db_next_pk db))]>
       (db_submissions db)).
Proof.
  intros key db'. subst db'. unfold start_quiz. fold key.
  destruct (db_quizzes db !! quiz_id); [|by left].
  destruct (CanTakeQuiz db quiz_id student now); [|by left]. simpl.
  destruct (db_settings db !! quiz_id); [|by left].
  destruct (db_submissions db !! key) eqn:Hrow; [by left|].
  right. split; [done|]. simpl.
  rewrite bulk_create_answers_submissions. simpl.
  by rewrite alter_insert_eq.
Qed.

(** C6. Whatever start, submit (with its answer update and its timeout
    finalization) and release requests follow, in any order and at any time,
    a submission whose [end_time] is set keeps its row and that [end_time]. *)
Theorem end_time_write_once (ops : list operation) (db : DB) (key : Z * Z)
    (s : QuizSubmission) (t : datetime) :
  db_submissions db !! key = Some s ->
  end_time s = Some t ->
  exists s', db_submissions (run_all db ops) !! key = Some s' /\
             end_time s' = Some t.
Proof.
  revert db s. induction ops as [|op ops IH]; intros db s Hrow Hend.
  { exists s. done. }
  assert (Hstep : exists s1, db_submissions (run db op).1 !! key = Some s1 /\
                             end_time s1 = Some t).
  { destruct op as [shuffle quiz_id student now | quiz_id student now data
                   | quiz_id perm data]; simpl.
    - destruct (start_quiz_rows shuffle db quiz_id student now)
        as [-> | [Hnone ->]]; [eauto|].
      exists s. split; [|done]. rewrite lookup_insert_ne; [done|].
      intros <-. congruence.
    - destruct (create_submission_rows db quiz_id student now data)
        as [-> | (s0 & s' & Hrow0 & Hsub0 & -> & Hcases)]; [eauto|].
      destruct (decide ((quiz_id, student_pk student) = key)) as [<- | Hne].
      2:{ exists s. by rewrite lookup_insert_ne. }
      rewrite lookup_insert_eq. assert (s0 = s) as -> by congruence.
      exists s'. split; [done|].
      assert (Hout : forall st, is_timed_out st now s = Ok true)
        by (intros; apply is_timed_out_ended; [done | rewrite Hend; eauto]).
      destruct Hcases as [[_ Hfin] | [Hfalse _]].
      + unfold finalize_timed_out in Hfin.
        rewrite bool_decide_eq_true_2 in Hfin by (rewrite Hend; eauto).
        by injection Hfin as <-.
      + rewrite Hout in Hfalse. discriminate.
    - destruct (release_rows db quiz_id perm data) as [-> | [payload ->]]; [eauto|].
      rewrite map_lookup_imap, Hrow. simpl. eexists. split; [done|].
      unfold apply_payload. repeat case_match; done. }
  destruct Hstep as (s1 & Hrow1 & Hend1).
  simpl. by apply (IH _ s1).
Qed.

Lemma end_time_write_once_witness :
  db_submissions Sample.db2 !! (1, 42) = Some Sample.submitted /\
  end_time Sample.submitted = Some (Sample.at_time Sample.day 9 5 0) /\
  exists s',
    db_submissions
      (run_all Sample.db2
         [ Start reverse 1 Sample.student (Sample.at_time Sample.day 9 30 0);
           Submit 1 Sample.student (Sample.at_time Sample.day 9 40 0) Sample.payload;
           Release 1 true Sample.release_both ]) !! (1, 42) = Some s' /\
    end_time s' = Some (Sample.at_time Sample.day 9 5 0).
Proof.
  assert (H1 : db_submissions Sample.db2 !! (1, 42) = Some Sample.submitted)
    by (vm_compute; reflexivity).
  assert (H2 : end_time Sample.submitted = Some (Sample.at_time Sample.day 9 5 0))
    by reflexivity.
  exact (conj H1 (conj H2 (end_time_write_once _ Sample.db2 (1, 42) _ _ H1 H2))).
Defined.

(** ** Starting a quiz *)

Lemma bulk_create_answers_spec rows db :
  let db' := bulk_create_answers rows db in
  (forall i a, rows !! i = Some a ->
     db_answers db' !! (db_next_pk db + Z.of_nat i) = Some a) /\
  (forall k, k < db_next_pk db \/ db_next_pk db + Z.of_nat (length rows) <= k ->
     db_answers db' !! k = db_answers db !! k).
Proof.
  revert db. induction rows as [|a rows IH]; intros db; simpl.
  { split; [intros i a' Hi; by rewrite lookup_nil in Hi | done]. }
  destruct (IH (set_next_pk (db_next_pk db + 1)
                  (set_answers (insert (db_next_pk db) a) db))) as [Hnew Hold].
  simpl in Hnew, Hold. split.
  - intros [|i] a' Hi; simpl in Hi.
    + injection Hi as <-. rewrite Hold by lia.
      rewrite Z.add_0_r. apply lookup_insert_eq.
    + rewrite <- (Hnew i a' Hi). f_equal. lia.
  - intros k Hk. rewrite Hold by lia. apply lookup_insert_ne. lia.
Qed.

Lemma answer_stubs_lookup submission questions i :
  answer_stubs submission questions !! i
  = (fun question =>
       {| answer_submission := submission; answer_question := question.1;
          is_correct := false; points_earned := 0%Q; order := N.of_nat i |})
    <$> questions !! i.
Proof. unfold answer_stubs. apply list_lookup_imap. Qed.

Lemma bulk_create_answers_frame rows db :
  let db' := bulk_create_answers rows db in
  db_quizzes db' = db_quizzes db /\ db_settings db' = db_settings db /\
  db_quizcenters db' = db_quizcenters db.
Proof.
  revert db. induction rows as [|a rows IH]; intros db; [done|].
  simpl. destruct (IH (set_next_pk (db_next_pk db + 1)
                         (set_answers (insert (db_next_pk db) a) db)))
    as (-> & -> & ->). done.
Qed.

Lemma start_quiz_existing shuffle db quiz_id student now s :
  db_submissions db !! (quiz_id, student_pk student) = Some s ->
  (start_quiz shuffle db quiz_id student now).1 = db /\
  (CanTakeQuiz db quiz_id student now = true ->
   is_Some (db_settings db !! quiz_id) ->
   (start_quiz shuffle db quiz_id student now).2
   = Ok {| body := Started (id s) (start_time s); status := HTTP_200_OK |}).
Proof.
  intros Hrow. unfold start_quiz.
  destruct (db_quizzes db !! quiz_id) as [quiz|] eqn:Hquiz.
  2:{ split; [done|]. intros Hcan. unfold CanTakeQuiz in Hcan.
      rewrite Hquiz in Hcan. discriminate. }
  destruct (CanTakeQuiz db quiz_id student now); simpl;
    [|split; [done | discriminate]].
  destruct (db_settings db !! quiz_id); [|split; [done | by intros _ [? ?]]].
  by rewrite Hrow.
Qed.

Section Start.

Variable shuffle : list (Z * Question) -> list (Z * Question).

(** [random.shuffle] permutes its argument. *)
Hypothesis shuffle_Permutation : forall l, shuffle l ≡ₚ l.

(** C9. A start request against an existing submission changes nothing and,
    when the student is eligible, returns the stored id and [start_time]. The
    first start of an eligible student creates the row, one answer stub per
    question of the quiz numbered in the order of presentation (the created
    order, or the drawn permutation), touches no other answer, and sets
    [start_time = now]; a later start request, whatever it would draw,
    changes nothing and returns that same [start_time]. *)
Theorem start_quiz_idempotent (db : DB) (quiz_id : Z) (student : StudentProfile)
    (now : datetime) :
  let key := (quiz_id, student_pk student) in
  let out := start_quiz shuffle db quiz_id student now in
  (forall s, db_submissions db !! key = Some s ->
     out.1 = db /\
     (CanTakeQuiz db quiz_id student now = true ->
      is_Some (db_settings db !! quiz_id) ->
      out.2 = Ok {| body := Started (id s) (start_time s); status := HTTP_200_OK |})) /\
  (forall settings,
     db_submissions db !! key = None ->
     CanTakeQuiz db quiz_id student now = true ->
     db_settings db !! quiz_id = Some settings ->
     exists presented,
       let pk := db_next_pk db in
       presented ≡ₚ quiz_questions db quiz_id /\
       (question_order settings <> "random" -> presented = quiz_questions db quiz_id) /\
       out.2 = Ok {| body := Started pk (Some now); status := HTTP_200_OK |} /\
       db_submissions out.1
       = <[key := with_start_time (Some now) (new_submission pk)]> (db_submissions db) /\
       (forall i question, presented !! i = Some question ->
          db_answers out.1 !! (pk + 1 + Z.of_nat i)
          = Some {| answer_submission := pk; answer_question := question.1;
                    is_correct := false; points_earned := 0%Q;
                    order := N.of_nat i |}) /\
       (forall k, k < pk + 1 \/ pk + 1 + Z.of_nat (length presented) <= k ->
          db_answers out.1 !! k = db_answers db !! k) /\
       (forall shuffle' now',
          let out' := start_quiz shuffle' out.1 quiz_id student now' in
          out'.1 = out.1 /\
          (CanTakeQuiz out.1 quiz_id student now' = true -> out'.2 = out.2))).
Proof.
  intros key out. split.
  { intros s Hrow. by apply start_quiz_existing. }
  intros settings Hnone Hcan Hsettings.
  assert (Hquiz : is_Some (db_quizzes db !! quiz_id)).
  { unfold CanTakeQuiz in Hcan. destruct (db_quizzes db !! quiz_id); [eauto | done]. }
  destruct Hquiz as [quiz Hquiz].
  set (pk := db_next_pk db).
  set (presented := if String.eqb (question_order settings) "random"
                    then shuffle (quiz_questions db quiz_id)
                    else quiz_questions db quiz_id).
  set (db1 := set_next_pk (pk + 1)
                (set_submissions (insert key (new_submission pk)) db)).
  assert (Hout : out = (set_submissions (alter (with_start_time (Some now)) key)
                          (bulk_create_answers (answer_stubs pk presented) db1),
                        Ok {| body := Started pk (Some now); status := HTTP_200_OK |})).
  { subst out. unfold start_quiz. fold key.
    by rewrite Hquiz, Hcan, Hsettings, Hnone. }
  destruct (bulk_create_answers_spec (answer_stubs pk presented) db1) as [Hnew Hold].
  destruct (bulk_create_answers_frame (answer_stubs pk presented) db1)
    as (Hq & Hs & Hc).
  assert (Hrows : db_submissions out.1
                  = <[key := with_start_time (Some now) (new_submission pk)]>
                      (db_submissions db)).
  { rewrite Hout. simpl. rewrite bulk_create_answers_submissions. simpl.
    by rewrite alter_insert_eq. }
  exists presented. simpl. split_and!.
  - subst presented. destruct (String.eqb _ _); [apply shuffle_Permutation | done].
  - intros Hcreated. subst presented.
    destruct (String.eqb_spec (question_order settings) "random"); done.
  - by rewrite Hout.
  - exact Hrows.
  - intros i question Hi. rewrite Hout. simpl.
    specialize (Hnew i _ (eq_trans (answer_stubs_lookup pk presented i)
                            (f_equal _ Hi))).
    simpl in Hnew. fold pk in Hnew. by rewrite <- Z.add_assoc in Hnew |- *.
  - intros k Hk. rewrite Hout. simpl. rewrite Hold; [done|].
    unfold answer_stubs. rewrite length_imap. simpl. fold pk. lia.
  - intros shuffle' now'.
    destruct (start_quiz_existing shuffle' out.1 quiz_id student now'
                (with_start_time (Some now) (new_submission pk))) as [Hsame Hresp].
    { fold key. rewrite Hrows. apply lookup_insert_eq. }
    split; [exact Hsame|]. intros Hcan'. rewrite Hresp; [by rewrite Hout | done |].
    rewrite Hout. simpl. rewrite Hs. simpl. rewrite Hsettings. eauto.
Qed.

End Start.

Lemma start_quiz_idempotent_witness :
  (forall l : list (Z * Question), reverse l ≡ₚ l) /\
  exists presented,
    presented ≡ₚ quiz_questions Sample.db0 1 /\
    (start_quiz reverse Sample.db0 1 Sample.student Sample.started_at).2
    = Ok {| body := Started 1000 (Some Sample.started_at); status := HTTP_200_OK |}.
Proof.
  assert (H : forall l : list (Z * Question), reverse l ≡ₚ l)
    by (intros l; apply reverse_Permutation).
  split; [exact H|].
  destruct (proj2 (start_quiz_idempotent reverse H Sample.db0 1 Sample.student
                     Sample.started_at) Sample.settings)
    as (presented & Hperm & _ & Hresp & _).
  - vm_compute. reflexivity.
  - vm_compute. reflexivity.
  - vm_compute. reflexivity.
  - exists presented. split; [exact Hperm | exact Hresp].
Defined.

(** ** Visibility on the read paths *)

(** On the list and detail paths a representation that is a dictionary hides
    score and answers of an attempt that is not finished, whatever the modes. *)
Lemma to_representation_unfinished db quiz_id student role has_answers now instance data :
  is_submitted instance = false ->
  is_timed_out (db_settings db !! quiz_id) now instance = Ok false ->
  to_representation db quiz_id student role has_answers now instance = Ok (RepData data) ->
  data_is_score_released data = false /\ data_are_answers_released data = false.
Proof.
  intros Hsub Hout. unfold to_representation.
  destruct (get_settings _) as [settings|]; simpl; [|discriminate].
  match goal with |- context [mbind _ ?c] => destruct c as [[closed|]|] end;
    simpl; try discriminate.
  rewrite Hout, Hsub. simpl. by intros [= <-].
Qed.

(** On the roster path an overflowing release time counts as not closed. *)
Lemma _is_quiz_closed_overflow context student_profile now settings quiz_center :
  quiz_settings context = Some settings ->
  quiz_center_map context !! center_id student_profile = Some quiz_center ->
  (0 < timer_minutes settings)%N ->
  ~ valid_datetime (close_date quiz_center
                    + Z.of_N (timer_minutes settings) * US_PER_MINUTE) ->
  _is_quiz_closed context student_profile now = false.
Proof.
  intros Hst Hqc Htimer Hover. unfold _is_quiz_closed. rewrite Hst, Hqc.
  case_bool_decide; [done|].
  rewrite (proj2 (N.ltb_lt _ _) Htimer).
  destruct (timedelta _ 0) as [td|] eqn:Htd; simpl; [|done].
  apply timedelta_Ok in Htd. subst td.
  destruct (dt_add _ _) as [t|] eqn:Hadd; [|done].
  apply dt_add_Ok in Hadd as [-> Hvalid]. destruct Hover.
  by rewrite Z.mul_0_l, Z.add_0_r in Hvalid.
Qed.

(** On the list and detail paths the same overflow makes the serializer return
    [False] in place of the dictionary. *)
Lemma to_representation_overflow db quiz_id student role has_answers now instance
    settings quiz_center :
  db_settings db !! quiz_id = Some settings ->
  db_quizcenters db !! (quiz_id, center_id student) = Some quiz_center ->
  (0 < timer_minutes settings)%N ->
  ~ valid_datetime (close_date quiz_center
                    + Z.of_N (timer_minutes settings) * US_PER_MINUTE) ->
  to_representation db quiz_id student role has_answers now instance = Ok RepFalse.
Proof.
  intros Hst Hqc Htimer Hover. unfold to_representation. rewrite Hst, Hqc. simpl.
  rewrite (proj2 (N.ltb_lt _ _) Htimer).
  destruct (timedelta _ 0) as [td|e] eqn:Htd; simpl.
  - apply timedelta_Ok in Htd. subst td.
    destruct (dt_add _ _) as [t|e] eqn:Hadd; simpl.
    + apply dt_add_Ok in Hadd as [-> Hvalid]. destruct Hover.
      by rewrite Z.mul_0_l, Z.add_0_r in Hvalid.
    + by apply dt_add_Raise in Hadd as [-> _].
  - by apply timedelta_Raise in Htd as [-> _].
Qed.

(** C4. The teacher roster reports score and answers as released for an
    attempt that is still in progress: student 42 started at 09:00 under a
    ten-minute timer, at 09:05 the attempt is neither submitted nor timed out,
    the detail path resolves both flags to false, and the roster resolves
    [is_score_released] to true under the mode ['immediate']. *)
Theorem roster_releases_unfinished :
  let now := Sample.at_time Sample.day 9 5 0 in
  let context := roster_context Sample.db1 1 in
  _get_submission context Sample.student = Some Sample.in_progress /\
  is_submitted Sample.in_progress = false /\
  is_timed_out (db_settings Sample.db1 !! 1) now Sample.in_progress = Ok false /\
  score_visibility Sample.settings = "immediate" /\
  to_representation Sample.db1 1 Sample.student (Some "teacher") true now
    Sample.in_progress
  = Ok (RepData {| data_is_score_released := false;
                   data_are_answers_released := false;
                   data_has_score := true; data_has_answers := true |}) /\
  get_is_score_released context Sample.student now = true.
Proof. vm_compute. repeat split. Qed.

(** C5. With a window closing at noon of 9999-12-31 and a one-day timer the
    effective release time overflows. The roster treats the quiz as not
    closed, but the list and detail serializers return [False] where the
    dictionary of the submission is expected. *)
Theorem overflow_returns_False :
  let now := Sample.at_time Sample.day 9 6 0 in
  let context := roster_context Sample.db_far 1 in
  (td ← timedelta (Z.of_N (timer_minutes Sample.far_settings)) 0;
   dt_add (close_date Sample.far_window) td) = Raise OverflowError /\
  db_submissions Sample.db_far !! (1, 42) = Some Sample.submitted /\
  _is_quiz_closed context Sample.student now = false /\
  get_is_score_released context Sample.student now = false /\
  to_representation Sample.db_far 1 Sample.student (Some "student") false now
    Sample.submitted = Ok RepFalse /\
  to_representation Sample.db_far 1 Sample.student (Some "teacher") true now
    Sample.submitted = Ok RepFalse.
Proof. vm_compute. repeat split. Qed.

(** ** The score an on-time submission stores *)

(** An accepted submission stores the score [calculate_score] returns on the
    database holding the submitted selections, hence the sum of the points
    awarded to its answers. *)
Lemma create_submission_stores_score db quiz_id student now data s validated db1 :
  let key := (quiz_id, student_pk student) in
  let finished := with_is_submitted true (with_end_time (Some now) s) in
  db_submissions db !! key = Some s ->
  is_submitted s = false ->
  is_timed_out (db_settings db !! quiz_id) now s = Ok false ->
  is_valid db s data = Valid validated ->
  serializer_update db s validated = Ok db1 ->
  (forall r, r ∈ submission_answers db1 finished ->
             is_Some (db_questions db1 !! answer_question r.2)) ->
  exists s',
    db_submissions (create_submission db quiz_id student now data).1 !! key = Some s' /\
    is_submitted s' = true /\
    end_time s' = Some now /\
    (score s' == Qsum (awarded db1 <$> submission_answers db1 finished))%Q.
Proof.
  intros key finished Hrow Hsub Hout Hvalid Hupd Hfk.
  destruct (calculate_score_total db1 finished Hfk)
    as (db2 & total & Hcalc & Htotal).
  unfold create_submission. fold key.
  rewrite Hrow, Hsub, Hout, Hvalid, Hupd. simpl. fold finished.
  rewrite Hcalc. simpl. rewrite lookup_insert_eq.
  eexists. split; [done|]. by simpl.
Qed.

(** ** The scenarios of the specification *)

(** One correct choice out of three, ten points: the correct choice alone
    earns 10, the correct choice with a wrong one earns 0. *)
Example single_choice_scores :
  (spec_awarded 1 1 1 10 == 10 # 1)%Q /\ (spec_awarded 1 1 2 10 == 0)%Q.
Proof. split; reflexivity. Qed.

(** Two correct choices out of four, ten points: both correct choices with one
    wrong choice earn 5, and the answer is not flagged correct. *)
Example multiple_choice_scores :
  (spec_awarded 2 2 3 10 == 5 # 1)%Q /\
  (is_correct <$> db_answers Sample.db2 !! 1002) = Some false /\
  (is_correct <$> db_answers Sample.db2 !! 1001) = Some true.
Proof. split; [reflexivity|]. vm_compute. split; reflexivity. Qed.

(** Ten-minute timer: finishing 630 seconds after the start is on time,
    finishing after 665 seconds is late. *)
Example confirmation_on_time_then_late :
  confirmation_status (Some Sample.settings)
    (with_end_time (Some (Sample.at_time Sample.day 9 10 30)) Sample.in_progress)
  = Ok "on_time" /\
  confirmation_status (Some Sample.settings)
    (with_end_time (Some (Sample.at_time Sample.day 9 11 5)) Sample.in_progress)
  = Ok "late".
Proof. split; reflexivity. Qed.

(** Under ['random'] the stubs follow the drawn permutation: with the reversal
    as the draw, the second question comes first. *)
Example start_quiz_random_order :
  let db := (start_quiz reverse Sample.db0_random 1 Sample.student Sample.started_at).1 in
  (fun r : Z * Answer => (answer_question r.2, order r.2))
    <$> submission_answers db (new_submission 1000)
  = [(12, 0%N); (11, 1%N)].
Proof. vm_compute. reflexivity. Qed.

(** The release of both flags on a quiz whose score mode is ['immediate'] and
    whose answers mode is ['manual'] succeeds and reports the answers only. *)
Example release_reports_answers_only :
  (release_all_quiz_results Sample.db2 1 true Sample.release_both).2
  = Ok {| body := Released 1 ["answers released"] None (Some true);
          status := HTTP_200_OK |}.
Proof. vm_compute. reflexivity. Qed.

(** * Further properties *)

(** ** What the operations leave alone *)

Lemma bulk_create_answers_tables rows db :
  let db' := bulk_create_answers rows db in
  db_questions db' = db_questions db /\ db_choices db' = db_choices db /\
  db_selected db' = db_selected db.
Proof.
  revert db. induction rows as [|a rows IH]; intros db; [done|].
  simpl. destruct (IH (set_next_pk (db_next_pk db + 1)
                         (set_answers (insert (db_next_pk db) a) db)))
    as (-> & -> & ->). done.
Qed.

Lemma serializer_update_frame db instance answers_data db1 :
  serializer_update db instance answers_data = Ok db1 ->
  db_quizzes db1 = db_quizzes db /\ db_settings db1 = db_settings db /\
  db_quizcenters db1 = db_quizcenters db /\ db_questions db1 = db_questions db /\
  db_choices db1 = db_choices db /\ db_answers db1 = db_answers db /\
  db_next_pk db1 = db_next_pk db.
Proof.
  unfold serializer_update.
  destruct (through_rows _ answers_data) as [rows|]; simpl; [|discriminate].
  case_bool_decide; [|discriminate]. by intros [= <-].
Qed.

Lemma calculate_score_frame db self db' total :
  calculate_score db self = Ok (db', total) ->
  db_quizzes db' = db_quizzes db /\ db_settings db' = db_settings db /\
  db_quizcenters db' = db_quizcenters db /\ db_questions db' = db_questions db /\
  db_choices db' = db_choices db /\ db_selected db' = db_selected db /\
  db_next_pk db' = db_next_pk db.
Proof.
  unfold calculate_score.
  destruct (score_loop db _ _ _) as [[total' rows]|]; simpl; [|discriminate].
  intros [= <- _]. by destruct rows.
Qed.

(** No operation touches the quiz, its settings or its windows. *)
Lemma run_frame db op :
  db_quizzes (run db op).1 = db_quizzes db /\
  db_settings (run db op).1 = db_settings db /\
  db_quizcenters (run db op).1 = db_quizcenters db.
Proof.
  destruct op as [shuffle quiz_id student now | quiz_id student now data
                 | quiz_id perm data]; simpl.
  - unfold start_quiz.
    destruct (db_quizzes db !! quiz_id); [|done].
    destruct (CanTakeQuiz db quiz_id student now); [|done]. simpl.
    destruct (db_settings db !! quiz_id); [|done].
    destruct (db_submissions db !! _); [done|]. simpl.
    match goal with
    | |- context [bulk_create_answers ?rows ?d] =>
        by destruct (bulk_create_answers_frame rows d) as (-> & -> & ->)
    end.
  - unfold create_submission.
    destruct (db_submissions db !! _) as [s|]; [|done].
    destruct (is_submitted s); [done|].
    destruct (is_timed_out _ now s) as [[|]|]; [| |done].
    + by destruct (finalize_timed_out _ now s).
    + destruct (is_valid db s data) as [validated|]; [|done].
      destruct (serializer_update db s validated) as [db1|] eqn:Hupd; [|done].
      simpl.
      destruct (calculate_score db1 _) as [[db2 total]|] eqn:Hcalc; [|done].
      simpl.
      destruct (calculate_score_frame _ _ _ _ Hcalc) as (-> & -> & -> & _).
      by destruct (serializer_update_frame _ _ _ _ Hupd) as (-> & -> & -> & _).
  - unfold release_all_quiz_results. repeat case_match; done.
Qed.

(** ** One operation, one row *)

(** What an operation does to a row that exists: nothing; or, for a submit of
    its owner on a row not yet submitted, the timeout finalization or the
    recording of the submission; or, for a release on a submitted row, the
    update of the release flags. *)
Lemma run_row db op key s :
  db_submissions db !! key = Some s ->
  db_submissions (run db op).1 !! key = Some s \/
  (is_submitted s = false /\
   exists now s', op_time op = Some now /\
     db_submissions (run db op).1 !! key = Some s' /\
     ((is_timed_out (db_settings db !! key.1) now s = Ok true /\
       finalize_timed_out (db_settings db !! key.1) now s = Ok s') \/
      (is_timed_out (db_settings db !! key.1) now s = Ok false /\
       exists total,
         s' = with_score total
                (with_is_submitted true (with_end_time (Some now) s))))) \/
  (is_submitted s = true /\
   exists update_payload,
     db_submissions (run db op).1 !! key = Some (apply_payload update_payload s)).
Proof.
  intros Hrow.
  destruct op as [shuffle quiz_id student now | quiz_id student now data
                 | quiz_id perm data]; simpl.
  - left. destruct (start_quiz_rows shuffle db quiz_id student now)
      as [-> | [Hnone ->]]; [done|].
    rewrite lookup_insert_ne; [done|]. intros <-. congruence.
  - destruct (create_submission_rows db quiz_id student now data)
      as [-> | (s0 & s' & Hrow0 & Hsub0 & -> & Hcases)]; [by left|].
    destruct (decide ((quiz_id, student_pk student) = key)) as [<- | Hne].
    2:{ left. by rewrite lookup_insert_ne. }
    assert (s0 = s) as -> by congruence.
    right. left. split; [done|]. exists now, s'. split; [done|].
    split; [apply lookup_insert_eq | exact Hcases].
  - destruct (release_rows db quiz_id perm data) as [-> | [payload ->]]; [by left|].
    rewrite map_lookup_imap, Hrow. simpl.
    destruct (submitted_of quiz_id key s) eqn:Hsel; [|by left].
    right. right. split; [|by exists payload].
    unfold submitted_of in Hsel. by apply andb_prop in Hsel as [_ ?].
Qed.

(** A row that did not exist is still missing after the operation, or is the
    fresh row a start has just written. *)
Lemma run_new_row db op key :
  db_submissions db !! key = None ->
  db_submissions (run db op).1 !! key = None \/
  exists now pk,
    op_time op = Some now /\
    db_submissions (run db op).1 !! key
    = Some (with_start_time (Some now) (new_submission pk)).
Proof.
  intros Hnone.
  destruct op as [shuffle quiz_id student now | quiz_id student now data
                 | quiz_id perm data]; simpl.
  - destruct (start_quiz_rows shuffle db quiz_id student now)
      as [-> | [_ ->]]; [by left|].
    destruct (decide ((quiz_id, student_pk student) = key)) as [<- | Hne].
    + right. exists now, (db_next_pk db). by rewrite lookup_insert_eq.
    + left. by rewrite lookup_insert_ne.
  - left. destruct (create_submission_rows db quiz_id student now data)
      as [-> | (s0 & s' & Hrow0 & _ & -> & _)]; [done|].
    rewrite lookup_insert_ne; [done|]. intros <-. congruence.
  - left. destruct (release_rows db quiz_id perm data) as [-> | [payload ->]]; [done|].
    by rewrite map_lookup_imap, Hnone.
Qed.

Lemma finalize_timed_out_ended st now s :
  is_Some (end_time s) -> finalize_timed_out st now s = Ok s.
Proof. intros H. unfold finalize_timed_out. by rewrite bool_decide_eq_true_2. Qed.

Lemma finalize_timed_out_fresh st now s s' :
  end_time s = None -> finalize_timed_out st now s = Ok s' ->
  exists t, s' = with_score 0%Q (with_end_time (Some t) s).
Proof.
  intros Hend. unfold finalize_timed_out.
  rewrite bool_decide_eq_false_2 by (rewrite Hend; by intros [? ?]).
  destruct (except_OverflowError _ _) as [t|]; simpl; [|discriminate].
  intros [= <-]. eauto.
Qed.

(** ** Terminal states are permanent *)

Lemma is_timed_out_later st now now' s :
  now <= now' ->
  is_timed_out st now s = Ok true ->
  is_timed_out st now' s = Ok true.
Proof.
  intros Hle. unfold is_timed_out.
  destruct (is_submitted s); [done|]. case_bool_decide; [done|].
  destruct (start_time s) as [start|]; [|done].
  destruct (get_settings st) as [settings|]; simpl; [|done].
  destruct (timer_minutes settings =? 0)%N; [done|].
  destruct (timedelta _ 60) as [td|[]]; simpl; try done.
  destruct (dt_add start td) as [deadline|[]]; simpl; try done.
  intros [= Hlt]. f_equal. apply Z.ltb_lt in Hlt. apply Z.ltb_lt. lia.
Qed.

(** X1. [is_timed_out] is monotone in time: an attempt timed out at one
    instant is timed out at every later instant, whatever its settings. *)
Theorem is_timed_out_monotone (st : option QuizSettings) (now now' : datetime)
    (s : QuizSubmission) :
  now <= now' ->
  is_timed_out st now s = Ok true ->
  is_timed_out st now' s = Ok true.
Proof.
  intros Hle Hout.
  pose proof (is_timed_out_true_inv _ _ _ Hout) as [Hsub [Hend | (Hend & Hlive)]].
  - by apply is_timed_out_ended.
  - destruct Hlive as (settings & started & -> & Hstart).
    unfold is_timed_out in *. rewrite Hsub, Hstart in *.
    rewrite bool_decide_eq_false_2 in * by (rewrite Hend; by intros [? ?]).
    simpl in *. destruct (timer_minutes settings =? 0)%N; [done|].
    destruct (timedelta _ 60) as [td|[]]; simpl in *; try done.
    destruct (dt_add started td) as [deadline|[]]; simpl in *; try done.
    injection Hout as Hlt. f_equal. apply Z.ltb_lt in Hlt. apply Z.ltb_lt. lia.
Qed.

Lemma is_timed_out_monotone_witness :
  Sample.at_time Sample.day 9 11 5 <= Sample.at_time Sample.day 23 0 0 /\
  is_timed_out (Some Sample.settings) (Sample.at_time Sample.day 23 0 0)
    Sample.in_progress = Ok true.
Proof.
  assert (H1 : Sample.at_time Sample.day 9 11 5 <= Sample.at_time Sample.day 23 0 0)
    by (vm_compute; discriminate).
  assert (H2 : is_timed_out (Some Sample.settings) (Sample.at_time Sample.day 9 11 5)
                 Sample.in_progress = Ok true) by reflexivity.
  exact (conj H1 (is_timed_out_monotone _ _ _ _ H1 H2)).
Defined.

(** X2. An attempt that ended without being submitted (finalized by timeout)
    is frozen: no sequence of start, submit and release requests changes any
    field of its row. *)
Theorem timed_out_row_frozen (ops : list operation) (db : DB) (key : Z * Z)
    (s : QuizSubmission) :
  db_submissions db !! key = Some s ->
  is_submitted s = false ->
  is_Some (end_time s) ->
  db_submissions (run_all db ops) !! key = Some s.
Proof.
  intros Hrow Hsub Hend. revert db Hrow.
  induction ops as [|op ops IH]; intros db Hrow; [done|].
  simpl. apply IH.
  destruct (run_row db op key s Hrow)
    as [Hsame | [(_ & now & s' & _ & Hrow' & Hcases) | (Hsub' & _)]];
    [done | | congruence].
  destruct Hcases as [[_ Hfin] | [Hfalse _]].
  - rewrite finalize_timed_out_ended in Hfin by done. congruence.
  - rewrite is_timed_out_ended in Hfalse by done. discriminate.
Qed.

Lemma timed_out_row_frozen_witness :
  db_submissions Sample.db_late !! (1, 42) = Some Sample.timed_out /\
  db_submissions
    (run_all Sample.db_late
       [ Submit 1 Sample.student (Sample.at_time Sample.day 9 12 0) Sample.payload;
         Release 1 true Sample.release_both;
         Start reverse 1 Sample.student (Sample.at_time Sample.day 9 13 0) ])
    !! (1, 42) = Some Sample.timed_out.
Proof.
  assert (H1 : db_submissions Sample.db_late !! (1, 42) = Some Sample.timed_out)
    by (vm_compute; reflexivity).
  exact (conj H1 (timed_out_row_frozen _ Sample.db_late (1, 42) Sample.timed_out
                    H1 eq_refl (ex_intro _ _ eq_refl))).
Defined.

(** X3. A submitted attempt is never reopened nor rescored by start, submit
    and release requests: its id, start time, end time, score and submitted
    flag stay as they are; only the release flags can change. *)
Theorem submitted_row_frozen (ops : list operation) (db : DB) (key : Z * Z)
    (s : QuizSubmission) :
  db_submissions db !! key = Some s ->
  is_submitted s = true ->
  exists s',
    db_submissions (run_all db ops) !! key = Some s' /\
    id s' = id s /\ start_time s' = start_time s /\ end_time s' = end_time s /\
    score s' = score s /\ is_submitted s' = true.
Proof.
  revert db s. induction ops as [|op ops IH]; intros db s Hrow Hsub.
  { exists s. done. }
  simpl.
  destruct (run_row db op key s Hrow)
    as [Hsame | [(Hsub' & _) | (_ & payload & Hrow')]]; [| congruence |].
  - by apply IH.
  - destruct (IH _ _ Hrow') as (s' & Hrow'' & Hid & Hst & Hend & Hsc & Hsb).
    { by destruct payload as [[?|] [?|]]. }
    exists s'. split; [done|]. rewrite Hid, Hst, Hend, Hsc.
    by destruct payload as [[?|] [?|]].
Qed.

Lemma submitted_row_frozen_witness :
  db_submissions Sample.db2 !! (1, 42) = Some Sample.submitted /\
  exists s',
    db_submissions
      (run_all Sample.db2
         [ Release 1 true Sample.release_both;
           Submit 1 Sample.student (Sample.at_time Sample.day 9 7 0) [] ])
      !! (1, 42) = Some s' /\
    score s' = score Sample.submitted.
Proof.
  assert (H1 : db_submissions Sample.db2 !! (1, 42) = Some Sample.submitted)
    by (vm_compute; reflexivity).
  split; [exact H1|].
  destruct (submitted_row_frozen
              [ Release 1 true Sample.release_both;
                Submit 1 Sample.student (Sample.at_time Sample.day 9 7 0) [] ]
              Sample.db2 (1, 42) Sample.submitted H1 eq_refl)
    as (s' & Hrow & _ & _ & _ & Hscore & _).
  exists s'. split; [exact Hrow | exact Hscore].
Defined.

(** ** The lifecycle invariant *)

Lemma run_well_formed db op :
  table_well_formed db -> table_well_formed (run db op).1.
Proof.
  intros Hwf key s' Hrow'.
  destruct (db_submissions db !! key) as [s|] eqn:Hrow.
  - pose proof (Hwf key s Hrow) as (Hstart & Hsubmitted & Hzero).
    destruct (run_row db op key s Hrow)
      as [Hsame | [(Hsub & now & s1 & _ & Hrow1 & Hcases) | (Hsub & payload & Hrow1)]].
    + assert (s' = s) as -> by congruence. by apply (Hwf key).
    + assert (s' = s1) as -> by congruence.
      destruct Hcases as [[_ Hfin] | [_ [total ->]]].
      * destruct (end_time s) as [t|] eqn:Hend.
        -- rewrite finalize_timed_out_ended in Hfin by (rewrite Hend; eauto).
           injection Hfin as <-. by apply (Hwf key).
        -- destruct (finalize_timed_out_fresh _ _ _ _ Hend Hfin) as [t ->].
           split; [done|]. split; [by simpl; eauto | done].
      * split; [done|]. split; [by simpl; eauto|]. discriminate.
    + assert (s' = apply_payload payload s) as -> by congruence.
      destruct payload as [[?|] [?|]]; split; try done; split; try done;
        simpl; intros; congruence.
  - destruct (run_new_row db op key Hrow) as [Hnone | (now & pk & _ & Hnew)];
      [congruence|].
    assert (s' = with_start_time (Some now) (new_submission pk)) as -> by congruence.
    split; [by simpl; eauto|]. split; [discriminate|]. by intros _ [? ?].
Qed.

(** X4. The operations keep every submission row in one of the three states
    of the lifecycle: each row is started, a submitted row has an end time,
    and a row that ended without being submitted carries the score zero. *)
Theorem lifecycle_invariant (ops : list operation) (db : DB) :
  table_well_formed db -> table_well_formed (run_all db ops).
Proof.
  revert db. induction ops as [|op ops IH]; intros db Hwf; [done|].
  simpl. by apply IH, run_well_formed.
Qed.

Lemma lifecycle_invariant_witness :
  table_well_formed Sample.db0 /\
  table_well_formed
    (run_all Sample.db0
       [ Start reverse 1 Sample.student Sample.started_at;
         Submit 1 Sample.student (Sample.at_time Sample.day 9 11 5) Sample.payload ]).
Proof.
  assert (H : table_well_formed Sample.db0)
    by (intros key s Hrow; simpl in Hrow; by rewrite lookup_empty in Hrow).
  exact (conj H (lifecycle_invariant _ Sample.db0 H)).
Defined.

(** X5. Start, submit and release requests never undo a timeout: after any
    sequence of such requests whose clock readings are not earlier than the
    instant at which the attempt was timed out, the row is still there, still
    not submitted, and timed out at every instant from then on. (A quiz update
    that changes the timer and the deletion of the submission are not among
    these requests.) *)
Theorem timed_out_forever (ops : list operation) (db : DB) (key : Z * Z)
    (s : QuizSubmission) (now : datetime) :
  db_submissions db !! key = Some s ->
  is_timed_out (db_settings db !! key.1) now s = Ok true ->
  Forall (fun op => forall t, op_time op = Some t -> now <= t) ops ->
  exists s',
    db_submissions (run_all db ops) !! key = Some s' /\
    is_submitted s' = false /\
    forall now', now <= now' ->
      is_timed_out (db_settings (run_all db ops) !! key.1) now' s' = Ok true.
Proof.
  revert db s. induction ops as [|op ops IH]; intros db s Hrow Hout Hclock.
  { exists s. split; [done|].
    split; [by apply is_timed_out_true_inv in Hout as [? _]|].
    intros now' Hle. by apply (is_timed_out_later _ now). }
  apply Forall_cons in Hclock as [Hop Hclock]. simpl.
  pose proof (is_timed_out_true_inv _ _ _ Hout) as [Hsub _].
  destruct (run_frame db op) as (_ & Hsettings & _).
  destruct (run_row db op key s Hrow)
    as [Hsame | [(_ & t & s1 & Ht & Hrow1 & Hcases) | (Hsub' & _)]];
    [| | congruence].
  - apply (IH _ s); [done | by rewrite Hsettings | done].
  - specialize (Hop t Ht).
    pose proof (is_timed_out_later _ _ _ _ Hop Hout) as Hout'.
    destruct Hcases as [[_ Hfin] | [Hfalse _]]; [|congruence].
    apply (IH _ s1); [done | | done]. rewrite Hsettings.
    destruct (end_time s) as [e|] eqn:Hend.
    + rewrite finalize_timed_out_ended in Hfin by (rewrite Hend; eauto).
      by injection Hfin as <-.
    + destruct (finalize_timed_out_fresh _ _ _ _ Hend Hfin) as [e ->].
      apply is_timed_out_ended; [done | by simpl; eauto].
Qed.

Lemma timed_out_forever_witness :
  db_submissions Sample.db1 !! (1, 42) = Some Sample.in_progress /\
  exists s',
    db_submissions
      (run_all Sample.db1
         [ Release 1 true Sample.release_both;
           Submit 1 Sample.student (Sample.at_time Sample.day 9 12 0) Sample.payload ])
      !! (1, 42) = Some s' /\
    is_submitted s' = false.
Proof.
  assert (H1 : db_submissions Sample.db1 !! (1, 42) = Some Sample.in_progress)
    by (vm_compute; reflexivity).
  assert (H2 : is_timed_out (db_settings Sample.db1 !! (1, 42).1)
                 (Sample.at_time Sample.day 9 11 5) Sample.in_progress = Ok true)
    by (vm_compute; reflexivity).
  assert (H3 : Forall (fun op => forall t, op_time op = Some t ->
                         Sample.at_time Sample.day 9 11 5 <= t)
                 [ Release 1 true Sample.release_both;
                   Submit 1 Sample.student (Sample.at_time Sample.day 9 12 0)
                     Sample.payload ]).
  { repeat constructor; intros t [= <-]. vm_compute. discriminate. }
  split; [exact H1|].
  destruct (timed_out_forever _ Sample.db1 (1, 42) Sample.in_progress _ H1 H2 H3)
    as (s' & Hrow & Hsub & _).
  exists s'. split; [exact Hrow | exact Hsub].
Defined.

(** ** Starting inside the window *)

Lemma get_status_open obj now :
  get_status obj now = "open" <-> open_date obj <= now <= close_date obj.
Proof.
  unfold get_status.
  destruct (Z.ltb_spec now (open_date obj)); [split; [discriminate | lia]|].
  destruct (Z.ltb_spec (close_date obj) now); [split; [discriminate | lia]|].
  split; [lia | done].
Qed.

Lemma CanTakeQuiz_spec db quiz_id student now :
  CanTakeQuiz db quiz_id student now = true <->
  exists quiz window,
    db_quizzes db !! quiz_id = Some quiz /\
    db_quizcenters db !! (quiz_id, center_id student) = Some window /\
    get_status window now = "open" /\
    student_grade student = quiz_grade quiz.
Proof.
  unfold CanTakeQuiz.
  destruct (db_quizzes db !! quiz_id) as [quiz|];
    [|split; [discriminate | by intros (? & ? & ? & _)]].
  destruct (db_quizcenters db !! _) as [window|];
    [|split; [discriminate | by intros (? & ? & _ & ? & _)]].
  split.
  - intros H. exists quiz, window. split; [done|]. split; [done|].
    destruct (_ || _) eqn:Hwin; [discriminate|].
    apply orb_false_elim in Hwin as [?%Z.ltb_ge ?%Z.ltb_ge].
    split; [apply get_status_open; lia|].
    destruct (Z.eqb_spec (student_grade student) (quiz_grade quiz)); done.
  - intros (quiz' & window' & [= <-] & [= <-] & Hopen & Hgrade).
    apply get_status_open in Hopen.
    rewrite (proj2 (Z.ltb_ge _ _)), (proj2 (Z.ltb_ge _ _)) by lia. simpl.
    by rewrite Hgrade, Z.eqb_refl.
Qed.

Lemma start_quiz_eligible shuffle db quiz_id student now :
  CanTakeQuiz db quiz_id student now = true ->
  is_Some (db_settings db !! quiz_id) ->
  exists r, (start_quiz shuffle db quiz_id student now).2 = Ok r /\
            status r = HTTP_200_OK.
Proof.
  intros Hcan [settings Hst]. unfold start_quiz.
  pose proof (proj1 (CanTakeQuiz_spec _ _ _ _) Hcan) as (quiz & _ & -> & _).
  rewrite Hcan, Hst. simpl.
  destruct (db_submissions db !! _); eexists; split; reflexivity.
Qed.

(** X6. [start_quiz] answers 200 exactly when the quiz exists with its
    settings, the window of the student's center has the status ['open'] at
    that instant and the grades agree; in every other case the database is
    left as it was. *)
Theorem start_quiz_succeeds_iff (shuffle : list (Z * Question) -> list (Z * Question))
    (db : DB) (quiz_id : Z) (student : StudentProfile) (now : datetime) :
  let out := start_quiz shuffle db quiz_id student now in
  let eligible :=
    exists quiz window,
      db_quizzes db !! quiz_id = Some quiz /\
      db_quizcenters db !! (quiz_id, center_id student) = Some window /\
      get_status window now = "open" /\
      student_grade student = quiz_grade quiz /\
      is_Some (db_settings db !! quiz_id) in
  ((exists r, out.2 = Ok r /\ status r = HTTP_200_OK) <-> eligible) /\
  (~ eligible -> out.1 = db).
Proof.
  intros out eligible. subst out eligible.
  pose proof (CanTakeQuiz_spec db quiz_id student now) as Hcan.
  unfold start_quiz.
  destruct (db_quizzes db !! quiz_id) as [quiz|] eqn:Hquiz.
  2:{ split; [|done]. split; [by intros (r & [= <-] & ?) | by intros (? & ? & ? & _)]. }
  destruct (CanTakeQuiz db quiz_id student now) eqn:Hok; simpl.
  2:{ split; [|done]. split; [by intros (r & [= <-] & ?)|].
      intros (quiz' & window & ? & ? & ? & ? & _).
      assert (false = true) by (apply Hcan; eauto 6). done. }
  destruct (proj1 Hcan eq_refl) as (quiz' & window & [= <-] & Hwin & Hopen & Hgrade).
  destruct (db_settings db !! quiz_id) as [settings|] eqn:Hsettings.
  2:{ split; [|done]. split; [by intros (r & [= <-] & ?)|].
      by intros (? & ? & _ & _ & _ & _ & [? ?]). }
  assert (Helig : exists quiz0 window0,
            Some quiz = Some quiz0 /\
            db_quizcenters db !! (quiz_id, center_id student) = Some window0 /\
            get_status window0 now = "open" /\
            student_grade student = quiz_grade quiz0 /\
            is_Some (Some settings)) by eauto 10.
  split; [|done].
  split; [done|]. intros _.
  destruct (db_submissions db !! _); eexists; split; reflexivity.
Qed.

(** ** The confirmation of an accepted submission *)

Lemma not_timed_out_in_time settings now s start :
  is_timed_out (Some settings) now s = Ok false ->
  is_submitted s = false ->
  start_time s = Some start ->
  timer_minutes settings <> 0%N ->
  valid_datetime now -> valid_datetime start ->
  now <= start + Z.of_N (timer_minutes settings) * US_PER_MINUTE + 60 * US_PER_SECOND.
Proof.
  unfold is_timed_out, valid_datetime. intros Hout Hsub Hstart Htimer Hnow Hvalid.
  rewrite Hsub, Hstart in Hout. case_bool_decide; [discriminate|]. simpl in Hout.
  rewrite (proj2 (N.eqb_neq _ _) Htimer) in Hout.
  destruct (timedelta _ 60) as [td|e] eqn:Htd; simpl in Hout.
  - apply timedelta_Ok in Htd. subst td.
    destruct (dt_add start _) as [deadline|e] eqn:Hadd.
    + apply dt_add_Ok in Hadd as [-> _]. injection Hout as Hlt.
      apply Z.ltb_ge in Hlt. lia.
    + apply dt_add_Raise in Hadd as [_ Hinv]. unfold valid_datetime in Hinv.
      rewrite US_PER_MINUTE_eq, US_PER_SECOND_eq in *. lia.
  - apply timedelta_Raise in Htd as [_ Hbig].
    specialize (Hbig ltac:(lia) ltac:(lia)). lia.
Qed.

(** With one reading of the clock the two definitions are the same. *)
Lemma create_submission_one_reading db quiz_id student now data :
  create_submission_clocks db quiz_id student now now data
  = create_submission db quiz_id student now data.
Proof. reflexivity. Qed.

(** X7. The confirmation of an accepted submission carries the id of the
    row, the second clock reading as end time, [is_submitted = true] and the
    status 200. Its [submission_status] is ['late'] exactly when that second
    reading is past [start_time + timer_minutes + 60 s]; since the first
    reading was not, a confirmation says ['late'] only when the deadline falls
    between the two readings, and never when they coincide. *)
Theorem confirmation_late_between_readings (db db' : DB) (quiz_id : Z)
    (student : StudentProfile) (checked now : datetime) (data : list AnswerData)
    (s : QuizSubmission) (sid : Z) (finished : option datetime) (submitted : bool)
    (status_text : string) (code : Z) :
  db_submissions db !! (quiz_id, student_pk student) = Some s ->
  valid_datetime checked ->
  (forall t, start_time s = Some t -> valid_datetime t) ->
  create_submission_clocks db quiz_id student checked now data
  = (db', Ok {| body := Confirmation sid finished submitted status_text;
                status := code |}) ->
  sid = id s /\ finished = Some now /\ submitted = true /\ code = HTTP_200_OK /\
  (status_text = "late" \/ status_text = "on_time" \/
   (start_time s = None /\ status_text = "pending")) /\
  (status_text = "late" <->
   exists started settings,
     start_time s = Some started /\
     db_settings db !! quiz_id = Some settings /\
     timer_minutes settings <> 0%N /\
     started + Z.of_N (timer_minutes settings) * US_PER_MINUTE + 60 * US_PER_SECOND
     < now) /\
  (status_text = "late" ->
   exists started settings,
     start_time s = Some started /\
     db_settings db !! quiz_id = Some settings /\
     checked
     <= started + Z.of_N (timer_minutes settings) * US_PER_MINUTE + 60 * US_PER_SECOND
     < now) /\
  (now <= checked -> status_text <> "late").
Proof.
  intros Hrow Hchecked Hvalid. unfold create_submission_clocks. rewrite Hrow.
  destruct (is_submitted s) eqn:Hsub; [discriminate|].
  destruct (is_timed_out _ checked s) as [[|]|] eqn:Hout; [|
    |discriminate].
  { destruct (finalize_timed_out _ now s); discriminate. }
  destruct (is_valid db s data) as [validated|]; [|discriminate].
  destruct (serializer_update db s validated) as [db1|]; [|discriminate]. simpl.
  destruct (calculate_score db1 _) as [[db2 total]|]; [|discriminate]. simpl.
  unfold confirmation_status. simpl.
  destruct (start_time s) as [start|] eqn:Hstart.
  2:{ intros [= _ <- <- <- <- <-].
      do 4 (split; [done|]). split; [auto|].
      split; [split; [discriminate | by intros (? & ? & ? & _)]|].
      split; discriminate. }
  destruct (db_settings db !! quiz_id) as [settings|] eqn:Hst; simpl; [|discriminate].
  destruct (N.eqb_spec (timer_minutes settings) 0) as [Hz | Hnz].
  { intros [= _ <- <- <- <- <-].
    do 4 (split; [done|]). split; [auto|].
    split; [split; [discriminate|]|split; discriminate].
    intros (? & ? & [= <-] & [= <-] & ? & _). done. }
  pose proof (not_timed_out_in_time settings checked s start Hout Hsub Hstart Hnz
                Hchecked (Hvalid start eq_refl)) as Hle.
  destruct (Z.ltb_spec ((Z.of_N (timer_minutes settings) * 60 + 60) * US_PER_SECOND)
                       (now - start)) as [Hlate | Hontime];
    intros [= _ <- <- <- <- <-]; rewrite US_PER_MINUTE_eq, US_PER_SECOND_eq in *.
  - do 4 (split; [done|]). split; [auto|].
    split; [|split].
    + split; [|done]. intros _. exists start, settings.
      split; [done|]. split; [done|]. split; [done|]. lia.
    + intros _. exists start, settings. split; [done|]. split; [done|]. lia.
    + intros Hnow Heq. lia.
  - do 4 (split; [done|]). split; [auto|].
    split; [|split; discriminate].
    split; [discriminate|].
    intros (? & ? & [= <-] & [= <-] & _ & ?). lia.
Qed.

Lemma confirmation_late_between_readings_witness :
  db_submissions Sample.db1 !! (1, student_pk Sample.student) = Some Sample.in_progress /\
  valid_datetime (Sample.at_time Sample.day 9 11 0) /\
  exists db' sid finished submitted code,
    create_submission_clocks Sample.db1 1 Sample.student
      (Sample.at_time Sample.day 9 11 0) (Sample.at_time Sample.day 9 11 0 + 1)
      Sample.payload
    = (db', Ok {| body := Confirmation sid finished submitted "late";
                  status := code |}).
Proof.
  assert (H1 : db_submissions Sample.db1 !! (1, student_pk Sample.student)
               = Some Sample.in_progress) by (vm_compute; reflexivity).
  assert (H2 : valid_datetime (Sample.at_time Sample.day 9 11 0))
    by (vm_compute; split; discriminate).
  assert (H3 : forall t, start_time Sample.in_progress = Some t -> valid_datetime t)
    by (intros t [= <-]; vm_compute; split; discriminate).
  split; [exact H1|]. split; [exact H2|].
  destruct (create_submission_clocks Sample.db1 1 Sample.student
              (Sample.at_time Sample.day 9 11 0) (Sample.at_time Sample.day 9 11 0 + 1)
              Sample.payload)
    as [db' [[[| |sid finished submitted status_text| |] code]|e]] eqn:Hrun;
    try (vm_compute in Hrun; discriminate Hrun).
  destruct (confirmation_late_between_readings _ _ _ _ _ _ _ _ _ _ _ _ _ H1 H2 H3 Hrun)
    as (_ & _ & _ & _ & _ & [_ Hlate] & _).
  rewrite Hlate; [by exists db', sid, finished, submitted, code|].
  exists Sample.started_at, Sample.settings.
  split; [reflexivity|]. split; [vm_compute; reflexivity|].
  split; [discriminate | vm_compute; reflexivity].
Defined.

(** ** The end time the serializers display *)

Lemma timed_out_live st now s :
  is_timed_out st now s = Ok true -> end_time s = None ->
  exists settings started,
    st = Some settings /\ start_time s = Some started /\
    (0 < timer_minutes settings)%N.
Proof.
  unfold is_timed_out. intros Hout Hend.
  destruct (is_submitted s); [discriminate|].
  rewrite bool_decide_eq_false_2 in Hout by (rewrite Hend; by intros [? ?]).
  destruct (start_time s) as [started|]; [|discriminate].
  destruct st as [settings|]; [|discriminate]. simpl in Hout.
  destruct (N.eqb_spec (timer_minutes settings) 0); [discriminate|].
  exists settings, started. split; [done|]. split; [done | lia].
Qed.

(** X8. [get_end_time] never reads its local [end_time_utc] unassigned: the
    branch that leaves it unassigned needs a timed-out attempt without a start
    time or under a zero timer, which [is_timed_out] excludes. The roster
    variant is safe as well when its context carries the settings of the
    quiz, as [list_submissions] arranges. *)
Theorem get_end_time_assigned (st : option QuizSettings) (now : datetime)
    (s : QuizSubmission) :
  get_end_time st now s <> Ok Unassigned /\
  (forall context obj,
     quiz_settings context = st ->
     roster_end_time context st obj now <> Ok Unassigned).
Proof.
  assert (Hlive : forall s0, end_time s0 = None ->
            is_timed_out st now s0 = Ok true ->
            forall started, start_time s0 = Some started ->
            exists settings, st = Some settings /\ (0 <? timer_minutes settings)%N = true).
  { intros s0 Hend Hout started _.
    destruct (timed_out_live _ _ _ Hout Hend) as (settings & _ & -> & _ & Hpos).
    exists settings. split; [done|]. by apply N.ltb_lt. }
  split.
  - unfold get_end_time. destruct (end_time s) eqn:Hend; [done|].
    destruct (is_timed_out st now s) as [[|]|] eqn:Hout; simpl; [|done|done].
    destruct (timed_out_live _ _ _ Hout Hend) as (settings & started & -> & -> & Hpos).
    simpl. rewrite (proj2 (N.ltb_lt _ _) Hpos).
    destruct (timedelta _ 0) as [td|[]]; simpl; try done.
    by destruct (dt_add started td) as [t|[]].
  - intros context obj Hctx. unfold roster_end_time.
    destruct (_get_submission context obj) as [submission|]; [|done].
    destruct (start_time submission) as [started|] eqn:Hstart; [|done].
    destruct (end_time submission) eqn:Hend; [done|].
    destruct (is_timed_out st now submission) as [[|]|] eqn:Hout; simpl; [|done|done].
    destruct (Hlive _ Hend Hout _ Hstart) as (settings & -> & Hpos).
    rewrite Hctx, Hpos.
    destruct (timedelta _ 0) as [td|[]]; simpl; try done.
    by destruct (dt_add started td) as [t|[]].
Qed.

Lemma finalize_timed_out_live settings now now' s started :
  is_timed_out (Some settings) now s = Ok true ->
  end_time s = None -> start_time s = Some started -> valid_datetime started ->
  finalize_timed_out (Some settings) now' s
  = Ok (with_score 0%Q
          (with_end_time
             (Some (started + Z.of_N (timer_minutes settings) * US_PER_MINUTE)) s)) /\
  (td ← timedelta (Z.of_N (timer_minutes settings)) 0; dt_add started td)
  = Ok (started + Z.of_N (timer_minutes settings) * US_PER_MINUTE).
Proof.
  intros Hout Hend Hstart Hvalid.
  assert (Hsum : (td ← timedelta (Z.of_N (timer_minutes settings)) 0; dt_add started td)
                 = Ok (started + Z.of_N (timer_minutes settings) * US_PER_MINUTE)).
  { unfold is_timed_out in Hout. destruct (is_submitted s); [discriminate|].
    rewrite bool_decide_eq_false_2 in Hout by (rewrite Hend; by intros [? ?]).
    rewrite Hstart in Hout. simpl in Hout.
    destruct (timer_minutes settings =? 0)%N; [discriminate|].
    destruct (timedelta _ 60) as [td60|[]] eqn:Htd60; simpl in Hout; try discriminate.
    apply timedelta_Ok in Htd60. subst td60.
    destruct (dt_add started _) as [deadline|[]] eqn:Hadd; try discriminate.
    apply dt_add_Ok in Hadd as [-> [_ Hmax]].
    unfold timedelta, dt_add, valid_datetime in *.
    rewrite US_PER_MINUTE_eq, US_PER_SECOND_eq, US_PER_DAY_eq, datetime_max_eq in *.
    set (m := Z.of_N (timer_minutes settings)) in *.
    assert (0 <= m) by lia.
    assert (Hdays : (m * 60000000 + 0 * 1000000) / 86400000000 <= 999999999).
    { apply Z.div_le_upper_bound; lia. }
    rewrite Z.abs_eq by (apply Z.div_pos; lia).
    rewrite (proj2 (Z.ltb_ge _ _)) by lia. simpl.
    rewrite (proj2 (Z.leb_le _ _)), (proj2 (Z.leb_le _ _)) by lia. simpl.
    f_equal. lia. }
  split; [|exact Hsum].
  unfold finalize_timed_out.
  rewrite bool_decide_eq_false_2 by (rewrite Hend; by intros [? ?]).
  simpl. rewrite Hstart.
  unfold mbind, py_bind in Hsum |- *.
  destruct (timedelta (Z.of_N (timer_minutes settings)) 0) as [td|]; [|discriminate].
  by rewrite Hsum.
Qed.

(** X9. For an attempt that is timed out but not yet finalized, the end time
    the serializers display is [start_time + timer_minutes], and it is the
    very end time any later submit attempt stores when it finalizes the row. *)
Theorem shown_end_time_is_stored (db : DB) (quiz_id : Z) (student : StudentProfile)
    (now : datetime) (s : QuizSubmission) (started : datetime) :
  let key := (quiz_id, student_pk student) in
  let st := db_settings db !! quiz_id in
  db_submissions db !! key = Some s ->
  end_time s = None ->
  start_time s = Some started ->
  valid_datetime started ->
  is_timed_out st now s = Ok true ->
  exists settings,
    st = Some settings /\
    let shown := started + Z.of_N (timer_minutes settings) * US_PER_MINUTE in
    get_end_time st now s = Ok (Assigned (Some shown)) /\
    forall now' data, now <= now' ->
      exists s',
        db_submissions (create_submission db quiz_id student now' data).1 !! key
        = Some s' /\
        end_time s' = Some shown.
Proof.
  intros key st Hrow Hend Hstart Hvalid Hout.
  destruct (timed_out_live _ _ _ Hout Hend) as (settings & started' & Hst & Hstart' & Hpos).
  assert (started' = started) as -> by congruence.
  exists settings. split; [done|]. simpl.
  pose proof (is_timed_out_true_inv _ _ _ Hout) as [Hsub _].
  subst st. rewrite Hst in *.
  split.
  - destruct (finalize_timed_out_live settings now now s started Hout Hend Hstart Hvalid)
      as [_ Hsum].
    unfold get_end_time. rewrite Hend, Hout. simpl. rewrite Hstart.
    rewrite (proj2 (N.ltb_lt _ _) Hpos).
    unfold mbind, py_bind in Hsum |- *.
    destruct (timedelta (Z.of_N (timer_minutes settings)) 0) as [td|]; [|discriminate].
    by rewrite Hsum.
  - intros now' data Hle.
    destruct (finalize_timed_out_live settings now now' s started Hout Hend Hstart Hvalid)
      as [Hfin _].
    pose proof (is_timed_out_later _ _ _ _ Hle Hout) as Hout'.
    unfold create_submission. fold key. rewrite Hrow, Hsub, Hst, Hout', Hfin. simpl.
    rewrite lookup_insert_eq. eauto.
Qed.

Lemma shown_end_time_is_stored_witness :
  db_submissions Sample.db1 !! (1, student_pk Sample.student) = Some Sample.in_progress /\
  valid_datetime Sample.started_at /\
  get_end_time (db_settings Sample.db1 !! 1) (Sample.at_time Sample.day 9 11 5)
    Sample.in_progress
  = Ok (Assigned (Some (Sample.at_time Sample.day 9 10 0))) /\
  end_time Sample.timed_out = Some (Sample.at_time Sample.day 9 10 0).
Proof.
  assert (H1 : db_submissions Sample.db1 !! (1, student_pk Sample.student)
               = Some Sample.in_progress) by (vm_compute; reflexivity).
  assert (H2 : valid_datetime Sample.started_at) by (vm_compute; split; discriminate).
  assert (H3 : is_timed_out (db_settings Sample.db1 !! 1)
                 (Sample.at_time Sample.day 9 11 5) Sample.in_progress = Ok true)
    by (vm_compute; reflexivity).
  split; [exact H1|]. split; [exact H2|].
  destruct (shown_end_time_is_stored Sample.db1 1 Sample.student _ _ _
              H1 eq_refl eq_refl H2 H3) as (settings & Hst & Hshown & _).
  vm_compute in Hst. injection Hst as <-.
  split; [exact Hshown | reflexivity].
Defined.

(** ** Finished on display, conflict on submit *)

Lemma finalize_timed_out_total st now now' s :
  is_timed_out st now s = Ok true -> exists s', finalize_timed_out st now' s = Ok s'.
Proof.
  intros Hout. destruct (end_time s) as [e|] eqn:Hend.
  - exists s. apply finalize_timed_out_ended. rewrite Hend. eauto.
  - destruct (timed_out_live _ _ _ Hout Hend) as (settings & started & -> & Hstart & _).
    unfold finalize_timed_out.
    rewrite bool_decide_eq_false_2 by (rewrite Hend; by intros [? ?]).
    simpl. rewrite Hstart.
    destruct (timedelta _ 0) as [td|e] eqn:Htd; simpl.
    + destruct (dt_add started td) as [t|e] eqn:Hadd; simpl; [eauto|].
      apply dt_add_Raise in Hadd as [-> _]. simpl. eauto.
    + apply timedelta_Raise in Htd as [-> _]. simpl. eauto.
Qed.

(** X10. For an existing attempt, [create_submission] answers with the
    conflict 'You are already submitted' exactly when the serializers display
    the attempt as finished: [get_is_submitted] is true, the list status is
    ['Finished'] and the quiz list shows ['submitted']. *)
Theorem conflict_iff_finished (db : DB) (quiz_id : Z) (student : StudentProfile)
    (now : datetime) (data : list AnswerData) (s : QuizSubmission) :
  let st := db_settings db !! quiz_id in
  db_submissions db !! (quiz_id, student_pk student) = Some s ->
  ((create_submission db quiz_id student now data).2 = Ok already_submitted <->
   get_is_submitted st now s = Ok true) /\
  (get_is_submitted st now s = Ok true <->
   list_submission_status st now s = Ok "Finished") /\
  (get_is_submitted st now s = Ok true <->
   get_student_quiz_status (Some "student") [s] st now = Ok (Some "submitted")).
Proof.
  intros st Hrow. split_and!.
  - unfold create_submission, get_is_submitted. rewrite Hrow. fold st.
    destruct (is_submitted s); [done|].
    destruct (is_timed_out st now s) as [[|]|] eqn:Hout.
    + destruct (finalize_timed_out_total st now now s Hout) as [s' ->]. done.
    + split; [|discriminate].
      destruct (is_valid db s data) as [validated|]; [|discriminate].
      destruct (serializer_update db s validated) as [db1|]; [|discriminate]. simpl.
      destruct (calculate_score db1 _) as [[db2 total]|]; [|discriminate]. simpl.
      destruct (confirmation_status _ _); discriminate.
    + split; discriminate.
  - unfold list_submission_status.
    destruct (get_is_submitted st now s) as [[|]|]; simpl; [done | | done].
    split; [discriminate|]. case_bool_decide; discriminate.
  - unfold get_student_quiz_status. simpl.
    destruct (get_is_submitted st now s) as [[|]|]; simpl; [done | | done].
    split; discriminate.
Qed.

Lemma conflict_iff_finished_witness :
  db_submissions Sample.db_late !! (1, student_pk Sample.student) = Some Sample.timed_out /\
  (create_submission Sample.db_late 1 Sample.student (Sample.at_time Sample.day 9 0 1)
     Sample.payload).2 = Ok already_submitted.
Proof.
  assert (H1 : db_submissions Sample.db_late !! (1, student_pk Sample.student)
               = Some Sample.timed_out) by (vm_compute; reflexivity).
  split; [exact H1|].
  apply (proj1 (conflict_iff_finished Sample.db_late 1 Sample.student
                  (Sample.at_time Sample.day 9 0 1) Sample.payload _ H1)).
  reflexivity.
Defined.

(** ** Visibility of score and answers *)

Lemma is_timed_out_timer st st' now s :
  (timer_minutes <$> st) = (timer_minutes <$> st') ->
  is_timed_out st now s = is_timed_out st' now s.
Proof.
  intros Htimer. unfold is_timed_out.
  destruct (is_submitted s); [done|]. case_bool_decide; [done|].
  destruct (start_time s); [|done].
  destruct st as [settings|], st' as [settings'|]; simpl in *; try done.
  injection Htimer as ->. done.
Qed.

(** X11. The two visibility modes are independent on the list and detail
    paths: replacing [answers_visibility] changes neither the resolved score
    flag nor the presence of the score, and replacing [score_visibility]
    changes neither the resolved answers flag nor the presence of the answers. *)
Theorem visibility_independent (db : DB) (quiz_id : Z) (student : StudentProfile)
    (role : option string) (has_answers_field : bool) (now : datetime)
    (instance : QuizSubmission) (settings : QuizSettings) (mode : string) :
  db_settings db !! quiz_id = Some settings ->
  same_score_shown
    (to_representation db quiz_id student role has_answers_field now instance)
    (to_representation
       (set_settings (insert quiz_id (with_answers_visibility mode settings)) db)
       quiz_id student role has_answers_field now instance) /\
  same_answers_shown
    (to_representation db quiz_id student role has_answers_field now instance)
    (to_representation
       (set_settings (insert quiz_id (with_score_visibility mode settings)) db)
       quiz_id student role has_answers_field now instance).
Proof.
  intros Hst. unfold to_representation. simpl.
  rewrite !lookup_insert_eq, Hst. simpl.
  rewrite (is_timed_out_timer (Some (with_answers_visibility mode settings))
             (Some settings)) by done.
  rewrite (is_timed_out_timer (Some (with_score_visibility mode settings))
             (Some settings)) by done.
  split.
  - destruct (db_quizcenters db !! _) as [quiz_center|]; simpl.
    + destruct (0 <? timer_minutes settings)%N; simpl.
      * destruct (timedelta _ 0) as [td|[]]; simpl; try done.
        destruct (dt_add _ td) as [t|[]]; simpl; try done.
        destruct (is_timed_out _ now instance) as [timed_out|]; simpl; done.
      * destruct (is_timed_out _ now instance) as [timed_out|]; simpl; done.
    + destruct (is_timed_out _ now instance) as [timed_out|]; simpl; done.
  - destruct (db_quizcenters db !! _) as [quiz_center|]; simpl.
    + destruct (0 <? timer_minutes settings)%N; simpl.
      * destruct (timedelta _ 0) as [td|[]]; simpl; try done.
        destruct (dt_add _ td) as [t|[]]; simpl; try done.
        destruct (is_timed_out _ now instance) as [timed_out|]; simpl; done.
      * destruct (is_timed_out _ now instance) as [timed_out|]; simpl; done.
    + destruct (is_timed_out _ now instance) as [timed_out|]; simpl; done.
Qed.

Lemma visibility_independent_witness :
  db_settings Sample.db2 !! 1 = Some Sample.settings /\
  same_score_shown
    (to_representation Sample.db2 1 Sample.student (Some "student") true
       (Sample.at_time Sample.day 9 6 0) Sample.submitted)
    (to_representation
       (set_settings (insert 1 (with_answers_visibility "immediate" Sample.settings))
          Sample.db2)
       1 Sample.student (Some "student") true
       (Sample.at_time Sample.day 9 6 0) Sample.submitted).
Proof.
  assert (H1 : db_settings Sample.db2 !! 1 = Some Sample.settings)
    by (vm_compute; reflexivity).
  exact (conj H1 (proj1 (visibility_independent Sample.db2 1 Sample.student
                           (Some "student") true (Sample.at_time Sample.day 9 6 0)
                           Sample.submitted Sample.settings "immediate" H1))).
Defined.

(** ** The roster context *)

(** The dictionaries [list_submissions] builds for one quiz hold, under the
    second component of the key, what the table holds for that quiz. *)
Lemma slice_lookup {A} (m : gmap (Z * Z) A) (quiz_id k : Z) :
  (list_to_map ((fun r : Z * Z * A => (r.1.2, r.2))
                <$> filter (fun r => r.1.1 = quiz_id) (map_to_list m)) : gmap Z A) !! k
  = m !! (quiz_id, k).
Proof.
  set (l := filter (fun r : Z * Z * A => r.1.1 = quiz_id) (map_to_list m)).
  assert (Hin : forall r, r ∈ l <-> m !! r.1 = Some r.2 /\ r.1.1 = quiz_id).
  { intros [key x]. subst l. rewrite list_elem_of_filter, elem_of_map_to_list.
    simpl. tauto. }
  assert (Hnodup : NoDup ((fun r : Z * Z * A => (r.1.2, r.2)) <$> l).*1).
  { rewrite <- list_fmap_compose. apply NoDup_fmap_2_strong.
    - intros [[q1 k1] x1] [[q2 k2] x2] [H1 Hq1]%Hin [H2 Hq2]%Hin Heq.
      simpl in *. subst. congruence.
    - subst l. apply NoDup_filter, NoDup_map_to_list. }
  apply option_eq. intros x. rewrite <- elem_of_list_to_map by done.
  rewrite list_elem_of_fmap. split.
  - intros ([[q k'] x'] & [= -> ->] & [Hrow Hq]%Hin). simpl in *. by subst.
  - intros Hrow. exists ((quiz_id, k), x). split; [done|]. by apply Hin.
Qed.

Lemma roster_context_submission db quiz_id obj :
  _get_submission (roster_context db quiz_id) obj
  = db_submissions db !! (quiz_id, student_pk obj).
Proof. apply slice_lookup. Qed.

Lemma roster_context_window db quiz_id c :
  quiz_center_map (roster_context db quiz_id) !! c = db_quizcenters db !! (quiz_id, c).
Proof. apply slice_lookup. Qed.

(** X12. For a finished attempt (submitted or timed out) whose list or detail
    representation is a dictionary, the teacher roster built by
    [list_submissions] resolves both release flags to the values of that
    dictionary: the read paths agree on finished attempts. *)
Theorem roster_agrees_when_finished (db : DB) (quiz_id : Z) (student : StudentProfile)
    (role : option string) (has_answers_field : bool) (now : datetime)
    (s : QuizSubmission) (data : SubmissionData) :
  db_submissions db !! (quiz_id, student_pk student) = Some s ->
  get_is_submitted (db_settings db !! quiz_id) now s = Ok true ->
  to_representation db quiz_id student role has_answers_field now s
  = Ok (RepData data) ->
  get_is_score_released (roster_context db quiz_id) student now
  = data_is_score_released data /\
  get_are_answers_released (roster_context db quiz_id) student now
  = data_are_answers_released data.
Proof.
  intros Hrow Hfin.
  unfold get_is_score_released, get_are_answers_released, _is_quiz_closed.
  rewrite roster_context_submission, Hrow, roster_context_window.
  unfold to_representation. simpl.
  destruct (db_settings db !! quiz_id) as [settings|] eqn:Hst; simpl; [|discriminate].
  assert (Hfinished : forall b, is_timed_out (Some settings) now s = Ok b ->
                                is_submitted s || b = true).
  { intros b Hb. unfold get_is_submitted in Hfin.
    destruct (is_submitted s); [done|]. simpl. congruence. }
  destruct (db_quizcenters db !! (quiz_id, center_id student)) as [quiz_center|] eqn:Hwin;
    simpl.
  - rewrite bool_decide_eq_false_2.
    2:{ intros Hempty.
        pose proof (roster_context_window db quiz_id (center_id student)) as Hlk.
        simpl in Hlk. rewrite Hempty, lookup_empty, Hwin in Hlk. discriminate. }
    destruct (0 <? timer_minutes settings)%N; simpl.
    + destruct (timedelta _ 0) as [td|[]]; simpl; try discriminate.
      destruct (dt_add _ td) as [t|[]]; simpl; try discriminate.
      destruct (is_timed_out _ now s) as [b|] eqn:Hb; simpl; [|discriminate].
      rewrite (Hfinished b eq_refl). intros [= <-]. simpl.
      unfold visible_when_finished. by repeat case_match.
    + destruct (is_timed_out _ now s) as [b|] eqn:Hb; simpl; [|discriminate].
      rewrite (Hfinished b eq_refl). intros [= <-]. simpl.
      unfold visible_when_finished. by repeat case_match.
  - destruct (is_timed_out _ now s) as [b|] eqn:Hb; simpl; [|discriminate].
    rewrite (Hfinished b eq_refl). intros [= <-]. simpl.
    unfold visible_when_finished. case_bool_decide; by repeat case_match.
Qed.

Lemma roster_agrees_when_finished_witness :
  db_submissions Sample.db2 !! (1, student_pk Sample.student) = Some Sample.submitted /\
  get_is_score_released (roster_context Sample.db2 1) Sample.student
    (Sample.at_time Sample.day 9 6 0) = true /\
  get_are_answers_released (roster_context Sample.db2 1) Sample.student
    (Sample.at_time Sample.day 9 6 0) = false.
Proof.
  assert (H1 : db_submissions Sample.db2 !! (1, student_pk Sample.student)
               = Some Sample.submitted) by (vm_compute; reflexivity).
  split; [exact H1|].
  apply (roster_agrees_when_finished Sample.db2 1 Sample.student (Some "teacher") true
           (Sample.at_time Sample.day 9 6 0) Sample.submitted
           {| data_is_score_released := true; data_are_answers_released := false;
              data_has_score := true; data_has_answers := true |} H1).
  - reflexivity.
  - vm_compute. reflexivity.
Defined.

(** ** Bounds of the score *)

Lemma spec_awarded_nonneg C Sc St pts : (0 <= spec_awarded C Sc St pts)%Q.
Proof.
  unfold spec_awarded. destruct (C =? 0)%nat; [apply Qle_refl|]. apply Q.le_max_l.
Qed.

Lemma Qnat_le m n : (m <= n)%nat -> (Qnat m <= Qnat n)%Q.
Proof. intros H. unfold Qnat, Qle. simpl. lia. Qed.

Lemma spec_awarded_le_points C Sc St pts :
  (Sc <= C)%nat -> (Sc <= St)%nat -> (spec_awarded C Sc St pts <= QofN pts)%Q.
Proof.
  intros HC Hle. unfold spec_awarded.
  destruct (Nat.eqb_spec C 0) as [_ | Hpos]; [apply QofN_nonneg|].
  apply Q.max_lub; [apply QofN_nonneg|].
  assert (HCpos : (0 < Qnat C)%Q) by (apply Qnat_pos; lia).
  pose proof (QofN_nonneg pts) as Hp.
  pose proof (Qnat_le _ _ HC) as Hsc. pose proof (Qnat_le _ _ Hle) as Hst.
  pose proof (Qnat_nonneg Sc) as Hsc0.
  set (p := QofN pts) in *. set (c := Qnat C) in *.
  set (sc := Qnat Sc) in *. set (st := Qnat St) in *.
  assert (Hu : (sc / c <= 1)%Q).
  { apply Qle_shift_div_r; [done|]. by rewrite Qmult_1_l. }
  assert (Hv : (0 <= (st - sc) / c)%Q).
  { apply Qle_shift_div_l; [done|]. rewrite Qmult_0_l. lra. }
  assert (Hup : (sc / c * p <= 1 * p)%Q) by (apply Qmult_le_compat_r; done).
  assert (Hvp : (0 <= (st - sc) / c * p)%Q) by (apply Qmult_le_0_compat; done).
  lra.
Qed.

Lemma count_selected_correct_le_correct db r :
  selection_valid db r ->
  (count_selected_correct db r.1 <= count_correct_choices db (answer_question r.2))%nat.
Proof.
  intros [Hnodup Hown]. unfold count_selected_correct, count_correct_choices.
  set (own := filter (fun x : Z * Choice =>
                        choice_question x.2 = answer_question r.2 /\
                        choice_is_correct x.2 = true)
                     (map_to_list (db_choices db))).
  rewrite <- (length_fmap fst own).
  apply submseteq_length, NoDup_submseteq; [by apply NoDup_filter|].
  intros c [Hcorrect Hin]%list_elem_of_filter.
  destruct (Hown c Hin) as (ch & Hch & Hq).
  apply list_elem_of_fmap. exists (c, ch). split; [done|].
  subst own. apply list_elem_of_filter. split.
  - simpl. split; [done|]. unfold choice_correct in Hcorrect. by rewrite Hch in Hcorrect.
  - by apply elem_of_map_to_list.
Qed.

Lemma awarded_nonneg db r : (0 <= awarded db r)%Q.
Proof. apply spec_awarded_nonneg. Qed.

Lemma awarded_le_points db r :
  selection_valid db r -> (awarded db r <= QofN (question_points db r))%Q.
Proof.
  intros Hvalid. unfold awarded, question_points.
  apply spec_awarded_le_points;
    [by apply count_selected_correct_le_correct | apply count_selected_correct_le].
Qed.

Lemma Qsum_le {A} (f g : A -> Q) (l : list A) :
  (forall x, x ∈ l -> (f x <= g x)%Q) -> (Qsum (f <$> l) <= Qsum (g <$> l))%Q.
Proof.
  induction l as [|x l IH]; intros H; [apply Qle_refl|].
  rewrite !fmap_cons, !Qsum_cons. apply Qplus_le_compat.
  - apply H. left.
  - apply IH. intros y Hy. apply H. by right.
Qed.

Lemma Qsum_zero {A} (l : list A) : (Qsum ((fun _ => 0%Q) <$> l) == 0)%Q.
Proof.
  induction l as [|x l IH]; [reflexivity|].
  rewrite fmap_cons, Qsum_cons, IH. reflexivity.
Qed.



(** ** Full marks *)

Lemma Qnat_inj m n : (Qnat m == Qnat n)%Q -> m = n.
Proof. unfold Qnat, Qeq. simpl. lia. Qed.

Lemma spec_awarded_full C Sc St pts :
  (0 < C)%nat -> (0 < pts)%N -> (Sc <= C)%nat -> (Sc <= St)%nat ->
  (spec_awarded C Sc St pts == QofN pts)%Q <-> Sc = C /\ St = C.
Proof.
  intros HCpos Hpts HC Hle. unfold spec_awarded.
  destruct (Nat.eqb_spec C 0) as [? | _]; [lia|].
  assert (Hc : (0 < Qnat C)%Q) by (apply Qnat_pos; lia).
  assert (Hp : (0 < QofN pts)%Q) by (unfold QofN, Qlt; simpl; lia).
  pose proof (Qnat_le _ _ HC) as Hsc. pose proof (Qnat_le _ _ Hle) as Hst.
  set (p := QofN pts) in *. set (c := Qnat C) in *.
  set (sc := Qnat Sc) in *. set (st := Qnat St) in *.
  assert (Hu : (sc / c <= 1)%Q).
  { apply Qle_shift_div_r; [done|]. by rewrite Qmult_1_l. }
  assert (Hv : (0 <= (st - sc) / c)%Q).
  { apply Qle_shift_div_l; [done|]. rewrite Qmult_0_l. lra. }
  assert (Hne : ~ (c == 0)%Q) by lra.
  split.
  - intros Hfull.
    assert (Hx : (sc / c * p - (st - sc) / c * p == p)%Q).
    { destruct (Q.max_spec 0 (sc / c * p - (st - sc) / c * p)) as [[_ Heq] | [_ Heq]];
        rewrite Heq in Hfull; [done | lra]. }
    assert (Hprod : ((sc / c - (st - sc) / c - 1) * p == 0)%Q).
    { assert (Hring : ((sc / c - (st - sc) / c - 1) * p
                       == sc / c * p - (st - sc) / c * p - p)%Q) by ring.
      rewrite Hring, Hx. ring. }
    apply Qmult_integral in Hprod as [Hzero | Hzero]; [|lra].
    assert (Hu1 : (sc / c == 1)%Q) by lra.
    assert (Hv0 : ((st - sc) / c == 0)%Q) by lra.
    pose proof (Qmult_div_r sc c Hne) as Hsc'. rewrite Hu1 in Hsc'.
    pose proof (Qmult_div_r (st - sc) c Hne) as Hst'. rewrite Hv0 in Hst'.
    assert (Hcs : (sc == c)%Q) by lra.
    assert (Hsts : (st == sc)%Q) by lra.
    subst sc st c. apply Qnat_inj in Hcs. apply Qnat_inj in Hsts. lia.
  - intros [-> ->]. subst sc st.
    assert (Hx : (c / c * p - (c - c) / c * p == p)%Q) by (field; done).
    fold c. rewrite Hx. apply Q.max_r. lra.
Qed.



(** ** Replacing the selections of a submission *)

Lemma filter_none {A} (P : A -> Prop) `{!forall x, Decision (P x)} (l : list A) :
  (forall x, x ∈ l -> ~ P x) -> filter P l = [].
Proof.
  induction l as [|x l IH]; intros Hall; [done|].
  rewrite filter_cons_False by (apply Hall; left).
  apply IH. intros y Hy. apply Hall. by right.
Qed.

Lemma filter_all {A} (P : A -> Prop) `{!forall x, Decision (P x)} (l : list A) :
  (forall x, x ∈ l -> P x) -> filter P l = l.
Proof.
  induction l as [|x l IH]; intros Hall; [done|].
  rewrite filter_cons_True by (apply Hall; left). f_equal. apply IH.
  intros y Hy. apply Hall. by right.
Qed.

Lemma foldl_insert_source {A} (rows : list (Z * A)) (m : gmap Z A) k v :
  foldl (fun m r => <[r.1 := r.2]> m) m rows !! k = Some v ->
  (k, v) ∈ rows \/ m !! k = Some v.
Proof.
  revert m. induction rows as [|[k' v'] rows IH]; intros m H; [by right|].
  simpl in H. apply IH in H as [Hin | Hm]; [left; by right|].
  destruct (decide (k' = k)) as [-> | Hne].
  - rewrite lookup_insert_eq in Hm. injection Hm as ->. left. left.
  - rewrite lookup_insert_ne in Hm by done. by right.
Qed.

(** The dictionary [answer_map] of [update]: question id to answer id. *)
Lemma answer_map_lookup db instance question answer_id :
  (forall r r', r ∈ submission_answers db instance ->
                r' ∈ submission_answers db instance ->
                answer_question r.2 = answer_question r'.2 -> r = r') ->
  foldl (fun (m : gmap Z Z) (r : Z * Answer) => <[answer_question r.2 := r.1]> m) ∅
        (submission_answers db instance) !! question = Some answer_id
  <-> exists answer, (answer_id, answer) ∈ submission_answers db instance /\
                     answer_question answer = question.
Proof.
  intros Huniq.
  set (l := submission_answers db instance) in *.
  rewrite <- (foldl_fmap (fun m (r : Z * Z) => <[r.1 := r.2]> m) ∅ l
                         (fun r : Z * Answer => (answer_question r.2, r.1))).
  split.
  - intros [Hin | Hempty]%foldl_insert_source; [|by rewrite lookup_empty in Hempty].
    apply list_elem_of_fmap in Hin as ([pk answer] & [= -> ->] & Hin).
    exists answer. done.
  - intros (answer & Hin & <-). apply foldl_insert_lookup.
    + rewrite <- list_fmap_compose. apply NoDup_fmap_2_strong.
      * intros r r' Hr Hr' Heq. by apply Huniq.
      * subst l. eapply NoDup_fmap_1, submission_answers_NoDup.
    + apply list_elem_of_fmap. by exists (answer_id, answer).
Qed.

Lemma through_rows_selected answer_map answers_data rows pk :
  through_rows answer_map answers_data = Ok rows ->
  snd <$> filter (fun r : Z * Z => r.1 = pk) rows
  = concat (ad_selected_choices
            <$> filter (fun adata => answer_map !! ad_question adata = Some pk)
                       answers_data).
Proof.
  revert rows. induction answers_data as [|adata rest IH]; intros rows; simpl.
  { by intros [= <-]. }
  destruct (answer_map !! ad_question adata) as [answer_id|] eqn:Hmap; [|discriminate].
  destruct (through_rows answer_map rest) as [rows'|]; simpl; [|discriminate].
  intros [= <-]. rewrite filter_app, fmap_app, (IH rows' eq_refl).
  destruct (decide (answer_id = pk)) as [-> | Hne].
  - rewrite (filter_cons_True _ adata) by done. simpl. f_equal.
    rewrite filter_all.
    + rewrite <- list_fmap_compose. apply list_fmap_id.
    + by intros r [c [-> _]]%list_elem_of_fmap.
  - rewrite (filter_cons_False _ adata) by congruence.
    rewrite filter_none; [done|].
    by intros r [c [-> _]]%list_elem_of_fmap.
Qed.

Lemma through_rows_owned answer_map answers_data rows r :
  through_rows answer_map answers_data = Ok rows -> r ∈ rows ->
  exists question, answer_map !! question = Some r.1.
Proof.
  revert rows. induction answers_data as [|adata rest IH]; intros rows; simpl.
  { intros [= <-] Hin. by apply elem_of_nil in Hin. }
  destruct (answer_map !! ad_question adata) as [answer_id|] eqn:Hmap; [|discriminate].
  destruct (through_rows answer_map rest) as [rows'|]; simpl; [|discriminate].
  intros [= <-] [Hin | Hin]%elem_of_app.
  - apply list_elem_of_fmap in Hin as (c & -> & _). eauto.
  - by apply (IH rows').
Qed.

(** X15. A successful [update] replaces the selections of the submission:
    each of its answers afterwards holds exactly the choices the payload lists
    for its question (none when the payload omits the question), and the
    selections of every other answer are untouched. *)
Theorem serializer_update_replaces (db db1 : DB) (instance : QuizSubmission)
    (answers_data : list AnswerData) :
  (forall r r', r ∈ submission_answers db instance ->
                r' ∈ submission_answers db instance ->
                answer_question r.2 = answer_question r'.2 -> r = r') ->
  serializer_update db instance answers_data = Ok db1 ->
  (forall pk answer, (pk, answer) ∈ submission_answers db instance ->
     selected_choices db1 pk
     = concat (ad_selected_choices
               <$> filter (fun adata => ad_question adata = answer_question answer)
                          answers_data)) /\
  (forall pk, answer_of_submission db instance pk = false ->
     selected_choices db1 pk = selected_choices db pk).
Proof.
  intros Huniq. unfold serializer_update.
  set (answer_map := foldl _ ∅ (submission_answers db instance)).
  destruct (through_rows answer_map answers_data) as [rows|] eqn:Hrows; simpl;
    [|discriminate].
  case_bool_decide; [|discriminate]. intros [= <-].
  unfold selected_choices. simpl. split.
  - intros pk answer Hin. rewrite filter_app, fmap_app.
    rewrite (filter_none (fun r : Z * Z => r.1 = pk)).
    2:{ intros r [Hother _]%list_elem_of_filter Hpk. subst pk.
        apply elem_of_submission_answers in Hin as [Hrow Hsub].
        unfold answer_of_submission in Hother. rewrite Hrow, Hsub, Z.eqb_refl in Hother.
        discriminate. }
    simpl. rewrite (through_rows_selected _ _ _ pk Hrows). do 2 f_equal.
    apply list_filter_iff. intros adata. subst answer_map.
    rewrite (answer_map_lookup db instance _ _ Huniq). split.
    + intros (answer' & Hin' & <-).
      apply elem_of_submission_answers in Hin' as [Hrow' _].
      apply elem_of_submission_answers in Hin as [Hrow _]. congruence.
    + intros Hq. exists answer. done.
  - intros pk Hother. rewrite filter_app, fmap_app.
    rewrite (filter_none (fun r : Z * Z => r.1 = pk) rows).
    2:{ intros r Hr Hpk. subst pk.
        destruct (through_rows_owned _ _ _ _ Hrows Hr) as [question Hq].
        subst answer_map.
        apply (answer_map_lookup db instance _ _ Huniq) in Hq as (answer & Hin & _).
        apply elem_of_submission_answers in Hin as [Hrow Hsub].
        unfold answer_of_submission in Hother. rewrite Hrow, Hsub, Z.eqb_refl in Hother.
        discriminate. }
    rewrite app_nil_r. f_equal. rewrite list_filter_filter.
    apply list_filter_iff. intros r. split; [tauto|]. intros Hpk. by subst pk.
Qed.

Lemma Sample_db1_answers_distinct r r' :
  r ∈ submission_answers Sample.db1 Sample.in_progress ->
  r' ∈ submission_answers Sample.db1 Sample.in_progress ->
  answer_question r.2 = answer_question r'.2 -> r = r'.
Proof.
  destruct (submission_answers Sample.db1 Sample.in_progress)
    as [|r1 [|r2 [|r3 l]]] eqn:Hl; try (vm_compute in Hl; discriminate Hl).
  vm_compute in Hl. injection Hl as <- <-.
  intros [-> | [-> | Hr%elem_of_nil]%elem_of_cons]%elem_of_cons
         [-> | [-> | Hr'%elem_of_nil]%elem_of_cons]%elem_of_cons; try done;
    simpl; discriminate.
Qed.

Lemma serializer_update_replaces_witness :
  serializer_update Sample.db1 Sample.in_progress Sample.payload = Ok Scenario.db_updated /\
  selected_choices Scenario.db_updated 1002 = [104; 105; 106].
Proof.
  assert (H : serializer_update Sample.db1 Sample.in_progress Sample.payload
              = Ok Scenario.db_updated) by (vm_compute; reflexivity).
  split; [exact H|].
  destruct (serializer_update_replaces Sample.db1 Scenario.db_updated
              Sample.in_progress Sample.payload Sample_db1_answers_distinct H)
    as [Hown _].
  rewrite (Hown 1002 {| answer_submission := 1000; answer_question := 12;
                        is_correct := false; points_earned := 0; order := 1 |}).
  - reflexivity.
  - vm_compute. set_solver.
Defined.

(** ** Availability against the permission to start *)

(** X16. [check_quiz_availability] reports the quiz as available exactly when
    [CanTakeQuiz] lets the student in and the student has no submitted attempt;
    the window it reports is the one of the student's center, and [start_quiz]
    then answers 200 whenever the quiz has its settings. *)
Theorem availability_iff (db : DB) (quiz_id : Z) (student : StudentProfile)
    (now : datetime) :
  ((exists opens closes,
      check_quiz_availability db quiz_id student now = Available opens closes) <->
   CanTakeQuiz db quiz_id student now = true /\
   ~ (exists s, db_submissions db !! (quiz_id, student_pk student) = Some s /\
                is_submitted s = true)) /\
  (forall opens closes,
     check_quiz_availability db quiz_id student now = Available opens closes ->
     db_quizcenters db !! (quiz_id, center_id student)
     = Some {| open_date := opens; close_date := closes |} /\
     (is_Some (db_settings db !! quiz_id) ->
      forall shuffle,
        exists r, (start_quiz shuffle db quiz_id student now).2 = Ok r /\
                  status r = HTTP_200_OK)).
Proof.
  assert (Hmain : forall opens closes,
    check_quiz_availability db quiz_id student now = Available opens closes ->
    CanTakeQuiz db quiz_id student now = true /\
    db_quizcenters db !! (quiz_id, center_id student)
    = Some {| open_date := opens; close_date := closes |} /\
    ~ (exists s, db_submissions db !! (quiz_id, student_pk student) = Some s /\
                 is_submitted s = true)).
  { intros opens closes. unfold check_quiz_availability, CanTakeQuiz.
    destruct (db_quizzes db !! quiz_id) as [quiz|]; [|discriminate].
    destruct (Z.eqb_spec (quiz_grade quiz) (student_grade student)) as [Hg | ?];
      simpl; [|discriminate].
    destruct (db_quizcenters db !! _) as [[o c]|]; [|discriminate]. simpl.
    destruct (now <? o); [discriminate|]. destruct (c <? now); [discriminate|]. simpl.
    rewrite Hg, Z.eqb_refl. simpl.
    destruct (db_submissions db !! _) as [s|] eqn:Hrow.
    - destruct (is_submitted s) eqn:Hsub; [discriminate|]. intros [= <- <-].
      split; [done|]. split; [done|]. intros (s' & [= <-] & ?). congruence.
    - intros [= <- <-]. split; [done|]. split; [done|]. by intros (s' & ? & _). }
  split.
  - split.
    + intros (opens & closes & Hav). by destruct (Hmain _ _ Hav) as (? & _ & ?).
    + intros [Hcan Hnot]. unfold check_quiz_availability.
      unfold CanTakeQuiz in Hcan.
      destruct (db_quizzes db !! quiz_id) as [quiz|]; [|discriminate].
      destruct (db_quizcenters db !! _) as [[o c]|]; [|discriminate]. simpl in *.
      destruct (now <? o); [discriminate|]. destruct (c <? now); [discriminate|].
      simpl in *.
      destruct (Z.eqb_spec (student_grade student) (quiz_grade quiz)) as [Hg | ?];
        [|discriminate].
      rewrite Hg, Z.eqb_refl. simpl.
      destruct (db_submissions db !! _) as [s|]; [|eauto].
      destruct (is_submitted s) eqn:Hsub; [|eauto]. destruct Hnot. eauto.
  - intros opens closes Hav. destruct (Hmain _ _ Hav) as (Hcan & Hwin & _).
    split; [done|]. intros Hst shuffle. by apply start_quiz_eligible.
Qed.

(** ** Deleting a submission *)

Lemma find_submission_Some db quiz_id submission_id key s :
  find_submission db quiz_id submission_id = Some (key, s) ->
  db_submissions db !! key = Some s /\ key.1 = quiz_id /\ id s = submission_id.
Proof.
  unfold find_submission. intros [l Hl]%head_Some.
  assert (Hin : (key, s) ∈ filter (fun r : Z * Z * QuizSubmission =>
                                     r.1.1 = quiz_id /\ id r.2 = submission_id)
                                  (map_to_list (db_submissions db)))
    by (rewrite Hl; left).
  apply list_elem_of_filter in Hin as [[? ?] Hin]. simpl in *.
  by apply elem_of_map_to_list in Hin.
Qed.

Lemma delete_submission_spec db key s :
  let db' := delete_submission key s db in
  db_submissions db' !! key = None /\
  (forall key', key' <> key -> db_submissions db' !! key' = db_submissions db !! key') /\
  (forall k a, db_answers db' !! k = Some a <->
               db_answers db !! k = Some a /\ answer_submission a <> id s) /\
  (forall pk, answer_of_submission db s pk = true -> selected_choices db' pk = []).
Proof.
  intros db'. subst db'. unfold delete_submission. simpl. split_and!.
  - apply lookup_delete_eq.
  - intros key' Hne. by apply lookup_delete_ne.
  - intros k a. rewrite map_lookup_filter_Some. simpl. tauto.
  - intros pk Hown. unfold selected_choices. simpl.
    rewrite list_filter_filter, filter_none; [done|].
    intros r _ [Hpk Hother]. simpl in *. subst pk. congruence.
Qed.

(** The view either deletes, under the four conditions, or leaves the
    database as it was and answers something else. *)
Lemma submission_detail_cases db user owner method quiz_id submission_id now :
  let out := submission_detail db user owner method quiz_id submission_id now in
  let permitted :=
    exists key s quiz,
      find_submission db quiz_id submission_id = Some (key, s) /\
      method = "DELETE" /\
      (role user = "teacher" \/ role user = "assistant") /\
      db_quizzes db !! quiz_id = Some quiz /\
      has_object_permission user quiz = Ok true in
  (permitted /\
   exists key s, find_submission db quiz_id submission_id = Some (key, s) /\
                 out = (delete_submission key s db, Ok DetailDeleted)) \/
  (~ permitted /\ out.1 = db /\ out.2 <> Ok DetailDeleted).
Proof.
  intros out permitted. subst out permitted. unfold submission_detail.
  destruct (find_submission db quiz_id submission_id) as [[key s]|];
    [|right; split; [by intros (? & ? & ? & ? & _) | done]].
  assert (Hshown : forall r, serializer_data r <> Ok DetailDeleted)
    by (intros [[|]|]; discriminate).
  destruct (String.eqb_spec (role user) "student") as [Hstudent | Hstudent].
  { right. rewrite Hstudent. simpl.
    split; [by intros (? & ? & ? & _ & _ & [? | ?] & _)|].
    destruct (student_profile user) as [p|]; simpl; [|done].
    destruct (negb (key.2 =? p)); simpl; [done|].
    destruct (String.eqb method "GET"); [split; [done | apply Hshown]|].
    destruct (String.eqb method "DELETE"); done. }
  simpl.
  destruct (String.eqb (role user) "teacher" || String.eqb (role user) "assistant")
    eqn:Hstaff.
  - assert (Hrole : role user = "teacher" \/ role user = "assistant").
    { apply orb_prop in Hstaff as [?%String.eqb_eq | ?%String.eqb_eq]; auto. }
    destruct (db_quizzes db !! quiz_id) as [quiz|];
      [|right; split; [by intros (? & ? & ? & _ & _ & _ & ? & _) | done]].
    destruct (has_object_permission user quiz) as [[|]|e] eqn:Hperm; simpl.
    + destruct (String.eqb_spec method "GET") as [-> | Hmethod]; simpl.
      { right. split; [by intros (? & ? & ? & _ & ? & _)|].
        split; [done | apply Hshown]. }
      destruct (String.eqb_spec method "DELETE") as [-> | Hdelete]; simpl.
      * left. split; [by exists key, s, quiz | by exists key, s].
      * right. split; [by intros (? & ? & ? & _ & ? & _) | done].
    + right. split; [|done].
      intros (? & ? & ? & _ & _ & _ & [= <-] & ?). congruence.
    + right. split; [|done].
      intros (? & ? & ? & _ & _ & _ & [= <-] & ?). congruence.
  - apply orb_false_elim in Hstaff as [?%String.eqb_neq ?%String.eqb_neq].
    right. split; [by intros (? & ? & ? & _ & _ & [? | ?] & _)|].
    destruct (String.eqb method "GET"); [split; [done | apply Hshown]|].
    destruct (String.eqb method "DELETE"); done.
Qed.

(** X17. [submission_detail] deletes exactly when the submission exists, the
    method is DELETE, the caller is a teacher or an assistant and
    [IsQuizOwnerOrAssistant] accepts the caller for the quiz. It then removes
    the row of that submission together with its answers and their
    selections and keeps the other submissions; in every other case (in
    particular for every student) the database is left as it was. *)
Theorem delete_only_by_owner (db : DB) (user : User) (owner : StudentProfile)
    (method : string) (quiz_id submission_id : Z) (now : datetime) :
  let out := submission_detail db user owner method quiz_id submission_id now in
  (out.2 = Ok DetailDeleted <->
   exists key s quiz,
     find_submission db quiz_id submission_id = Some (key, s) /\
     method = "DELETE" /\
     (role user = "teacher" \/ role user = "assistant") /\
     db_quizzes db !! quiz_id = Some quiz /\
     has_object_permission user quiz = Ok true) /\
  (out.2 = Ok DetailDeleted ->
   exists key s,
     find_submission db quiz_id submission_id = Some (key, s) /\
     db_submissions db !! key = Some s /\
     out.1 = delete_submission key s db /\
     db_submissions out.1 !! key = None /\
     (forall key', key' <> key ->
        db_submissions out.1 !! key' = db_submissions db !! key') /\
     (forall k a, db_answers out.1 !! k = Some a <->
                  db_answers db !! k = Some a /\ answer_submission a <> id s) /\
     (forall pk, answer_of_submission db s pk = true ->
                 selected_choices out.1 pk = [])) /\
  (out.2 <> Ok DetailDeleted -> out.1 = db).
Proof.
  intros out.
  pose proof (submission_detail_cases db user owner method quiz_id submission_id now)
    as Hcases.
  cbv zeta in Hcases. fold out in Hcases.
  destruct Hcases as [[Hperm (key & s & Hfind & Hout)] | (Hno & Hsame & Hother)].
  - split; [|split].
    + split; [done|]. intros _. by rewrite Hout.
    + intros _. exists key, s.
      pose proof (find_submission_Some _ _ _ _ _ Hfind) as (Hrow & _).
      destruct (delete_submission_spec db key s) as (Hgone & Hothers & Hanswers & Hsel).
      rewrite Hout. simpl. split_and!; done.
    + intros Hne. by rewrite Hout in Hne.
  - split; [|split]; [split|..]; done.
Qed.

Lemma delete_only_by_owner_witness :
  (submission_detail Sample.db2
     {| role := "student"; student_profile := Some 42; teacher_profile := None;
        assistant_teacher := None |}
     Sample.student "DELETE" 1 1000 (Sample.at_time Sample.day 9 6 0)).1 = Sample.db2.
Proof.
  apply (proj2 (proj2 (delete_only_by_owner Sample.db2 _ Sample.student "DELETE" 1 1000
                         (Sample.at_time Sample.day 9 6 0)))).
  vm_compute. discriminate.
Defined.

(** X18. Deleting a submission removes its row, every answer that refers to
    it and the selections of those answers, and leaves the other submissions,
    answers and selections as they were. The student can then start afresh: an
    eligible start creates a new attempt, not submitted, without end time,
    started at the instant of the request. *)
Theorem delete_then_retake (db : DB) (key : Z * Z) (s : QuizSubmission)
    (shuffle : list (Z * Question) -> list (Z * Question))
    (student : StudentProfile) (now : datetime) :
  db_submissions db !! key = Some s ->
  let db' := delete_submission key s db in
  db_submissions db' !! key = None /\
  (forall key', key' <> key -> db_submissions db' !! key' = db_submissions db !! key') /\
  (forall k a, db_answers db' !! k = Some a <->
               db_answers db !! k = Some a /\ answer_submission a <> id s) /\
  (forall pk, answer_of_submission db s pk = true -> selected_choices db' pk = []) /\
  (forall pk, answer_of_submission db s pk = false ->
              selected_choices db' pk = selected_choices db pk) /\
  (key = (key.1, student_pk student) ->
   CanTakeQuiz db key.1 student now = true ->
   is_Some (db_settings db !! key.1) ->
   (start_quiz shuffle db' key.1 student now).2
   = Ok {| body := Started (db_next_pk db) (Some now); status := HTTP_200_OK |} /\
   db_submissions (start_quiz shuffle db' key.1 student now).1 !! key
   = Some (with_start_time (Some now) (new_submission (db_next_pk db)))).
Proof.
  intros Hrow db'. subst db'. unfold delete_submission. simpl. split_and!.
  - apply lookup_delete_eq.
  - intros key' Hne. by apply lookup_delete_ne.
  - intros k a. rewrite map_lookup_filter_Some. simpl. tauto.
  - intros pk Hown. unfold selected_choices. simpl.
    rewrite list_filter_filter, filter_none; [done|].
    intros r _ [Hpk Hother]. simpl in *. subst pk. congruence.
  - intros pk Hother. unfold selected_choices. simpl. f_equal.
    rewrite list_filter_filter. apply list_filter_iff.
    intros r. split; [tauto|]. intros Hpk. simpl in *. by subst pk.
  - intros Hkey Hcan [settings Hst].
    pose proof (proj1 (CanTakeQuiz_spec _ _ _ _) Hcan) as (quiz & _ & Hquiz & _).
    assert (Hcan' : CanTakeQuiz
              (set_selected (filter (fun r => answer_of_submission db s r.1 = false))
                 (set_answers (filter (fun r : Z * Answer =>
                                         answer_submission r.2 <> id s))
                    (set_submissions (delete key) db)))
              key.1 student now = true) by exact Hcan.
    unfold start_quiz. simpl. rewrite Hquiz, Hcan', Hst. simpl.
    rewrite <- Hkey, lookup_delete_eq. simpl. split; [done|].
    rewrite bulk_create_answers_submissions. simpl.
    rewrite alter_insert_eq. apply lookup_insert_eq.
Qed.

Lemma delete_then_retake_witness :
  db_submissions Sample.db2 !! (1, 42) = Some Sample.submitted /\
  db_submissions (delete_submission (1, 42) Sample.submitted Sample.db2) !! (1, 42) = None /\
  selected_choices (delete_submission (1, 42) Sample.submitted Sample.db2) 1002 = [].
Proof.
  assert (H1 : db_submissions Sample.db2 !! (1, 42) = Some Sample.submitted)
    by (vm_compute; reflexivity).
  destruct (delete_then_retake Sample.db2 (1, 42) Sample.submitted reverse
              Sample.student (Sample.at_time Sample.day 10 0 0) H1)
    as (Hgone & _ & _ & Hsel & _).
  split; [exact H1|]. split; [exact Hgone|]. apply Hsel. vm_compute. reflexivity.
Defined.

(** ** The order of presentation, stored and read back *)

#[local] Instance answer_le_total : Total answer_le.
Proof. intros x y. unfold answer_le. lia. Qed.

#[local] Instance answer_le_transitive : Transitive answer_le.
Proof. intros x y z. unfold answer_le. lia. Qed.

(** A duplicate-free list sorted by distinct orders that holds exactly the
    answers of a submission is the list [submission.answers.all()] returns. *)
Lemma submission_answers_unique db sub (L : list (Z * Answer)) :
  NoDup L ->
  (forall r, r ∈ L <-> db_answers db !! r.1 = Some r.2 /\ answer_submission r.2 = id sub) ->
  (forall x y, x ∈ L -> y ∈ L -> order x.2 = order y.2 -> x = y) ->
  Sorted answer_le L ->
  submission_answers db sub = L.
Proof.
  intros Hnodup Hin Hinj Hsorted. unfold submission_answers.
  set (rows := filter (fun r : Z * Answer => answer_submission r.2 = id sub)
                      (map_to_list (db_answers db))).
  assert (Hperm : merge_sort answer_le rows ≡ₚ L).
  { rewrite merge_sort_Permutation. apply NoDup_Permutation; [|done|].
    - subst rows. apply NoDup_filter, NoDup_map_to_list.
    - intros [k a]. subst rows. rewrite list_elem_of_filter, elem_of_map_to_list.
      rewrite (Hin (k, a)). simpl. tauto. }
  apply (Sorted_unique_strong answer_le); [|apply Sorted_merge_sort; apply _|done|done].
  intros x y Hx Hy Hxy Hyx. apply Hinj; [by rewrite <- Hperm | done|].
  unfold answer_le in *. lia.
Qed.

Lemma omap_imap_id {A B} (g : B -> option A) (f : nat -> A -> B) (l : list A) :
  (forall i x, l !! i = Some x -> g (f i x) = Some x) -> omap g (imap f l) = l.
Proof.
  revert f. induction l as [|x l IH]; intros f H; [done|].
  simpl. rewrite (H 0%nat x eq_refl). f_equal. apply IH.
  intros i y Hi. apply (H (S i)). done.
Qed.

Lemma Sorted_imap {A B} (R : relation B) (f : nat -> A -> B) (l : list A) :
  (forall i x y, l !! i = Some x -> l !! S i = Some y -> R (f i x) (f (S i) y)) ->
  Sorted R (imap f l).
Proof.
  revert f. induction l as [|x l IH]; intros f H; [constructor|].
  simpl. constructor.
  - apply IH. intros i a b Ha Hb. apply (H (S i)); done.
  - destruct l as [|y l]; constructor. apply (H 0%nat); done.
Qed.

(** The first start of an eligible student, written out. *)
Lemma start_quiz_first shuffle db quiz_id student now settings :
  let key := (quiz_id, student_pk student) in
  let pk := db_next_pk db in
  let presented := if String.eqb (question_order settings) "random"
                   then shuffle (quiz_questions db quiz_id)
                   else quiz_questions db quiz_id in
  db_submissions db !! key = None ->
  CanTakeQuiz db quiz_id student now = true ->
  db_settings db !! quiz_id = Some settings ->
  start_quiz shuffle db quiz_id student now
  = (set_submissions (alter (with_start_time (Some now)) key)
       (bulk_create_answers (answer_stubs pk presented)
          (set_next_pk (pk + 1)
             (set_submissions (insert key (new_submission pk)) db))),
     Ok {| body := Started pk (Some now); status := HTTP_200_OK |}).
Proof.
  intros key pk presented Hnone Hcan Hsettings.
  pose proof (proj1 (CanTakeQuiz_spec _ _ _ _) Hcan) as (quiz & _ & Hquiz & _).
  unfold start_quiz. fold key. by rewrite Hquiz, Hcan, Hsettings, Hnone.
Qed.

Lemma elem_of_quiz_questions db quiz_id q :
  q ∈ quiz_questions db quiz_id -> db_questions db !! q.1 = Some q.2.
Proof.
  unfold quiz_questions. rewrite merge_sort_Permutation, list_elem_of_filter.
  intros [_ Hq]. destruct q as [k question]. by apply elem_of_map_to_list in Hq.
Qed.

(** X19. After the first start of an eligible student, [list_questions]
    gives that student, for as long as the attempt is not timed out, exactly
    the questions of the quiz in the order in which that start presented
    them (the created order, or the permutation it drew); once the attempt is
    timed out it refuses with 403.  Primary keys are handed out by a
    sequence, so no stored answer refers to a submission not yet created. *)
Theorem list_questions_round_trip
    (shuffle : list (Z * Question) -> list (Z * Question)) (db : DB) (quiz_id : Z)
    (student : StudentProfile) (user : User) (settings : QuizSettings)
    (now now' : datetime) :
  (forall l, shuffle l ≡ₚ l) ->
  (forall k a, db_answers db !! k = Some a -> answer_submission a < db_next_pk db) ->
  db_submissions db !! (quiz_id, student_pk student) = None ->
  CanTakeQuiz db quiz_id student now = true ->
  db_settings db !! quiz_id = Some settings ->
  role user = "student" ->
  student_profile user = Some (student_pk student) ->
  let db' := (start_quiz shuffle db quiz_id student now).1 in
  let presented := if String.eqb (question_order settings) "random"
                   then shuffle (quiz_questions db quiz_id)
                   else quiz_questions db quiz_id in
  let attempt := with_start_time (Some now) (new_submission (db_next_pk db)) in
  list_questions db' user quiz_id now'
  = (timed_out ← is_timed_out (Some settings) now' attempt;
     Ok (if (timed_out : bool)
         then QuestionsRefused "You cannot view questions after submission."
                               HTTP_403_FORBIDDEN
         else QuestionsListed presented)).
Proof.
  intros Hshuffle Hfresh Hnone Hcan Hsettings Hrole Hprofile db' presented attempt.
  set (key := (quiz_id, student_pk student)) in *.
  set (pk := db_next_pk db) in *.
  set (db1 := set_next_pk (pk + 1)
                (set_submissions (insert key (new_submission pk)) db)).
  assert (Hdb' : db' = set_submissions (alter (with_start_time (Some now)) key)
                         (bulk_create_answers (answer_stubs pk presented) db1)).
  { subst db'. by rewrite (start_quiz_first shuffle db quiz_id student now settings). }
  destruct (bulk_create_answers_spec (answer_stubs pk presented) db1) as [Hnew Hold].
  destruct (bulk_create_answers_frame (answer_stubs pk presented) db1)
    as (Hq & Hs & _).
  destruct (bulk_create_answers_tables (answer_stubs pk presented) db1)
    as (Hquestions & _ & _).
  simpl in Hnew, Hold, Hq, Hs, Hquestions.
  assert (Hrow : db_submissions db' !! key = Some attempt).
  { rewrite Hdb'. simpl. rewrite bulk_create_answers_submissions. simpl.
    rewrite alter_insert_eq. apply lookup_insert_eq. }
  assert (Hanswers : forall k, db_answers db' !! k
            = db_answers (bulk_create_answers (answer_stubs pk presented) db1) !! k)
    by (by rewrite Hdb').
  assert (Hstored : forall q, q ∈ presented -> db_questions db' !! q.1 = Some q.2).
  { intros q Hin. rewrite Hdb'. simpl. rewrite Hquestions.
    apply elem_of_quiz_questions with quiz_id. subst presented.
    destruct (String.eqb _ _); [by rewrite Hshuffle in Hin | done]. }
  set (stored := fun (i : nat) (q : Z * Question) =>
         (pk + 1 + Z.of_nat i,
          {| answer_submission := pk; answer_question := q.1; is_correct := false;
             points_earned := 0%Q; order := N.of_nat i |})).
  assert (Hcreated : forall i q, presented !! i = Some q ->
            db_answers db' !! (pk + 1 + Z.of_nat i) = Some (stored i q).2).
  { intros i q Hi. rewrite Hanswers.
    specialize (Hnew i _ (eq_trans (answer_stubs_lookup pk presented i)
                            (f_equal _ Hi))).
    simpl in Hnew. fold pk in Hnew. exact Hnew. }
  assert (Hlisted : submission_answers db' attempt = imap stored presented).
  { apply submission_answers_unique.
    - apply NoDup_alt. intros i j r Hi Hj.
      rewrite list_lookup_imap in Hi, Hj.
      destruct (presented !! i); [|done]. destruct (presented !! j); [|done].
      simpl in Hi, Hj. injection Hi as <-. injection Hj as Hkey _. lia.
    - intros [k a]. simpl. split.
      + intros (i & q & [= -> ->] & Hi)%elem_of_lookup_imap. simpl.
        split; [|done]. by apply Hcreated.
      + intros [Hk Hsub]. rewrite Hanswers in Hk.
        destruct (decide (k < pk + 1 \/ pk + 1 + Z.of_nat (length presented) <= k))
          as [Hout | Hin].
        { rewrite Hold in Hk
            by (unfold answer_stubs; rewrite length_imap; simpl; lia).
          apply Hfresh in Hk. simpl in Hsub. lia. }
        assert (Hi : exists i, k = pk + 1 + Z.of_nat i /\ (i < length presented)%nat).
        { exists (Z.to_nat (k - (pk + 1))). lia. }
        destruct Hi as (i & -> & Hlen).
        destruct (lookup_lt_is_Some_2 presented i Hlen) as [q Hi].
        rewrite <- Hanswers, (Hcreated i q Hi) in Hk.
        injection Hk as <-. apply elem_of_lookup_imap. by exists i, q.
    - intros x y (i & q & -> & Hi)%elem_of_lookup_imap
                 (j & q' & -> & Hj)%elem_of_lookup_imap Horder.
      simpl in Horder. apply Nat2N.inj in Horder. subst j. congruence.
    - apply Sorted_imap. intros i x y _ _. unfold answer_le, stored. simpl. lia. }
  assert (Hread : answered_questions db' attempt = presented).
  { unfold answered_questions. rewrite Hlisted. apply omap_imap_id.
    intros i q Hi. unfold stored. simpl.
    rewrite (Hstored q) by (by eapply list_elem_of_lookup_2).
    by destruct q. }
  pose proof (proj1 (CanTakeQuiz_spec _ _ _ _) Hcan) as (quiz & _ & Hquiz & _).
  unfold list_questions.
  replace (db_quizzes db' !! quiz_id) with (Some quiz)
    by (rewrite Hdb'; simpl; by rewrite Hq).
  replace (db_settings db' !! quiz_id) with (Some settings)
    by (rewrite Hdb'; simpl; by rewrite Hs).
  rewrite Hrole, Hprofile. simpl. fold key. rewrite Hrow, Hread. simpl.
  unfold get_is_submitted. simpl.
  destruct (is_timed_out (Some settings) now' attempt) as [[|]|]; done.
Qed.

Lemma list_questions_round_trip_witness :
  list_questions Sample.db1
    {| role := "student"; student_profile := Some 42; teacher_profile := None;
       assistant_teacher := None |} 1 (Sample.at_time Sample.day 9 5 0)
  = Ok (QuestionsListed (quiz_questions Sample.db0 1)).
Proof.
  assert (H1 : forall l : list (Z * Question), reverse l ≡ₚ l)
    by (intros l; apply reverse_Permutation).
  assert (H2 : forall k a, db_answers Sample.db0 !! k = Some a ->
                           answer_submission a < db_next_pk Sample.db0)
    by (intros k a Hk; simpl in Hk; by rewrite lookup_empty in Hk).
  assert (H3 : db_submissions Sample.db0 !! (1, student_pk Sample.student) = None)
    by reflexivity.
  assert (H4 : CanTakeQuiz Sample.db0 1 Sample.student Sample.started_at = true)
    by (vm_compute; reflexivity).
  assert (H5 : db_settings Sample.db0 !! 1 = Some Sample.settings)
    by (vm_compute; reflexivity).
  exact (list_questions_round_trip reverse Sample.db0 1 Sample.student
           {| role := "student"; student_profile := Some 42; teacher_profile := None;
              assistant_teacher := None |} Sample.settings Sample.started_at
           (Sample.at_time Sample.day 9 5 0) H1 H2 H3 H4 H5 eq_refl eq_refl).
Defined.

(** ** Rescoring the submitted attempts *)

(** The columns of an answer that scoring never writes and that decide which
    submission the answer belongs to and what it is scored against. *)
Definition answer_ref (a : Answer) : Z * Z := (answer_submission a, answer_question a).

(** Two databases that differ at most in the results ([is_correct],
    [points_earned]) recorded on their answers. *)
Definition same_but_results (db db' : DB) : Prop :=
  db_submissions db' = db_submissions db /\
  db_questions db' = db_questions db /\
  db_choices db' = db_choices db /\
  db_selected db' = db_selected db /\
  forall k, answer_ref <$> db_answers db' !! k = answer_ref <$> db_answers db !! k.

Lemma same_but_results_refl db : same_but_results db db.
Proof. by repeat split. Qed.

Lemma same_but_results_trans db1 db2 db3 :
  same_but_results db1 db2 -> same_but_results db2 db3 -> same_but_results db1 db3.
Proof.
  intros (Hs & Hq & Hc & Hsel & H12) (Hs' & Hq' & Hc' & Hsel' & H23).
  split; [congruence|]. split; [congruence|]. split; [congruence|].
  split; [congruence|]. intros k. by rewrite H23.
Qed.

Lemma foldl_insert_ref {A B} (f : A -> B) (rows : list (Z * A)) (m : gmap Z A) :
  (forall r, r ∈ rows -> exists a, m !! r.1 = Some a /\ f r.2 = f a) ->
  forall k, f <$> foldl (fun m r => <[r.1 := r.2]> m) m rows !! k = f <$> m !! k.
Proof.
  revert m. induction rows as [|[k' v'] rows IH]; intros m Hrows k; [done|].
  simpl. destruct (Hrows (k', v')) as (a & Ha & Hf); [left|]. simpl in Ha, Hf.
  rewrite IH.
  - destruct (decide (k' = k)) as [-> | Hne].
    + by rewrite lookup_insert_eq, Ha; simpl; rewrite Hf.
    + by rewrite lookup_insert_ne.
  - intros r Hr. destruct (Hrows r) as (b & Hb & Hfb); [by right|].
    destruct (decide (k' = r.1)) as [Heq | Hne].
    + exists v'. rewrite <- Heq, lookup_insert_eq. split; [done|].
      rewrite Hfb. rewrite <- Heq, Ha in Hb. injection Hb as <-. done.
    + exists b. by rewrite lookup_insert_ne.
Qed.

(** Every row [score_loop] hands to [bulk_update] is an answer of the list
    it walks, with new results. *)
Lemma score_loop_rows db answers total_score answers_to_update total rows :
  score_loop db answers total_score answers_to_update = Ok (total, rows) ->
  forall r, r ∈ rows ->
    r ∈ answers_to_update \/
    exists a, (r.1, a) ∈ answers /\ answer_ref r.2 = answer_ref a.
Proof.
  revert total_score answers_to_update.
  induction answers as [|[pk answer] rest IH]; intros total_score upd Hloop r Hr.
  { simpl in Hloop. injection Hloop as _ <-. by left. }
  simpl in Hloop.
  destruct (score_answer db pk answer) as [[answer'|]|] eqn:Hscore;
    simpl in Hloop; [| |discriminate].
  - destruct (IH _ _ Hloop r Hr) as [Hin | (a & Hin & Href)].
    + apply elem_of_app in Hin as [Hin | Hin]; [by left|].
      apply list_elem_of_singleton in Hin. subst r. right. exists answer.
      split; [left|]. simpl.
      unfold score_answer in Hscore.
      destruct (get_question db _); simpl in Hscore; [|discriminate].
      destruct (0 <? _)%nat; [|discriminate]. by injection Hscore as <-.
    + right. exists a. split; [by right | done].
  - destruct (IH _ _ Hloop r Hr) as [Hin | (a & Hin & Href)]; [by left|].
    right. exists a. split; [by right | done].
Qed.

Lemma calculate_score_same db self db' total :
  calculate_score db self = Ok (db', total) -> same_but_results db db'.
Proof.
  intros Hcalc.
  destruct (calculate_score_frame _ _ _ _ Hcalc) as (_ & _ & _ & Hq & Hc & Hsel & _).
  split; [by eapply calculate_score_submissions|].
  split; [done|]. split; [done|]. split; [done|].
  unfold calculate_score in Hcalc.
  destruct (score_loop db _ _ _) as [[total' rows]|] eqn:Hloop; simpl in Hcalc;
    [|discriminate].
  injection Hcalc as <- _. intros k.
  destruct rows as [|row rows]; [done|].
  apply (foldl_insert_ref answer_ref (row :: rows) (db_answers db)). intros r Hr.
  destruct (score_loop_rows _ _ _ _ _ _ Hloop r Hr) as [Hin | (a & Hin & Href)];
    [by apply elem_of_nil in Hin|].
  apply elem_of_submission_answers in Hin as [Hin _]. eauto.
Qed.

Lemma Qsum_Permutation (l l' : list Q) : l ≡ₚ l' -> (Qsum l == Qsum l')%Q.
Proof.
  induction 1 as [|x l l' _ IH|x y l|l1 l2 l3 _ IH1 _ IH2].
  - reflexivity.
  - rewrite !Qsum_cons, IH. reflexivity.
  - rewrite !Qsum_cons. ring.
  - by rewrite IH1.
Qed.

(** The answers of a submission as scoring reads them: primary key and
    question. *)
Lemma scored_answers_Permutation db db' self :
  same_but_results db db' ->
  (fun r : Z * Answer => (r.1, answer_question r.2)) <$> submission_answers db' self
  ≡ₚ (fun r : Z * Answer => (r.1, answer_question r.2)) <$> submission_answers db self.
Proof.
  intros (_ & _ & _ & _ & Href).
  assert (Hnodup : forall d, NoDup ((fun r : Z * Answer => (r.1, answer_question r.2))
                                    <$> submission_answers d self)).
  { intros d. apply (NoDup_fmap_1 fst). rewrite <- list_fmap_compose.
    apply submission_answers_NoDup. }
  apply NoDup_Permutation; [apply Hnodup | apply Hnodup|].
  assert (Hin : forall d k q,
            (k, q) ∈ (fun r : Z * Answer => (r.1, answer_question r.2))
                     <$> submission_answers d self
            <-> answer_ref <$> db_answers d !! k = Some (id self, q)).
  { intros d k q. rewrite list_elem_of_fmap. split.
    - intros ([k' a] & [= -> ->] & [Hk Hsub]%elem_of_submission_answers).
      simpl. rewrite Hk. simpl. unfold answer_ref. by rewrite Hsub.
    - intros Hk. destruct (db_answers d !! k) as [a|] eqn:Ha; [|done].
      injection Hk as Hsub Hq. exists (k, a). simpl. split; [by rewrite Hq|].
      by apply elem_of_submission_answers. }
  intros [k q]. by rewrite !Hin, Href.
Qed.

Lemma awarded_same db db' self :
  same_but_results db db' ->
  (Qsum (awarded db' <$> submission_answers db' self)
   == Qsum (awarded db <$> submission_answers db self))%Q.
Proof.
  intros Hsame. pose proof Hsame as (_ & Hq & Hc & Hsel & _).
  set (g := fun d (kq : Z * Z) =>
         spec_awarded (count_correct_choices d kq.2) (count_selected_correct d kq.1)
           (count_selected d kq.1)
           (match db_questions d !! kq.2 with
            | Some question => points question
            | None => 0%N
            end)).
  assert (Hg : forall d (l : list (Z * Answer)), awarded d <$> l
               = g d <$> ((fun r : Z * Answer => (r.1, answer_question r.2)) <$> l)).
  { intros d l. by rewrite <- list_fmap_compose. }
  assert (Hgg : forall kq, g db' kq = g db kq).
  { intros kq. unfold g, count_correct_choices, count_selected_correct,
      count_selected, selected_choices, choice_correct.
    by rewrite Hq, Hc, Hsel. }
  rewrite !Hg. apply Qsum_Permutation.
  rewrite (list_fmap_ext (g db') (g db) _ (fun _ kq _ => Hgg kq)).
  by apply fmap_Permutation, scored_answers_Permutation.
Qed.

Lemma foldl_alter_lookup {K A B} `{Countable K} (f : B -> A -> A) (rows : list (K * B))
    (m : gmap K A) (k : K) :
  NoDup rows.*1 ->
  (forall v, (k, v) ∈ rows ->
     foldl (fun m r => alter (f r.2) r.1 m) m rows !! k = f v <$> m !! k) /\
  (k ∉ rows.*1 -> foldl (fun m r => alter (f r.2) r.1 m) m rows !! k = m !! k).
Proof.
  revert m. induction rows as [|[k' v'] rows IH]; intros m Hnodup.
  { split; [intros v Hv; by apply elem_of_nil in Hv | done]. }
  simpl in Hnodup. apply NoDup_cons in Hnodup as [Hnotin Hnodup].
  destruct (IH (alter (f v') k' m) Hnodup) as [IHin IHout]. simpl. split.
  - intros v [[= -> ->] | Hin]%elem_of_cons.
    + rewrite IHout by done. apply lookup_alter_eq.
    + rewrite (IHin v Hin). rewrite lookup_alter_ne; [done|].
      intros ->. apply Hnotin. apply list_elem_of_fmap. by exists (k, v).
  - intros Hk. apply not_elem_of_cons in Hk as [Hne Hk].
    rewrite IHout by done. by rewrite lookup_alter_ne.
Qed.

Lemma rescore_loop_spec db0 :
  map_Forall (fun _ a => is_Some (db_questions db0 !! answer_question a))
             (db_answers db0) ->
  forall attempts db upd,
    same_but_results db0 db ->
    exists db' new,
      rescore_loop db attempts upd = Ok (db', upd ++ new) /\
      same_but_results db0 db' /\
      new.*1 = attempts.*1 /\
      forall key s, (key, s) ∈ attempts ->
        exists total,
          (key, with_score total s) ∈ new /\
          (total == Qsum (awarded db0 <$> submission_answers db0 s))%Q.
Proof.
  intros Hfk. induction attempts as [|[key s] rest IH]; intros db upd Hsame.
  { exists db, []. rewrite app_nil_r. split; [done|]. split; [done|].
    split; [done|]. intros key s Hin. by apply elem_of_nil in Hin. }
  destruct (calculate_score_total db s) as (db1 & total & Hcalc & Htotal).
  { intros [k a] [Hk _]%elem_of_submission_answers. simpl.
    destruct Hsame as (_ & -> & _ & _ & Href).
    specialize (Href k). rewrite Hk in Href. simpl in Href.
    destruct (db_answers db0 !! k) as [a0|] eqn:Ha0; [|done].
    injection Href as _ ->. apply (Hfk k a0 Ha0). }
  pose proof (calculate_score_same _ _ _ _ Hcalc) as Hstep.
  destruct (IH db1 (upd ++ [(key, with_score total s)])
              (same_but_results_trans _ _ _ Hsame Hstep))
    as (db' & new & Hloop & Hsame' & Hkeys & Hrows).
  exists db', ((key, with_score total s) :: new).
  split. { simpl. rewrite Hcalc. simpl. rewrite Hloop. by rewrite <- app_assoc. }
  split; [done|]. split. { rewrite !fmap_cons. by rewrite Hkeys. }
  intros key' s' [[= -> ->] | Hin]%elem_of_cons.
  - exists total. split; [left|]. by rewrite Htotal, (awarded_same db0 db).
  - destruct (Hrows key' s' Hin) as (total' & Hnew & Heq).
    exists total'. split; [by right | done].
Qed.

Lemma elem_of_submitted_attempts db quiz_id key s :
  (key, s) ∈ submitted_attempts db quiz_id <->
  db_submissions db !! key = Some s /\ key.1 = quiz_id /\ is_submitted s = true.
Proof.
  unfold submitted_attempts. rewrite list_elem_of_filter, elem_of_map_to_list.
  simpl. tauto.
Qed.



(** * Scoring in binary64 *)

(** ** Rounding *)

Module Binary64Facts.

Import Binary64.

Lemma small_nonneg x : small x -> nonneg x.
Proof. destruct x as [[]|[]| |[] ? ?]; simpl; tauto. Qed.

Lemma converted_small x : converted x -> small x.
Proof. destruct x as [[]|[]| |[] ? ?]; simpl; tauto. Qed.

Lemma digits2_size p : digits2_pos p = Pos.size p.
Proof. induction p; simpl; congruence. Qed.

Lemma Zdigits2_log2 p : Zdigits2 (Zpos p) = Z.log2 (Zpos p) + 1.
Proof. destruct p; simpl; rewrite ?digits2_size; lia. Qed.

Lemma Zdigits2_nonneg m : 0 <= Zdigits2 m.
Proof. destruct m; simpl; lia. Qed.

Lemma Zdigits2_bound m n : 0 <= m < 2 ^ n -> 0 <= n -> Zdigits2 m <= n.
Proof.
  intros [Hm Hlt] Hn. destruct m as [|p|p]; [simpl; lia| |lia].
  rewrite Zdigits2_log2. apply Z.log2_lt_pow2 in Hlt; lia.
Qed.

Lemma iter_pos_inv {A} (P : A -> Prop) (f : A -> A) :
  (forall x, P x -> P (f x)) -> forall n x, P x -> P (SpecFloat.iter_pos f n x).
Proof. intros Hf. induction n; intros x Hx; simpl; auto. Qed.

Lemma shr_1_bounds M mrs : 0 <= shr_m mrs <= M -> 0 <= shr_m (shr_1 mrs) <= M.
Proof. destruct mrs as [[|[p|p|]|p] r s]; simpl; lia. Qed.

Lemma shr_fexp_spec m e l mrs e' :
  0 <= m ->
  shr_fexp prec emax m e l = (mrs, e') ->
  0 <= shr_m mrs <= m /\ e' = Z.max e (fexp prec emax (Zdigits2 m + e)).
Proof.
  intros Hm. unfold shr_fexp, shr.
  assert (Hrec : 0 <= shr_m (shr_record_of_loc m l) <= m)
    by (destruct l as [|[]]; simpl; lia).
  destruct (fexp prec emax (Zdigits2 m + e) - e) as [|n|n] eqn:Hn;
    intros [= <- <-]; (split; [|lia]); [done| |done].
  by apply (iter_pos_inv (fun r => 0 <= shr_m r <= m)); [apply shr_1_bounds|].
Qed.

Lemma round_nearest_even_bounds m l :
  m <= round_nearest_even m l <= m + 1.
Proof. destruct l as [|[]]; simpl; try destruct (Z.even m); lia. Qed.

(** rounding a non-negative mantissa gives no NaN and keeps the sign *)
Lemma binary_round_aux_sign sx mx ex lx :
  0 <= mx ->
  match binary_round_aux prec emax sx mx ex lx with
  | S754_zero s | S754_infinity s | S754_finite s _ _ => s = sx
  | S754_nan => False
  end.
Proof.
  intros Hm. unfold binary_round_aux.
  destruct (shr_fexp prec emax mx ex lx) as [mrs1 e1] eqn:H1.
  apply shr_fexp_spec in H1 as [Hm1 _]; [|done].
  pose proof (round_nearest_even_bounds (shr_m mrs1) (loc_of_shr_record mrs1)) as Hr.
  destruct (shr_fexp prec emax _ e1 loc_Exact) as [mrs2 e2] eqn:H2.
  apply shr_fexp_spec in H2 as [Hm2 _]; [|lia].
  destruct (shr_m mrs2) as [|p|p]; [done| |lia].
  by destruct (e2 <=? emax - prec).
Qed.

(** ... and no infinity either when the operand is far from the overflow
    threshold *)
Lemma binary_round_aux_small sx mx ex lx :
  0 <= mx < 2 ^ 300 -> ex <= 300 ->
  match binary_round_aux prec emax sx mx ex lx with
  | S754_zero s | S754_finite s _ _ => s = sx
  | _ => False
  end.
Proof.
  intros Hm He. unfold binary_round_aux.
  destruct (shr_fexp prec emax mx ex lx) as [mrs1 e1] eqn:H1.
  apply shr_fexp_spec in H1 as [Hm1 He1]; [|lia].
  pose proof (round_nearest_even_bounds (shr_m mrs1) (loc_of_shr_record mrs1)) as Hr.
  destruct (shr_fexp prec emax _ e1 loc_Exact) as [mrs2 e2] eqn:H2.
  apply shr_fexp_spec in H2 as [Hm2 He2]; [|lia].
  assert (Hd1 : Zdigits2 mx <= 300) by (apply Zdigits2_bound; lia).
  assert (Hd2 : Zdigits2 (round_nearest_even (shr_m mrs1) (loc_of_shr_record mrs1))
                <= 301).
  { apply Zdigits2_bound; [|lia]. split; [lia|].
    change (2 ^ 301) with (2 * 2 ^ 300). lia. }
  unfold fexp, emin, prec, emax in *.
  destruct (shr_m mrs2) as [|p|p]; [done| |lia].
  destruct (Z.leb_spec e2 (1024 - 53)); [done | lia].
Qed.

Lemma shr_fexp_exact m e :
  fexp prec emax (Zdigits2 m + e) - e <= 0 ->
  shr_fexp prec emax m e loc_Exact = (Build_shr_record m false false, e).
Proof.
  intros Hle. unfold shr_fexp, shr. simpl.
  by destruct (fexp prec emax (Zdigits2 m + e) - e) as [|n|n]; [|lia|].
Qed.

Lemma iter_xO m d : Zpos (Pos.iter xO m d) = Zpos m * 2 ^ Zpos d.
Proof.
  induction d as [|d IH] using Pos.peano_ind.
  - simpl. lia.
  - rewrite Pos.iter_succ, Pos2Z.inj_succ, Z.pow_succ_r by lia.
    rewrite Pos2Z.inj_xO, IH. lia.
Qed.

(** [float(n)] for [0 < n < 2 ^ 53] is exact: a finite positive number in
    canonical form. *)
Lemma of_Z_positive z :
  0 < z < 2 ^ 53 ->
  exists m e, of_Z z = S754_finite false m e /\ Zpos m < 2 ^ 53 /\ -52 <= e <= 0.
Proof.
  intros [Hz Hlt]. destruct z as [|p|p]; [lia| |lia].
  unfold of_Z, binary_normalize, binary_round.
  set (d := Zpos (digits2_pos p)).
  assert (Hd : d = Z.log2 (Zpos p) + 1) by apply (Zdigits2_log2 p).
  assert (Hd53 : 1 <= d <= 53).
  { pose proof (Z.log2_nonneg (Zpos p)).
    apply Z.log2_lt_pow2 in Hlt; lia. }
  assert (Hfexp : fexp prec emax (d + 0) = d - 53)
    by (unfold fexp, emin, prec, emax; lia).
  rewrite Hfexp.
  assert (Haligned : exists mz,
            shl_align p 0 (d - 53) = (mz, d - 53) /\
            Zpos mz = Zpos p * 2 ^ (53 - d)).
  { unfold shl_align. destruct (d - 53 - 0) as [|k|k] eqn:Hk; [|lia|].
    - exists p. replace (d - 53) with 0 by lia.
      split; [done|]. replace (53 - d) with 0 by lia. lia.
    - exists (Pos.iter xO p k). split; [done|].
      rewrite iter_xO. f_equal. f_equal. lia. }
  destruct Haligned as (mz & -> & Hmz).
  assert (Hdz : Zdigits2 (Zpos mz) = 53).
  { rewrite Zdigits2_log2, Hmz, Z.log2_mul_pow2 by lia. lia. }
  assert (Hcanon : fexp prec emax (Zdigits2 (Zpos mz) + (d - 53)) - (d - 53) <= 0)
    by (rewrite Hdz; unfold fexp, emin, prec, emax; lia).
  unfold binary_round_aux. rewrite (shr_fexp_exact _ _ Hcanon). simpl.
  rewrite (shr_fexp_exact _ _ Hcanon). simpl.
  destruct (Z.leb_spec (d - 53) (emax - prec)) as [_|Hbig];
    [|unfold emax, prec in Hbig; lia].
  exists mz, (d - 53). split; [done|]. split; [|lia].
  apply Z.log2_lt_pow2; [lia|]. rewrite Zdigits2_log2 in Hdz. lia.
Qed.

Lemma of_Z_converted z : 0 <= z < 2 ^ 53 -> converted (of_Z z).
Proof.
  intros [Hz Hlt]. destruct (decide (z = 0)) as [-> | Hne]; [done|].
  destruct (of_Z_positive z) as (m & e & -> & Hm & He); [lia|]. done.
Qed.

(** The quotient of two converted integers is zero or finite: dividing does
    not overflow, and yields neither NaN nor a negative number. *)
Lemma div_converted x y :
  converted x -> converted y -> y <> zero -> small (div x y).
Proof.
  destruct y as [[]|[]| |[] m2 e2]; simpl; try tauto; try (by intros _ _ []).
  destruct x as [[]|[]| |[] m1 e1]; simpl; try tauto.
  intros [Hm1 He1] [Hm2 He2] _.
  unfold div, SFdiv, SFdiv_core_binary.
  set (e' := Z.min _ _).
  set (m' := match e1 - e2 - e' with
             | 0 => Zpos m1
             | Zpos _ => Z.shiftl (Zpos m1) (e1 - e2 - e')
             | Zneg _ => 0
             end).
  assert (Hd1 : 0 <= Zdigits2 (Zpos m1) <= 53)
    by (split; [apply Zdigits2_nonneg | apply Zdigits2_bound; lia]).
  assert (Hd2 : 0 <= Zdigits2 (Zpos m2) <= 53)
    by (split; [apply Zdigits2_nonneg | apply Zdigits2_bound; lia]).
  assert (He' : -158 <= e' <= 52)
    by (subst e'; unfold fexp, emin, prec, emax; lia).
  assert (Hm' : 0 <= m' < 2 ^ 300).
  { subst m'. destruct (e1 - e2 - e') as [|s|s] eqn:Hs; [lia| |done].
    rewrite Z.shiftl_mul_pow2 by lia.
    assert (2 ^ Zpos s <= 2 ^ 210) by (apply Z.pow_le_mono_r; lia).
    assert (0 < 2 ^ Zpos s) by (apply Z.pow_pos_nonneg; lia).
    change (2 ^ 300) with (2 ^ 53 * 2 ^ 210 * 2 ^ 37). nia. }
  destruct (Z.div_eucl m' (Zpos m2)) as [q r] eqn:Hdiv.
  assert (Hq : q = m' / Zpos m2) by (unfold Z.div; by rewrite Hdiv).
  assert (Hq' : 0 <= q <= m').
  { rewrite Hq. split; [apply Z.div_pos; lia|].
    apply Z.div_le_upper_bound; [lia | nia]. }
  pose proof (binary_round_aux_small false q e' (new_location (Zpos m2) r)
                ltac:(lia) ltac:(lia)) as Hsmall.
  simpl. destruct (binary_round_aux _ _ _ _ _ _) as [s|s| |s m e]; try done;
    by subst s.
Qed.

Lemma mul_small x y : small x -> small y -> nonneg (mul x y).
Proof.
  destruct x as [[]|[]| |[] m1 e1]; simpl; try tauto;
    destruct y as [[]|[]| |[] m2 e2]; simpl; try tauto.
  intros _ _.
  pose proof (binary_round_aux_sign false (Zpos (m1 * m2)) (e1 + e2) loc_Exact
                ltac:(lia)) as Hsign.
  destruct (binary_round_aux _ _ _ _ _ _) as [s|s| |s m e]; try done; by subst s.
Qed.

Lemma mul_zero_l y : small y -> mul zero y = zero.
Proof. by destruct y as [[]|[]| |[] m2 e2]; simpl; try tauto. Qed.

Lemma div_zero_l y : converted y -> y <> zero -> div zero y = zero.
Proof.
  destruct y as [[]|[]| |[] m2 e2]; simpl; try tauto; try (by intros _ []); done.
Qed.

Lemma sub_zero_r x : sub x zero = x.
Proof. by destruct x as [[]|[]| |[] m e]. Qed.

Lemma max0_nonneg x : nonneg (max0 x).
Proof.
  unfold max0, SFltb.
  destruct x as [[]|[]| |[] m e]; simpl; done.
Qed.

Lemma max0_id x : nonneg x -> max0 x = x.
Proof. by destruct x as [[]|[]| |[] m e]. Qed.

Lemma add_nonneg x y : nonneg x -> nonneg y -> nonneg (add x y).
Proof.
  destruct x as [[]|[]| |[] m1 e1]; simpl; try tauto;
    destruct y as [[]|[]| |[] m2 e2]; simpl; try tauto.
  intros _ _. unfold binary_normalize, binary_round.
  destruct (shl_align m1 e1 _) as [a ea]. destruct (shl_align m2 e2 _) as [b eb].
  simpl.
  destruct (shl_align (a + b) _ _) as [mz ez].
  pose proof (binary_round_aux_sign false (Zpos mz) ez loc_Exact ltac:(lia)) as Hsign.
  destruct (binary_round_aux _ _ _ _ _ _) as [s|s| |s m e]; try done; by subst s.
Qed.

Lemma add_zero_r x : nonneg x -> add x zero = x.
Proof. by destruct x as [[]|[]| |[] m e]. Qed.

End Binary64Facts.

(** ** The loop of [calculate_score] *)

Lemma spec_awarded_binary64_nonneg C Sc St pts :
  Binary64.nonneg (spec_awarded_binary64 C Sc St pts).
Proof.
  unfold spec_awarded_binary64. destruct (C =? 0)%nat; [done|].
  apply Binary64Facts.max0_nonneg.
Qed.

(** Without a wrong selection the penalty is zero and [max(0, .)] changes
    nothing: the value the [else] branch keeps is the value of the formula. *)
Lemma spec_awarded_binary64_no_penalty C Sc pts :
  (1 <= C)%nat ->
  Z.of_nat C < 2 ^ 53 -> Z.of_nat Sc < 2 ^ 53 -> Z.of_N pts < 2 ^ 53 ->
  spec_awarded_binary64 C Sc Sc pts
  = Binary64.mul (Binary64.div (Binary64.of_Z (Z.of_nat Sc))
                               (Binary64.of_Z (Z.of_nat C)))
                 (Binary64.of_Z (Z.of_N pts)).
Proof.
  intros HC HCr HScr Hpr. unfold spec_awarded_binary64.
  destruct (Nat.eqb_spec C 0) as [? | _]; [lia|].
  rewrite Z.sub_diag.
  destruct (Binary64Facts.of_Z_positive (Z.of_nat C)) as (m & e & Hc & Hm & He);
    [lia|].
  pose proof (Binary64Facts.of_Z_converted (Z.of_nat C) ltac:(lia)) as Hcc.
  pose proof (Binary64Facts.of_Z_converted (Z.of_nat Sc) ltac:(lia)) as Hsc.
  pose proof (Binary64Facts.of_Z_converted (Z.of_N pts) ltac:(lia)) as Hp.
  assert (Hnz : Binary64.of_Z (Z.of_nat C) <> Binary64.zero)
    by (rewrite Hc; discriminate).
  change (Binary64.of_Z 0) with Binary64.zero.
  rewrite (Binary64Facts.div_zero_l _ Hcc Hnz).
  rewrite (Binary64Facts.mul_zero_l _ (Binary64Facts.converted_small _ Hp)).
  rewrite Binary64Facts.sub_zero_r.
  apply Binary64Facts.max0_id, Binary64Facts.mul_small.
  - by apply Binary64Facts.div_converted.
  - by apply Binary64Facts.converted_small.
Qed.

Lemma score_answer_binary64_spec db pk answer question :
  db_questions db !! answer_question answer = Some question ->
  in_float_range db (pk, answer) ->
  score_answer_binary64 db pk answer
  = Ok (if (0 <? count_correct_choices db (answer_question answer))%nat
        then Some ((count_selected_correct db pk
                    =? count_correct_choices db (answer_question answer))%nat
                   && (count_selected db pk
                       =? count_correct_choices db (answer_question answer))%nat,
                   awarded_binary64 db (pk, answer))
        else None).
Proof.
  intros Hq (HC & HSt & Hpts). unfold question_points in Hpts. simpl in HC, HSt, Hpts.
  rewrite Hq in Hpts.
  unfold score_answer_binary64, get_question. rewrite Hq. simpl.
  destruct (Nat.ltb_spec 0 (count_correct_choices db (answer_question answer)))
    as [Hpos | Hzero]; [|done].
  do 3 f_equal. unfold awarded_binary64, question_points. simpl. rewrite Hq.
  pose proof (count_selected_correct_le db pk) as Hle.
  destruct (Z.ltb_spec 0 (Z.of_nat (count_selected db pk)
                          - Z.of_nat (count_selected_correct db pk))) as [Hwrong | Hnone].
  - unfold spec_awarded_binary64.
    by destruct (Nat.eqb_spec (count_correct_choices db (answer_question answer)) 0);
      [lia|].
  - assert (Heq : count_selected db pk = count_selected_correct db pk) by lia.
    rewrite Heq. symmetry. apply spec_awarded_binary64_no_penalty; lia.
Qed.

Lemma foldl_add_cons t x l :
  foldl Binary64.add t (x :: l) = foldl Binary64.add (Binary64.add t x) l.
Proof. reflexivity. Qed.

Lemma score_loop_binary64_spec db answers :
  (forall r, r ∈ answers -> is_Some (db_questions db !! answer_question r.2)) ->
  (forall r, r ∈ answers -> in_float_range db r) ->
  forall total_score answers_to_update,
    Binary64.nonneg total_score ->
    exists new_rows,
      score_loop_binary64 db answers total_score answers_to_update
      = Ok (foldl Binary64.add total_score (awarded_binary64 db <$> answers),
            answers_to_update ++ new_rows) /\
      forall r, r ∈ answers ->
        (1 <= count_correct_choices db (answer_question r.2))%nat ->
        (r.1, ((count_selected_correct db r.1
                =? count_correct_choices db (answer_question r.2))%nat
               && (count_selected db r.1
                   =? count_correct_choices db (answer_question r.2))%nat,
               awarded_binary64 db r)) ∈ new_rows.
Proof.
  induction answers as [|[pk answer] rest IH]; intros Hfk Hrange total upd Hnonneg.
  { exists []. rewrite app_nil_r. split; [done|].
    intros r Hr. by apply elem_of_nil in Hr. }
  destruct (Hfk (pk, answer)) as [question Hq]; [left|].
  pose proof (score_answer_binary64_spec db pk answer question Hq
                (Hrange (pk, answer) ltac:(left))) as Hscore.
  assert (Hfk' : forall r, r ∈ rest ->
            is_Some (db_questions db !! answer_question r.2))
    by (intros; apply Hfk; by right).
  assert (Hrange' : forall r, r ∈ rest -> in_float_range db r)
    by (intros; apply Hrange; by right).
  rewrite fmap_cons, foldl_add_cons.
  cbn [score_loop_binary64]. rewrite Hscore. cbn [mbind py_bind].
  destruct (Nat.ltb_spec 0 (count_correct_choices db (answer_question answer)))
    as [Hpos | Hzero].
  - destruct (IH Hfk' Hrange' (Binary64.add total (awarded_binary64 db (pk, answer)))
                (upd ++ [(pk,
                          ((count_selected_correct db pk
                            =? count_correct_choices db (answer_question answer))%nat
                           && (count_selected db pk
                               =? count_correct_choices db (answer_question answer))%nat,
                           awarded_binary64 db (pk, answer)))]))
      as (new_rows & Hloop & Hrows).
    { apply Binary64Facts.add_nonneg; [done|].
      apply spec_awarded_binary64_nonneg. }
    eexists (_ :: new_rows). split.
    { simpl. rewrite Hloop. by rewrite <- app_assoc. }
    intros r [-> | Hin]%elem_of_cons HC; [left|].
    right. by apply Hrows.
  - destruct (IH Hfk' Hrange' total upd Hnonneg) as (new_rows & Hloop & Hrows).
    exists new_rows. split.
    { rewrite Hloop. do 3 f_equal.
      unfold awarded_binary64, spec_awarded_binary64. simpl.
      destruct (Nat.eqb_spec (count_correct_choices db (answer_question answer)) 0);
        [|lia].
      symmetry. by apply Binary64Facts.add_zero_r. }
    intros r [-> | Hin]%elem_of_cons HC; [simpl in HC; lia|].
    by apply Hrows.
Qed.

(** C3. Provided every answer of the submission points to an existing
    question and the row counts and points are below [2 ^ 53],
    [calculate_score] returns, and in the binary64 arithmetic it computes
    with: an answer whose question has [C >= 1] correct choices is handed to
    [bulk_update] with [points_earned]
    = [max(0, (Sc / C) * points - ((St - Sc) / C) * points)], the branch on a
    wrong selection notwithstanding; an answer whose question has no correct
    choice contributes zero; and the score returned is the sum of these
    awarded points over all the answers, added up from zero in their order. *)
Theorem calculate_score_correct (db : DB) (self : QuizSubmission) :
  (forall r, r ∈ submission_answers db self ->
             is_Some (db_questions db !! answer_question r.2)) ->
  (forall r, r ∈ submission_answers db self -> in_float_range db r) ->
  exists rows total,
    calculate_score_binary64 db self = Ok (rows, total) /\
    total = float_sum (awarded_binary64 db <$> submission_answers db self) /\
    (forall r, r ∈ submission_answers db self ->
       let C := count_correct_choices db (answer_question r.2) in
       let Sc := count_selected_correct db r.1 in
       let St := count_selected db r.1 in
       (C = 0%nat -> awarded_binary64 db r = Binary64.zero) /\
       ((1 <= C)%nat ->
        exists question,
          db_questions db !! answer_question r.2 = Some question /\
          (r.1, ((Sc =? C)%nat && (St =? C)%nat, awarded_binary64 db r)) ∈ rows /\
          awarded_binary64 db r
          = Binary64.max0
              (Binary64.sub
                 (Binary64.mul
                    (Binary64.div (Binary64.of_Z (Z.of_nat Sc))
                                  (Binary64.of_Z (Z.of_nat C)))
                    (Binary64.of_Z (Z.of_N (points question))))
                 (Binary64.mul
                    (Binary64.div (Binary64.of_Z (Z.of_nat St - Z.of_nat Sc))
                                  (Binary64.of_Z (Z.of_nat C)))
                    (Binary64.of_Z (Z.of_N (points question))))))).
Proof.
  intros Hfk Hrange.
  destruct (score_loop_binary64_spec db _ Hfk Hrange Binary64.zero [] I)
    as (new_rows & Hloop & Hrows).
  simpl in Hloop.
  exists new_rows, (float_sum (awarded_binary64 db <$> submission_answers db self)).
  split. { unfold calculate_score_binary64. by rewrite Hloop. }
  split; [done|].
  intros r Hr C Sc St. split.
  - intros HC. unfold awarded_binary64, spec_awarded_binary64. fold C. by rewrite HC.
  - intros HC. destruct (Hfk r Hr) as [question Hq]. exists question.
    split; [done|]. split; [by apply Hrows|].
    unfold awarded_binary64, spec_awarded_binary64, question_points. fold C Sc St.
    rewrite Hq. by destruct (Nat.eqb_spec C 0); [lia|].
Qed.

Lemma calculate_score_correct_witness :
  (forall r, r ∈ submission_answers Sample.db2 Sample.submitted ->
             is_Some (db_questions Sample.db2 !! answer_question r.2)) /\
  (forall r, r ∈ submission_answers Sample.db2 Sample.submitted ->
             in_float_range Sample.db2 r) /\
  exists rows,
    calculate_score_binary64 Sample.db2 Sample.submitted
    = Ok (rows, Binary64.of_Z 15).
Proof.
  assert (Hall : Forall (fun r : Z * Answer =>
                   is_Some (db_questions Sample.db2 !! answer_question r.2) /\
                   Z.of_nat (count_correct_choices Sample.db2 (answer_question r.2))
                   < 2 ^ 53 /\
                   Z.of_nat (count_selected Sample.db2 r.1) < 2 ^ 53 /\
                   Z.of_N (question_points Sample.db2 r) < 2 ^ 53)
                 (submission_answers Sample.db2 Sample.submitted)).
  { apply (bool_decide_unpack _). vm_compute. reflexivity. }
  assert (H1 : forall r, r ∈ submission_answers Sample.db2 Sample.submitted ->
                 is_Some (db_questions Sample.db2 !! answer_question r.2)).
  { intros r Hr. by destruct (proj1 (Forall_forall _ _) Hall r Hr). }
  assert (H2 : forall r, r ∈ submission_answers Sample.db2 Sample.submitted ->
                 in_float_range Sample.db2 r).
  { intros r Hr. by destruct (proj1 (Forall_forall _ _) Hall r Hr). }
  split; [exact H1|]. split; [exact H2|].
  destruct (calculate_score_correct Sample.db2 Sample.submitted H1 H2)
    as (rows & total & Hcalc & Htotal & _).
  exists rows. rewrite Hcalc, Htotal. vm_compute. reflexivity.
Defined.

(** The roundings of the loop on two answers: one correct choice out of
    three for ten points earns 3.333333333333333, not 10/3, and five correct
    with two wrong out of six earns 5.000000000000001, not 5. *)
Example binary64_roundings :
  spec_awarded_binary64 3 1 1 10 = S754_finite false 7505999378950826 (-51) /\
  spec_awarded_binary64 3 1 1 10
  <> Binary64.div (Binary64.of_Z 10) (Binary64.of_Z 3) /\
  spec_awarded_binary64 6 5 7 10 = S754_finite false 5629499534213121 (-50) /\
  spec_awarded_binary64 6 5 7 10 <> Binary64.of_Z 5.
Proof. vm_compute. repeat split; discriminate. Qed.
